(** * RPLidarProjects: the acquisition-to-presentation pipeline

    A shallow embedding of the acquisition, merge, metrics and interchange
    code of the four Python programs

    - [FullLidarMappingGUI.py]  (class [ModernLidarMappingGUI]),
    - [LidarMappingGUI.py]      (class [LidarMappingGUI]),
    - [LidarViewer.py]          (classes [FixedLidarViewer], [LidarWorker]),
    - [RoomMapperLidar.py]      (class [RoomMapperLidar]),

    together with the properties of the design document that concern them.

    Conventions.  Python [float] and [numpy.float64] values are IEEE-754
    binary64 numbers and are modelled by Rocq's primitive [float]; Python
    [int] is [Z]; [len] is [nat].  Widgets, dialogs and plotting calls are
    not part of the state: a dialog is recorded in a log, a call of the
    redraw hook in a counter.  A [str] is the byte string of its UTF-8
    encoding.  The trigonometric functions of numpy, the builtin [float]
    on text and whether the plotting statements of the redraw hook raise
    are parameters; what [json.load] and [csv.reader] return on a file is
    part of the description of the file. *)

From Stdlib Require Import String Ascii ZArith List Bool Lia Floats Arith.
Import ListNotations.

#[local] Set Warnings "-register-all,-abstract-large-number".

(* ================================================================== *)
(** * Binary64 comparisons *)
(* ================================================================== *)

Module F64.

Local Open Scope float_scope.

(** A float that is a number, that is, not a NaN.  The driver computes
    [distance] and [angle] from 16-bit integers, so every measurement
    carries numbers. *)
Definition number (x : float) : Prop := PrimFloat.is_nan x = false.

(** Python compares an [int] with a [float] by value.  The distance
    filter is an integer far below [2^53], where the conversion to
    binary64 is exact; the integer constants that the programs mix with
    floats ([0], [2], [1000000]) are written as float literals. *)
Definition float_of_int (z : Z) : float :=
  match z with
  | Z0 => 0
  | Zpos _ => PrimFloat.of_uint63 (Uint63.of_Z z)
  | Zneg _ => - PrimFloat.of_uint63 (Uint63.of_Z (- z))
  end.

(** [a > b] in Python is [b < a]. *)
Definition gtb (a b : float) : bool := b <? a.

Lemma SFcompare_refl s : s <> S754_nan -> SFcompare s s = Some Eq.
Proof.
  destruct s as [b|b| |b m e]; simpl; intros H; try congruence.
  - destruct b; reflexivity.
  - rewrite Z.compare_refl, Pos.compare_cont_refl. destruct b; reflexivity.
Qed.

Lemma number_spec x : number x <-> Prim2SF x <> S754_nan.
Proof.
  unfold number, PrimFloat.is_nan. rewrite FloatAxioms.eqb_spec. unfold SFeqb. split.
  - intros H E. rewrite E in H. discriminate.
  - intros H. rewrite SFcompare_refl by assumption. reflexivity.
Qed.

Lemma SFcompare_total s t :
  s <> S754_nan -> t <> S754_nan -> exists c, SFcompare s t = Some c.
Proof. destruct s, t; simpl; intros; try congruence; eauto. Qed.

Lemma SFcompare_antisym s t c :
  SFcompare s t = Some c -> SFcompare t s = Some (CompOpp c).
Proof.
  destruct s as [b|b| |b m e], t as [b'|b'| |b' m' e']; simpl; intros H;
    try discriminate; injection H as <-;
    try (destruct b; try destruct b'; reflexivity);
    try (destruct b'; reflexivity).
  f_equal. rewrite (Z.compare_antisym e e').
  change (Pos.compare_cont Eq m' m) with (Pos.compare_cont (CompOpp Eq) m' m).
  rewrite <- (Pos.compare_cont_antisym m m' Eq).
  destruct b, b'; simpl; try reflexivity;
    destruct (e ?= e')%Z; simpl; try reflexivity;
    rewrite ?CompOpp_involutive; reflexivity.
Qed.

(** On numbers [<=] is the negation of the converse [<]. *)
Lemma leb_ltb x y : number x -> number y -> (x <=? y) = negb (y <? x).
Proof.
  rewrite !number_spec. intros Hx Hy. rewrite FloatAxioms.leb_spec, FloatAxioms.ltb_spec.
  unfold SFleb, SFltb.
  destruct (SFcompare_total _ _ Hx Hy) as [c Hc].
  rewrite Hc, (SFcompare_antisym _ _ _ Hc). destruct c; reflexivity.
Qed.

Lemma leb_refl x : number x -> (x <=? x) = true.
Proof.
  rewrite number_spec, FloatAxioms.leb_spec. intros H. unfold SFleb.
  rewrite SFcompare_refl by assumption. reflexivity.
Qed.

Lemma SFleb_trans s t u :
  SFleb s t = true -> SFleb t u = true -> SFleb s u = true.
Proof.
  unfold SFleb.
  destruct s as [b|b| |b m e], t as [b'|b'| |b' m' e'], u as [b''|b''| |b'' m'' e''];
    simpl; try discriminate; try reflexivity;
    repeat match goal with b : bool |- _ => destruct b end;
    simpl; try discriminate; try reflexivity;
    rewrite ?Pos.compare_cont_spec; simpl;
    destruct (Z.compare_spec e e'); destruct (Z.compare_spec e' e'');
    destruct (Z.compare_spec e e''); try lia; subst;
    simpl; try discriminate; try reflexivity;
    destruct (Pos.compare_spec m m'); destruct (Pos.compare_spec m' m'');
    destruct (Pos.compare_spec m m''); try lia; subst;
    simpl; try discriminate; try reflexivity.
Qed.

Lemma leb_trans x y z : (x <=? y) = true -> (y <=? z) = true -> (x <=? z) = true.
Proof. rewrite !FloatAxioms.leb_spec. apply SFleb_trans. Qed.

Lemma ltb_leb x y : (x <? y) = true -> (x <=? y) = true.
Proof.
  rewrite FloatAxioms.ltb_spec, FloatAxioms.leb_spec. unfold SFltb, SFleb.
  destruct (SFcompare (Prim2SF x) (Prim2SF y)) as [[ | | ]|]; congruence.
Qed.

End F64.

(* ================================================================== *)
(** * Python sequences *)
(* ================================================================== *)

Module Py.

(** The last [n] elements of [l] (all of [l] when it is shorter). *)
Definition last_n {A} (n : nat) (l : list A) : list A :=
  skipn (length l - n) l.

(** The slice [l[-n:]] for [n >= 0].  [-0] is [0], so [l[-0:]] is the
    whole list. *)
Definition slice_from_neg {A} (n : nat) (l : list A) : list A :=
  if (n =? 0)%nat then l else last_n n l.

Lemma last_n_length {A} n (l : list A) : length (last_n n l) = Nat.min n (length l).
Proof. unfold last_n. rewrite length_skipn. lia. Qed.

Lemma last_n_all {A} n (l : list A) : length l <= n -> last_n n l = l.
Proof.
  intros H. unfold last_n. replace (length l - n) with 0 by lia. reflexivity.
Qed.

Lemma last_n_app {A} n (l ys : list A) :
  last_n n (last_n n l ++ ys) = last_n n (l ++ ys).
Proof.
  unfold last_n. rewrite !length_app, length_skipn, !skipn_app, length_skipn.
  rewrite skipn_skipn. f_equal; f_equal; lia.
Qed.

End Py.

(* ================================================================== *)
(** * [collections.deque] with [maxlen] *)
(* ================================================================== *)

Module Deque.

Record deque (A : Type) : Type := mk { maxlen : nat; items : list A }.
Arguments mk {A}.
Arguments maxlen {A}.
Arguments items {A}.

(** [deque(maxlen=n)] *)
Definition empty {A} (n : nat) : deque A := mk n [].

(** [d.append(x)]: the item is added on the right; a deque that is then
    longer than [maxlen] drops its leftmost item. *)
Definition append {A} (d : deque A) (x : A) : deque A :=
  let l := items d ++ [x] in
  mk (maxlen d) (if (maxlen d <? length l)%nat then tl l else l).

(** [d.extend(xs)]: [append] for every item of [xs], left to right. *)
Definition extend {A} (d : deque A) (xs : list A) : deque A :=
  fold_left append xs d.

(** [d.clear()] *)
Definition clear {A} (d : deque A) : deque A := mk (maxlen d) [].

(** [len(d)] and the truth value of [d]. *)
Definition len {A} (d : deque A) : nat := length (items d).
Definition is_empty {A} (d : deque A) : bool :=
  match items d with [] => true | _ => false end.

(** A deque respects its bound. *)
Definition wf {A} (d : deque A) : Prop := length (items d) <= maxlen d.

Lemma append_maxlen {A} (d : deque A) x : maxlen (append d x) = maxlen d.
Proof. reflexivity. Qed.

Lemma extend_nil {A} (d : deque A) : extend d [] = d.
Proof. reflexivity. Qed.

Lemma extend_cons {A} (d : deque A) x xs :
  extend d (x :: xs) = extend (append d x) xs.
Proof. reflexivity. Qed.

Lemma extend_maxlen {A} xs : forall d : deque A, maxlen (extend d xs) = maxlen d.
Proof.
  induction xs as [|x xs IH]; intros d; [reflexivity|].
  rewrite extend_cons, IH. apply append_maxlen.
Qed.

Lemma append_items {A} (d : deque A) x :
  wf d -> items (append d x) = Py.last_n (maxlen d) (items d ++ [x]).
Proof.
  unfold wf, append, Py.last_n. simpl. rewrite length_app. simpl. intros H.
  destruct (Nat.ltb_spec (maxlen d) (length (items d) + 1)).
  - replace (length (items d) + 1 - maxlen d) with 1 by lia. reflexivity.
  - replace (length (items d) + 1 - maxlen d) with 0 by lia. reflexivity.
Qed.

Lemma append_wf {A} (d : deque A) x : wf d -> wf (append d x).
Proof.
  intros H. unfold wf. rewrite append_items by assumption.
  rewrite Py.last_n_length, append_maxlen. lia.
Qed.

Lemma extend_wf {A} xs : forall d : deque A, wf d -> wf (extend d xs).
Proof.
  induction xs as [|x xs IH]; intros d H; [assumption|].
  rewrite extend_cons. apply IH, append_wf, H.
Qed.

Lemma extend_items {A} xs : forall d : deque A,
  wf d -> items (extend d xs) = Py.last_n (maxlen d) (items d ++ xs).
Proof.
  induction xs as [|x xs IH]; intros d H.
  - rewrite extend_nil, app_nil_r. symmetry. apply Py.last_n_all, H.
  - rewrite extend_cons, IH by (apply append_wf, H).
    rewrite append_items, append_maxlen by assumption.
    rewrite Py.last_n_app, <- app_assoc. reflexivity.
Qed.

Lemma extend_app {A} (d : deque A) xs ys :
  extend d (xs ++ ys) = extend (extend d xs) ys.
Proof. apply fold_left_app. Qed.

(** What holds of the items of a deque and of the items added holds of
    the items afterwards. *)
Lemma append_Forall {A} (P : A -> Prop) (d : deque A) x :
  Forall P (items d) -> P x -> Forall P (items (append d x)).
Proof.
  intros Hd Hx. unfold append. cbn [items].
  assert (H : Forall P (items d ++ [x])).
  { apply Forall_app. split; [exact Hd | constructor; [exact Hx | constructor]]. }
  destruct (maxlen d <? length (items d ++ [x]))%nat; [| exact H].
  destruct (items d ++ [x]) as [|y l]; [constructor |].
  cbn [tl]. inversion H; assumption.
Qed.

Lemma extend_Forall {A} (P : A -> Prop) xs : forall d : deque A,
  Forall P (items d) -> Forall P xs -> Forall P (items (extend d xs)).
Proof.
  induction xs as [|x xs IH]; intros d Hd Hxs; [exact Hd |].
  rewrite extend_cons. inversion Hxs; subst.
  apply IH; [apply append_Forall |]; assumption.
Qed.

End Deque.

(* ================================================================== *)
(** * Measurements and the polar-to-Cartesian step *)
(* ================================================================== *)

Module Sensor.

Local Open Scope float_scope.

(** One item of a scan of [RPLidar.iter_scans]: the triple
    [(quality, angle, distance)]. *)
Record measurement : Type := mk {
  quality : Z;
  angle : float;      (* degrees *)
  distance : float    (* millimetres *)
}.

Definition scan : Type := list measurement.

(** [np.radians], [np.cos] and [np.sin] are functions of numpy's C
    library; the programs only apply them. *)
Class Numpy : Type := {
  radians : float -> float;
  cos : float -> float;
  sin : float -> float
}.

(** [angle_rad = np.radians(angle)]
    [x = distance * np.cos(angle_rad)]
    [y = distance * np.sin(angle_rad)] *)
Definition cartesian {np : Numpy} (m : measurement) : float * float :=
  let angle_rad := radians (angle m) in
  (distance m * cos angle_rad, distance m * sin angle_rad).

(** A measurement whose distance is a number. *)
Definition well_formed (m : measurement) : Prop := F64.number (distance m).

(** An instance to run the definitions with: polynomial approximations
    around [0], exact at the angle [0]. *)
Definition poly_radians (a : float) : float := a * (0x1.921fb54442d18p+1 / 180).
Definition poly_cos (x : float) : float :=
  let x2 := x * x in 1 - x2 / 2 + x2 * x2 / 24 - x2 * x2 * x2 / 720.
Definition poly_sin (x : float) : float :=
  let x2 := x * x in x - x * x2 / 6 + x * x2 * x2 / 120 - x * x2 * x2 * x2 / 5040.
Definition poly_numpy : Numpy :=
  {| radians := poly_radians; cos := poly_cos; sin := poly_sin |}.

End Sensor.

(* ================================================================== *)
(** * [LidarViewer.py], class [FixedLidarViewer], and
      [RoomMapperLidar.py], class [RoomMapperLidar] *)
(* ================================================================== *)

Module Viewer.

Import Sensor.
Local Open Scope float_scope.

(** The fields of the viewer that the scan worker writes. *)
Record viewer : Type := mk {
  all_points : list (float * float);
  scan_count : Z
}.

Definition init : viewer := mk [] 0.

Section ScanWorker.
Context {np : Numpy}.

(** The inner loop of [scan_worker]:
<<
    for quality, angle, distance in scan:
        if distance > 0:
            ...
            new_points.append((x, y))
>> *)
Fixpoint new_points (s : scan) : list (float * float) :=
  match s with
  | [] => []
  | m :: rest =>
      if F64.gtb (distance m) 0
      then cartesian m :: new_points rest
      else new_points rest
  end.

(** The body of the outer loop for one scan, with the number of points
    kept ([2000] in the viewer, [3000] in the room mapper):
<<
    if new_points:
        self.all_points.extend(new_points)
        if len(self.all_points) > 2000:
            self.all_points = self.all_points[-2000:]
        self.scan_count += 1
>> *)
Definition store_scan (keep : nat) (v : viewer) (s : scan) : viewer :=
  match new_points s with
  | [] => v
  | pts =>
      let l := all_points v ++ pts in
      let l := if (keep <? length l)%nat then Py.slice_from_neg keep l else l in
      mk l (scan_count v + 1)
  end.

(** [scan_worker] on the scans the driver yields while [is_scanning]
    stays set. *)
Definition scan_worker (keep : nat) (scans : list scan) (v : viewer) : viewer :=
  fold_left (store_scan keep) scans v.

End ScanWorker.

(** [FixedLidarViewer] keeps 2000 points, [RoomMapperLidar] 3000. *)
Definition viewer_keep : nat := 2000.
Definition mapper_keep : nat := 3000.

End Viewer.

Module RoomMapper.

Local Open Scope float_scope.

(** The dictionary [measure_room] returns. *)
Record room_data : Type := mk {
  width : float;
  height : float;
  area : float;
  perimeter : float;
  center : float * float;
  bounds : float * float * float * float;  (* min x, min y, max x, max y *)
  point_count : nat
}.

(** The builtin [max]: the first item, replaced by every later item
    that is greater than the current maximum.  ([max] of an empty list
    raises [ValueError]; [measure_room] calls it on more than 100
    items, and the value given here for the empty list is never used.) *)
Definition py_max (l : list float) : float :=
  match l with
  | [] => 0
  | x :: rest => fold_left (fun m item => if F64.gtb item m then item else m) rest x
  end.

(** The builtin [min], likewise with [item < current]. *)
Definition py_min (l : list float) : float :=
  match l with
  | [] => 0
  | x :: rest => fold_left (fun m item => if item <? m then item else m) rest x
  end.

(** [RoomMapperLidar.measure_room] *)
Definition measure_room (all_points : list (float * float)) : option room_data :=
  if (100 <? length all_points)%nat then
    let xs := map fst all_points in
    let ys := map snd all_points in
    let width := py_max xs - py_min xs in
    let height := py_max ys - py_min ys in
    let room_area := width * height / 1000000 in
    let perimeter := 2 * (width + height) in
    let center_x := (py_max xs + py_min xs) / 2 in
    let center_y := (py_max ys + py_min ys) / 2 in
    Some {| width := width;
            height := height;
            area := room_area;
            perimeter := perimeter;
            center := (center_x, center_y);
            bounds := (py_min xs, py_min ys, py_max xs, py_max ys);
            point_count := length all_points |}
  else None.

(** The axis-aligned bounding box of a point set, as a specification:
    each bound is the coordinate of some point, and no point lies
    outside. *)
Definition is_min (l : list float) (m : float) : Prop :=
  In m l /\ forall x, In x l -> (m <=? x) = true.
Definition is_max (l : list float) (m : float) : Prop :=
  In m l /\ forall x, In x l -> (x <=? m) = true.

Definition bounding_box (pts : list (float * float))
  (b : float * float * float * float) : Prop :=
  let '(min_x, min_y, max_x, max_y) := b in
  is_min (map fst pts) min_x /\ is_min (map snd pts) min_y /\
  is_max (map fst pts) max_x /\ is_max (map snd pts) max_y.

End RoomMapper.

(* ================================================================== *)
(** * [LidarViewer.py], class [LidarWorker] (the Qt acquisition thread) *)
(* ================================================================== *)

Module Worker.

Import Sensor.
Local Open Scope float_scope.

(** The signals of the thread: [data_ready], [error_signal] and
    [info_signal].  [error_signal] is connected to [FixedLidarGUI.on_error],
    the only place where the window learns of a fault. *)
Inductive signal : Type :=
| DataReady (points : list (float * float))
| ErrorSignal (msg : string)
| InfoSignal.

Definition is_error (s : signal) : bool :=
  match s with ErrorSignal _ => true | _ => false end.
Definition is_data (s : signal) : bool :=
  match s with DataReady _ => true | _ => false end.

(** The thread object: whether [self.lidar] holds a driver object,
    [self.is_scanning], and the signals emitted so far, oldest first. *)
Record worker : Type := mk {
  lidar : bool;
  is_scanning : bool;
  emitted : list signal
}.

Definition init : worker := mk false false [].

Definition emit (s : signal) (w : worker) : worker :=
  mk (lidar w) (is_scanning w) (emitted w ++ [s]).

(** What the driver does in [connect_lidar]: [RPLidar(port)] raises,
    [get_info] or [get_health] raises, or all three return. *)
Inductive connect_outcome : Type :=
| OpenFails (e : string)
| InfoFails (e : string)
| Connects.

(** What one [next(self.lidar.iter_scans(max_buf_meas=500))] does. *)
Inductive frame : Type :=
| Frame (s : scan)
| StopIteration
| Raises (e : string).

(** [connect_lidar]; the boolean is its return value. *)
Definition connect_lidar (c : connect_outcome) (w : worker) : worker * bool :=
  match c with
  | OpenFails e =>
      (emit (ErrorSignal ("Connection failed: " ++ e)) w, false)
  | InfoFails e =>
      (emit (ErrorSignal ("Connection failed: " ++ e))
            (mk true (is_scanning w) (emitted w)), false)
  | Connects =>
      (emit InfoSignal (mk true (is_scanning w) (emitted w)), true)
  end.

(** [disconnect_lidar]: failures of [stop] and [disconnect] are
    swallowed, and [self.lidar] is reset in the [finally] clause. *)
Definition disconnect_lidar (w : worker) : worker :=
  mk false false (emitted w).

Definition max_consecutive_errors : Z := 3.

Section Run.
Context {np : Numpy}.

(** The inner loop of [run]:
<<
    for quality, angle, distance in scan:
        if distance > 0 and quality > 0:
            ...
            points.append((x, y))
>> *)
Fixpoint points_of (s : scan) : list (float * float) :=
  match s with
  | [] => []
  | m :: rest =>
      if F64.gtb (distance m) 0 && (quality m >? 0)%Z
      then cartesian m :: points_of rest
      else points_of rest
  end.

(** The [while] loop of [run] on the outcomes of the successive
    [next] calls.  The result is the worker, the counter
    [consecutive_errors], and whether the loop was left ([true]) or the
    thread waits for a frame beyond the given ones ([false]).
<<
    while self.is_scanning and consecutive_errors < max_consecutive_errors:
        try:
            scan = next(self.lidar.iter_scans(max_buf_meas=500))
            points = [...]
            if points:
                self.data_ready.emit(points)
                consecutive_errors = 0
            else:
                consecutive_errors += 1
            time.sleep(0.02)
        except StopIteration:
            break
        except Exception as e:
            consecutive_errors += 1
            ...
>> *)
Fixpoint scan_loop (frames : list frame) (w : worker) (consecutive_errors : Z)
  : worker * Z * bool :=
  if is_scanning w && (consecutive_errors <? max_consecutive_errors)%Z then
    match frames with
    | [] => (w, consecutive_errors, false)
    | Frame s :: rest =>
        match points_of s with
        | [] => scan_loop rest w (consecutive_errors + 1)
        | points => scan_loop rest (emit (DataReady points) w) 0
        end
    | StopIteration :: _ => (w, consecutive_errors, true)
    | Raises _ :: rest => scan_loop rest w (consecutive_errors + 1)
    end
  else (w, consecutive_errors, true).

(** How far a thread got on the frames given. *)
Inductive outcome : Type :=
| Finished (w : worker)                            (* [run] returned *)
| Waiting (w : worker) (consecutive_errors : Z).   (* blocked in [next] *)

(** [LidarWorker.run].  No statement of the inner [try] lets an
    [Exception] escape, so the outer handler, the only one that emits
    [error_signal] while scanning, has nothing to catch. *)
Definition run (c : connect_outcome) (frames : list frame) (w : worker) : outcome :=
  match connect_lidar c w with
  | (w1, false) => Finished w1
  | (w1, true) =>
      let w2 := mk (lidar w1) true (emitted w1) in
      match scan_loop frames w2 0 with
      | (w3, _, true) => Finished (disconnect_lidar w3)
      | (w3, n, false) => Waiting w3 n
      end
  end.

(** A fault is reported when [error_signal] was emitted. *)
Definition fault_reported (w : worker) : bool := existsb is_error (emitted w).

(** A frame that fails: the read raised, or no point was accepted. *)
Definition failing (f : frame) : bool :=
  match f with
  | Frame s => match points_of s with [] => true | _ => false end
  | Raises _ => true
  | StopIteration => false
  end.

(** A frame on which the read raised. *)
Definition read_failure (f : frame) : bool :=
  match f with Raises _ => true | _ => false end.

(** A frame that was read but of which every measurement is filtered out. *)
Definition all_filtered (f : frame) : bool :=
  match f with
  | Frame s => match points_of s with [] => true | _ => false end
  | _ => false
  end.

End Run.

End Worker.

(* ================================================================== *)
(** * Python values that occur as points and in the interchange files *)
(* ================================================================== *)

Module PyVal.

(** The values [json.load] can return, which are also the values the
    scan worker builds for a point ([[x, y, quality, distance]]). *)
Inductive pyval : Type :=
| PNone
| PBool (b : bool)
| PInt (z : Z)
| PFloat (f : float)
| PStr (s : string)
| PList (l : list pyval)
| PDict (d : list (string * pyval)).

(** [d[key]] on a dictionary given by its items. *)
Fixpoint lookup (key : string) (d : list (string * pyval)) : option pyval :=
  match d with
  | [] => None
  | (k, v) :: rest => if String.eqb k key then Some v else lookup key rest
  end.

(** A [str] is held as the bytes of its UTF-8 encoding.  A character
    (code point) is one byte that is not of the form [10xxxxxx],
    followed by its continuation bytes, which are of that form. *)
Definition is_continuation (c : ascii) : bool :=
  match c with
  | Ascii _ _ _ _ _ _ b6 b7 => b7 && negb b6
  end.

(** The continuation bytes at the head of a string, and the characters
    behind them. *)
Fixpoint split_chars (s : string) : string * list pyval :=
  match s with
  | EmptyString => (EmptyString, [])
  | String c rest =>
      let '(continuation, cs) := split_chars rest in
      if is_continuation c then (String c continuation, cs)
      else (EmptyString, PStr (String c continuation) :: cs)
  end.

(** The characters of a string, each as a string of length one: what
    iterating over a [str] yields.  (An encoding never starts with a
    continuation byte; such bytes would be kept as one item.) *)
Definition chars (s : string) : list pyval :=
  match split_chars s with
  | (EmptyString, cs) => cs
  | (stray, cs) => PStr stray :: cs
  end.

(** The text of a list of strings, joined. *)
Fixpoint text_of (items : list pyval) : string :=
  match items with
  | [] => EmptyString
  | PStr s :: rest => s ++ text_of rest
  | _ :: rest => text_of rest
  end.

(** One character: a byte that is not a continuation byte, followed by
    continuation bytes only. *)
Fixpoint continuation_bytes (s : string) : bool :=
  match s with
  | EmptyString => true
  | String c rest => is_continuation c && continuation_bytes rest
  end.

Definition is_character (p : pyval) : bool :=
  match p with
  | PStr (String c rest) => negb (is_continuation c) && continuation_bytes rest
  | _ => false
  end.

(** [list("ab")] and [list("aé")], the latter of three bytes. *)
Example chars_examples :
  chars "ab" = [PStr "a"; PStr "b"] /\
  chars (String "a" (String "195" (String "169" EmptyString)))
  = [PStr "a"; PStr (String "195" (String "169" EmptyString))] /\
  chars "" = [].
Proof. repeat split. Qed.

(** [iter(v)]: the items a [for] loop or [extend] sees, [None] when
    the value is not iterable ([TypeError]). *)
Definition iterate (v : pyval) : option (list pyval) :=
  match v with
  | PList l => Some l
  | PStr s => Some (chars s)
  | PDict d => Some (map (fun kv => PStr (fst kv)) d)
  | PNone | PBool _ | PInt _ | PFloat _ => None
  end.

(** [s.endswith(suffix)] *)
Definition endswith (s suffix : string) : bool :=
  let n := String.length s in
  let k := String.length suffix in
  (k <=? n)%nat && String.eqb (substring (n - k) k s) suffix.

Example endswith_examples :
  endswith "scan.json" ".json" = true /\
  endswith "json" ".json" = false /\
  endswith "scan.json.csv" ".json" = false /\
  endswith "scan.csv" ".csv" = true /\
  endswith "" ".csv" = false.
Proof. repeat split. Qed.

End PyVal.

(* ================================================================== *)
(** * [FullLidarMappingGUI.py], class [ModernLidarMappingGUI], and
      [LidarMappingGUI.py], class [LidarMappingGUI] *)
(* ================================================================== *)

Module MappingGUI.

Import Sensor PyVal.
Local Open Scope float_scope.

(** An item of [self.data_queue]: the list of points of one scan, or
    the tuple [("error", str(e))]. *)
Inductive message : Type :=
| Data (points : list pyval)
| Fault (description : string).

(** The exceptions that the handlers of this class catch. *)
Inductive exn : Type :=
| JSONDecodeError
| KeyError
| TypeError
| IndexError
| ValueError
| StopIterationError
| UnboundLocalError.

(** A modal dialog of [tkinter.messagebox], by kind and title; an
    error dialog of [load_data] also records what was caught. *)
Inductive dialog : Type :=
| ShowInfo (title : string)
| ShowWarning (title : string)
| ShowError (title : string) (cause : option exn).

(** The fields of the window that the pipeline reads and writes, and
    two records of its effects on the outside: [redraws] counts the
    calls of [update_visualization], [dialogs] lists the dialogs shown,
    oldest first.  [timer] tells whether [process_queue] is scheduled
    to run again ([root.after]). *)
Record gui : Type := mk {
  connection_status : bool;
  is_scanning : bool;
  all_points : Deque.deque pyval;
  scan_count : Z;
  filter_distance : Z;
  data_queue : list message;
  timer : bool;
  redraws : nat;
  dialogs : list dialog
}.

(** [__init__] of [ModernLidarMappingGUI]. *)
Definition capacity : nat := 150000.
Definition init : gui :=
  mk false false (Deque.empty capacity) 0 8000 [] false 0 [].

Definition set_all_points (d : Deque.deque pyval) (g : gui) : gui :=
  mk (connection_status g) (is_scanning g) d (scan_count g)
     (filter_distance g) (data_queue g) (timer g) (redraws g) (dialogs g).
Definition set_scan_count (n : Z) (g : gui) : gui :=
  mk (connection_status g) (is_scanning g) (all_points g) n
     (filter_distance g) (data_queue g) (timer g) (redraws g) (dialogs g).
Definition set_is_scanning (b : bool) (g : gui) : gui :=
  mk (connection_status g) b (all_points g) (scan_count g)
     (filter_distance g) (data_queue g) (timer g) (redraws g) (dialogs g).
Definition set_data_queue (q : list message) (g : gui) : gui :=
  mk (connection_status g) (is_scanning g) (all_points g) (scan_count g)
     (filter_distance g) q (timer g) (redraws g) (dialogs g).
Definition set_timer (b : bool) (g : gui) : gui :=
  mk (connection_status g) (is_scanning g) (all_points g) (scan_count g)
     (filter_distance g) (data_queue g) b (redraws g) (dialogs g).
Definition show (d : dialog) (g : gui) : gui :=
  mk (connection_status g) (is_scanning g) (all_points g) (scan_count g)
     (filter_distance g) (data_queue g) (timer g) (redraws g) (dialogs g ++ [d]).

(** [update_visualization], as to the fields of the window: it reads
    [all_points] and [filter_distance] and writes to the plot only; the
    model counts the call.  The fields are left so whether the call
    returns or its plotting statements raise, which they do on a store
    whose rows are not rows of four numbers; the module [Raising] below
    tells the two apart. *)
Definition update_visualization (g : gui) : gui :=
  mk (connection_status g) (is_scanning g) (all_points g) (scan_count g)
     (filter_distance g) (data_queue g) (timer g) (S (redraws g)) (dialogs g).

(** [stop_scan], as to the fields of the window: the flag is cleared,
    the driver is asked to stop (failures swallowed), the thread is
    joined for at most two seconds, and the plot is brought up to date.
    The call of [update_visualization] is the last statement and is not
    guarded; [Raising.stop_scan] tells whether it raises. *)
Definition stop_scan (g : gui) : gui :=
  update_visualization (set_is_scanning false g).

Section Acquisition.
Context {np : Numpy}.

(** The test and the conversion of the inner loop of [scan_worker],
    for one measurement: the point, or [None] when the measurement is
    skipped.
<<
    if 0 < distance <= self.filter_distance and quality > 0:
        angle_rad = np.radians(angle)
        x = distance * np.cos(angle_rad)
        y = distance * np.sin(angle_rad)
        points.append([x, y, quality, distance])
>> *)
Definition convert (filter_distance : Z) (m : measurement) : option pyval :=
  if (0 <? distance m) && (distance m <=? F64.float_of_int filter_distance)
     && (quality m >? 0)%Z
  then
    let '(x, y) := cartesian m in
    Some (PList [PFloat x; PFloat y; PInt (quality m); PFloat (distance m)])
  else None.

(** The points of one scan. *)
Fixpoint scan_points (filter_distance : Z) (s : scan) : list pyval :=
  match s with
  | [] => []
  | m :: rest =>
      match convert filter_distance m with
      | Some p => p :: scan_points filter_distance rest
      | None => scan_points filter_distance rest
      end
  end.

(** What the iteration over [self.lidar.iter_scans(...)] does next. *)
Inductive frame : Type :=
| Frame (s : scan)
| Raises (e : string).

(** [scan_worker] on the frames the driver delivers; the window's
    fields are those the thread sees.
<<
    try:
        for scan in self.lidar.iter_scans(...):
            if not self.is_scanning:
                break
            points = [...]
            if points:
                self.data_queue.put(points)
    except Exception as e:
        if self.is_scanning:
            self.data_queue.put(("error", str(e)))
>> *)
Fixpoint scan_worker (frames : list frame) (g : gui) : gui :=
  match frames with
  | [] => g
  | Frame s :: rest =>
      if negb (is_scanning g) then g
      else
        match scan_points (filter_distance g) s with
        | [] => scan_worker rest g
        | points => scan_worker rest (set_data_queue (data_queue g ++ [Data points]) g)
        end
  | Raises e :: _ =>
      if is_scanning g
      then set_data_queue (data_queue g ++ [Fault e]) g
      else g
  end.

End Acquisition.

(** The [while True] loop of [process_queue] on the items that
    [get_nowait] returns until it raises [queue.Empty], in a run in
    which no call of [update_visualization] raises; [every] is the
    number of scans between two redraws (3 in [ModernLidarMappingGUI],
    2 in [LidarMappingGUI]).  Only [queue.Empty] is caught: a call that
    raises ends the loop where it stands, which is [Raising.drain].
<<
    data = self.data_queue.get_nowait()
    if isinstance(data, tuple) and data[0] == "error":
        messagebox.showerror("Scan Error", ...)
        self.stop_scan()
    else:
        self.all_points.extend(data)
        self.scan_count += 1
        if self.scan_count % 3 == 0:
            self.update_visualization()
>> *)
Fixpoint drain (every : Z) (items : list message) (g : gui) : gui :=
  match items with
  | [] => g
  | Fault _ :: rest =>
      drain every rest (stop_scan (show (ShowError "Scan Error" None) g))
  | Data points :: rest =>
      let g1 := set_all_points (Deque.extend (all_points g) points) g in
      let g2 := set_scan_count (scan_count g1 + 1) g1 in
      let g3 := if (scan_count g2 mod every =? 0)%Z
                then update_visualization g2 else g2 in
      drain every rest g3
  end.

(** [process_queue] when no call of [update_visualization] raises: the
    queue is emptied, and the method schedules itself again when
    [is_scanning] is still set. *)
Definition process_queue (every : Z) (g : gui) : gui :=
  let g' := drain every (data_queue g) (set_data_queue [] g) in
  set_timer (is_scanning g') g'.

Definition redraw_every_full : Z := 3.
Definition redraw_every_basic : Z := 2.

(** [start_scan], once the worker thread is started: the counters are
    reset, the store is cleared and [process_queue] runs a first time. *)
Definition start_scan (every : Z) (g : gui) : gui :=
  if negb (connection_status g) then show (ShowWarning "Warning") g
  else
    let g1 := set_scan_count 0 (set_is_scanning true g) in
    let g2 := set_all_points (Deque.clear (all_points g1)) g1 in
    process_queue every g2.

(** ** Export and import *)

(** What [export_data] writes to the chosen file. *)
Inductive written : Type :=
| WroteJson (doc : pyval)                              (* [json.dump] *)
| WroteCsv (header : list string) (rows : list pyval). (* [csv.writer] *)

(** [export_data] with the file name returned by the save dialog (empty
    when the dialog was cancelled) and the text of
    [datetime.now().isoformat()]. *)
Definition export_data (filename now : string) (g : gui) : gui * option written :=
  if Deque.is_empty (all_points g) then (show (ShowWarning "Warning") g, None)
  else if String.eqb filename "" then (g, None)
  else
    let points_list := Deque.items (all_points g) in
    if endswith filename ".json" then
      let data_to_save :=
        PDict [("points"%string, PList points_list);
               ("scan_count"%string, PInt (scan_count g));
               ("timestamp"%string, PStr now);
               ("total_points"%string, PInt (Z.of_nat (Deque.len (all_points g))));
               ("filter_distance"%string, PInt (filter_distance g))] in
      (show (ShowInfo "Success") g, Some (WroteJson data_to_save))
    else if endswith filename ".csv" then
      (show (ShowInfo "Success") g,
       Some (WroteCsv ["X"; "Y"; "Quality"; "Distance"]%string points_list))
    else (show (ShowInfo "Success") g, None).

(** A file as [load_data] sees it: its name, what [json.load] returns
    on its text ([None] when it raises), and the rows that
    [csv.reader] yields from it. *)
Record file : Type := mk_file {
  filename : string;
  json_load : option pyval;
  csv_rows : list (list string)
}.

(** Exceptions inside the [try] block. *)
Definition result (A : Type) : Type := exn + A.
Definition bind {A B} (r : result A) (k : A -> result B) : result B :=
  match r with inl e => inl e | inr a => k a end.
Notation "'do' x <- r ; k" := (bind r (fun x => k))
  (at level 10, x name, r at level 100, k at level 200).

Fixpoint traverse {A B} (f : A -> result B) (l : list A) : result (list B) :=
  match l with
  | [] => inr []
  | a :: rest => do b <- f a; do bs <- traverse f rest; inr (b :: bs)
  end.

(** [data = json.load(f)] then [points = data['points']]. *)
Definition read_json (f : file) : result pyval :=
  match json_load f with
  | None => inl JSONDecodeError
  | Some (PDict d) =>
      match lookup "points" d with
      | Some v => inr v
      | None => inl KeyError
      end
  | Some _ => inl TypeError
  end.

Section Loading.

(** The builtin [float] on the text of a cell: [None] is [ValueError]. *)
Variable py_float : string -> option float.

(** Whether the plotting calls of [update_visualization] raise on the
    contents of the store.  They do not on the points of the scan
    worker; on the contents of a foreign file they may, and [load_data]
    catches it. *)
Variable plot_raises : list pyval -> Z -> option exn.

(** [float(row[i])] *)
Definition cell (row : list string) (i : nat) : result float :=
  match nth_error row i with
  | None => inl IndexError
  | Some text =>
      match py_float text with
      | None => inl ValueError
      | Some x => inr x
      end
  end.

(** [[float(row[0]), float(row[1]), float(row[2]), float(row[3])]] *)
Definition read_row (row : list string) : result pyval :=
  do x <- cell row 0;
  do y <- cell row 1;
  do q <- cell row 2;
  do d <- cell row 3;
  inr (PList [PFloat x; PFloat y; PFloat q; PFloat d]).

(** The [csv] branch: [next(reader)] skips the header, then every row
    is converted. *)
Definition read_csv (f : file) : result pyval :=
  match csv_rows f with
  | [] => inl StopIterationError
  | _ :: rows => do points <- traverse read_row rows; inr (PList points)
  end.

(** The first statement of the [try] block: [points] is bound by one of
    the two branches, or left unbound when the name has neither
    extension. *)
Definition read_points (f : file) : result (option pyval) :=
  if endswith (filename f) ".json" then do v <- read_json f; inr (Some v)
  else if endswith (filename f) ".csv" then do v <- read_csv f; inr (Some v)
  else inr None.

(** [load_data] with the file chosen in the open dialog.
<<
    self.all_points.clear()
    self.all_points.extend(points)
    self.scan_count = len(points) // 100
    self.update_visualization()
    ...
    messagebox.showinfo("Success", ...)
  except Exception as e:
    messagebox.showerror("Error", ...)
>> *)
Definition load_data (f : file) (g : gui) : gui :=
  if String.eqb (filename f) "" then g
  else
    match read_points f with
    | inl e => show (ShowError "Error" (Some e)) g
    | inr points =>
        let g1 := set_all_points (Deque.clear (all_points g)) g in
        match points with
        | None => show (ShowError "Error" (Some UnboundLocalError)) g1
        | Some v =>
            match iterate v with
            | None => show (ShowError "Error" (Some TypeError)) g1
            | Some elems =>
                let g2 := set_all_points (Deque.extend (all_points g1) elems) g1 in
                let g3 := set_scan_count (Z.of_nat (length elems) / 100) g2 in
                let g4 := update_visualization g3 in
                match (if Deque.is_empty (all_points g3) then None
                       else plot_raises (Deque.items (all_points g3)) (filter_distance g3))
                with
                | Some e => show (ShowError "Error" (Some e)) g4
                | None => show (ShowInfo "Success") g4
                end
            end
        end
    end.

(** The import failed: the last dialog is the error dialog of the
    handler. *)
Definition load_failed (before after : gui) : Prop :=
  exists e, dialogs after = dialogs before ++ [ShowError "Error" e].

(** A file whose text cannot be read as a list of points: a [.json]
    file that is not JSON, or not an object, or an object without the
    key [points]; a [.csv] file without a header line or with a row
    that has fewer than four cells or a cell that is not a number. *)
Definition bad_row (row : list string) : Prop :=
  exists i, i < 4 /\
    match nth_error row i with
    | None => True
    | Some text => py_float text = None
    end.

Definition malformed (f : file) : Prop :=
  if endswith (filename f) ".json" then
    match json_load f with
    | None => True
    | Some (PDict d) => lookup "points" d = None
    | Some _ => True
    end
  else if endswith (filename f) ".csv" then
    match csv_rows f with
    | [] => True
    | _ :: rows => Exists bad_row rows
    end
  else False.

End Loading.

End MappingGUI.

(* ================================================================== *)
(** * The scheduler with the exceptions of [update_visualization] *)
(* ================================================================== *)

Module Raising.

Import PyVal MappingGUI.

(** How a call ends: it returns, or it raises; in both cases the
    window is left in some state. *)
Inductive outcome : Type :=
| Done (g : gui)
| Raised (e : exn) (g : gui).

Definition state_of (o : outcome) : gui :=
  match o with Done g | Raised _ g => g end.

Definition returns (o : outcome) : bool :=
  match o with Done _ => true | Raised _ _ => false end.

Definition map_state (f : gui -> gui) (o : outcome) : outcome :=
  match o with Done g => Done (f g) | Raised e g => Raised e (f g) end.

Section Plot.

(** Whether the statements of [update_visualization] behind its guard
    raise, in the call made after [redraws] earlier calls on the given
    contents of the store and filter distance: [np.array] and the
    column index [[:, 3]] raise on rows that are not four numbers, the
    axis limits on a coordinate that is not finite, and the statistics
    divide by the time elapsed. *)
Variable plot_raises : nat -> list pyval -> Z -> option exn.

(** [update_visualization]
<<
    if not self.all_points:
        return
    points_array = np.array(self.all_points)
    points_array = points_array[points_array[:, 3] <= self.filter_distance]
    ...
>> *)
Definition update_visualization (g : gui) : outcome :=
  let g' := MappingGUI.update_visualization g in
  if Deque.is_empty (all_points g) then Done g'
  else
    match plot_raises (redraws g) (Deque.items (all_points g)) (filter_distance g) with
    | Some e => Raised e g'
    | None => Done g'
    end.

(** [stop_scan]: its last statement is [self.update_visualization()],
    outside any [try]. *)
Definition stop_scan (g : gui) : outcome :=
  update_visualization (set_is_scanning false g).

(** The [while True] loop of [process_queue].  The handler around it
    catches [queue.Empty] only, so an exception of
    [update_visualization], called directly or through [stop_scan],
    leaves the loop; the messages not yet taken stay on the queue. *)
Fixpoint drain (every : Z) (items : list message) (g : gui) : outcome :=
  match items with
  | [] => Done g
  | Fault _ :: rest =>
      match stop_scan (show (ShowError "Scan Error" None) g) with
      | Done g1 => drain every rest g1
      | Raised e g1 => Raised e (set_data_queue rest g1)
      end
  | Data points :: rest =>
      let g1 := set_all_points (Deque.extend (all_points g) points) g in
      let g2 := set_scan_count (scan_count g1 + 1) g1 in
      if (scan_count g2 mod every =? 0)%Z then
        match update_visualization g2 with
        | Done g3 => drain every rest g3
        | Raised e g3 => Raised e (set_data_queue rest g3)
        end
      else drain every rest g2
  end.

(** [process_queue]: the statement that schedules the next run stands
    behind the loop, so it is not reached when the loop raises.
<<
    try:
        while True:
            ...
    except queue.Empty:
        pass
    if self.is_scanning:
        self.root.after(50, self.process_queue)
>> *)
Definition process_queue (every : Z) (g : gui) : outcome :=
  match drain every (data_queue g) (set_data_queue [] g) with
  | Done g' => Done (set_timer (is_scanning g') g')
  | Raised e g' => Raised e (set_timer false g')
  end.

(** One period of the timer, on the window and the exceptions that the
    main loop of Tk has reported so far: the worker has put [arrived]
    on the queue since the last period; [process_queue] runs when it was
    scheduled, and an exception that escapes it is reported by the main
    loop, which goes on. *)
Definition tick (every : Z) (st : gui * list exn) (arrived : list message)
  : gui * list exn :=
  let g := set_data_queue (data_queue (fst st) ++ arrived) (fst st) in
  if timer g then
    match process_queue every g with
    | Done g' => (g', snd st)
    | Raised e g' => (g', snd st ++ [e])
    end
  else (g, snd st).

Definition ticks (every : Z) (arrivals : list (list message)) (st : gui * list exn)
  : gui * list exn :=
  fold_left (tick every) arrivals st.

End Plot.

(** A plot that never raises, and one that raises on a store with a
    row that is not a list. *)
Definition never_raises (calls : nat) (points : list pyval) (filter_distance : Z)
  : option exn := None.

Definition is_row (p : pyval) : bool :=
  match p with PList _ => true | _ => false end.

Definition needs_rows (calls : nat) (points : list pyval) (filter_distance : Z)
  : option exn :=
  if forallb is_row points then None else Some IndexError.

End Raising.

(* ================================================================== *)
(** * The point store *)
(* ================================================================== *)

Lemma last_n_min {A} n (l : list A) :
  Py.last_n (Nat.min n (length l)) l = Py.last_n n l.
Proof. unfold Py.last_n. f_equal. lia. Qed.

Lemma slice_from_neg_last_n {A} n (l : list A) :
  0 < n -> Py.slice_from_neg n l = Py.last_n n l.
Proof.
  intros H. unfold Py.slice_from_neg.
  destruct (Nat.eqb_spec n 0); [lia | reflexivity].
Qed.

Section ViewerStore.
Context {np : Sensor.Numpy}.
Variable keep : nat.
Hypothesis keep_pos : 0 < keep.

Lemma store_scan_points v s :
  length (Viewer.all_points v) <= keep ->
  Viewer.all_points (Viewer.store_scan keep v s)
  = Py.last_n keep (Viewer.all_points v ++ Viewer.new_points s).
Proof.
  intros H. unfold Viewer.store_scan.
  destruct (Viewer.new_points s) as [|p pts] eqn:E.
  - rewrite app_nil_r. symmetry. apply Py.last_n_all, H.
  - cbn [Viewer.all_points].
    destruct (Nat.ltb_spec keep (length (Viewer.all_points v ++ p :: pts))).
    + apply slice_from_neg_last_n, keep_pos.
    + symmetry. apply Py.last_n_all. assumption.
Qed.

Lemma store_scan_bounded v s :
  length (Viewer.all_points v) <= keep ->
  length (Viewer.all_points (Viewer.store_scan keep v s)) <= keep.
Proof.
  intros H. rewrite store_scan_points by assumption.
  rewrite Py.last_n_length. lia.
Qed.

Lemma scan_worker_points scans : forall v,
  length (Viewer.all_points v) <= keep ->
  Viewer.all_points (Viewer.scan_worker keep scans v)
  = Py.last_n keep (Viewer.all_points v ++ concat (map Viewer.new_points scans)).
Proof.
  unfold Viewer.scan_worker.
  induction scans as [|s scans IH]; intros v H; simpl.
  - rewrite app_nil_r. symmetry. apply Py.last_n_all, H.
  - rewrite IH by (apply store_scan_bounded, H).
    rewrite store_scan_points by assumption.
    rewrite Py.last_n_app, app_assoc. reflexivity.
Qed.

End ViewerStore.

(** C1.  Capacity invariant of the point store.  In the mapping windows
    the store is a [deque] with [maxlen]: after every insertion that
    follows any sequence of insertions into the empty store of capacity
    [C], the store holds at most [C] points, and they are the
    [min C total] most recently inserted ones in insertion order.  In
    the viewer the store is a list cut back to its last 2000 points
    after every scan: after every scan it holds at most 2000 points,
    the most recent ones of all the points accepted so far, in order. *)
Theorem point_store_capacity_invariant :
  (forall (A : Type) (C : nat) (inserted : list A) (p : A),
      let store := Deque.append (Deque.extend (Deque.empty C) inserted) p in
      let total := length inserted + 1 in
      Deque.len store <= C /\
      Deque.items store = Py.last_n (Nat.min C total) (inserted ++ [p])) /\
  (forall (np : Sensor.Numpy) (scans : list Sensor.scan) (s : Sensor.scan),
      let v := Viewer.scan_worker Viewer.viewer_keep (scans ++ [s]) Viewer.init in
      let inserted := concat (map Viewer.new_points (scans ++ [s])) in
      length (Viewer.all_points v) <= Viewer.viewer_keep /\
      Viewer.all_points v
      = Py.last_n (Nat.min Viewer.viewer_keep (length inserted)) inserted).
Proof.
  split.
  - intros A C inserted p store total.
    assert (Hwf : Deque.wf (Deque.extend (Deque.empty C) inserted))
      by (apply Deque.extend_wf; unfold Deque.wf; simpl; lia).
    assert (Hmax : Deque.maxlen (Deque.extend (Deque.empty C) inserted) = C)
      by apply Deque.extend_maxlen.
    split.
    + pose proof (Deque.append_wf _ p Hwf) as H. unfold Deque.wf in H.
      rewrite Deque.append_maxlen, Hmax in H. exact H.
    + subst store total. rewrite Deque.append_items by assumption.
      rewrite Hmax, Deque.extend_items by (unfold Deque.wf; simpl; lia).
      cbn [Deque.items Deque.maxlen Deque.empty app].
      rewrite Py.last_n_app.
      replace (length inserted + 1) with (length (inserted ++ [p]))
        by (rewrite length_app; reflexivity).
      symmetry. apply last_n_min.
  - intros np scans s v inserted.
    assert (Hk : 0 < Viewer.viewer_keep) by (unfold Viewer.viewer_keep; lia).
    assert (E : Viewer.all_points v = Py.last_n Viewer.viewer_keep inserted).
    { subst v inserted. rewrite scan_worker_points by (simpl; lia). reflexivity. }
    rewrite E. split.
    + rewrite Py.last_n_length. lia.
    + symmetry. apply last_n_min.
Qed.

(** The scenario of the design document: capacity 5, the batches
    [A,B,C] and [D,E,F], then [G]. *)
Example deque_scenario :
  let s1 := Deque.extend (Deque.extend (Deque.empty 5) [1; 2; 3]) [4; 5; 6] in
  Deque.items s1 = [2; 3; 4; 5; 6] /\
  Deque.items (Deque.extend s1 [7]) = [3; 4; 5; 6; 7].
Proof. split; reflexivity. Qed.

(** The room mapper cuts its list back to 3000 points in the same way;
    this is the list that [measure_room] reads. *)
Lemma room_mapper_store {np : Sensor.Numpy} (scans : list Sensor.scan) :
  let v := Viewer.scan_worker Viewer.mapper_keep scans Viewer.init in
  Viewer.all_points v
  = Py.last_n Viewer.mapper_keep (concat (map Viewer.new_points scans)) /\
  length (Viewer.all_points v) <= Viewer.mapper_keep.
Proof.
  assert (Hk : 0 < Viewer.mapper_keep) by (unfold Viewer.mapper_keep; lia).
  assert (E : Viewer.all_points (Viewer.scan_worker Viewer.mapper_keep scans Viewer.init)
              = Py.last_n Viewer.mapper_keep (concat (map Viewer.new_points scans))).
  { rewrite scan_worker_points by (simpl; lia). reflexivity. }
  split; [exact E |]. cbv zeta. rewrite E, Py.last_n_length. lia.
Qed.

(* ================================================================== *)
(** * Room metrics *)
(* ================================================================== *)

Section Extremes.
Local Open Scope float_scope.
Import RoomMapper.

Definition max_step (m item : float) : float := if F64.gtb item m then item else m.
Definition min_step (m item : float) : float := if item <? m then item else m.

Lemma fold_max_spec rest : forall m,
  F64.number m -> Forall F64.number rest ->
  F64.number (fold_left max_step rest m) /\
  (fold_left max_step rest m = m \/ In (fold_left max_step rest m) rest) /\
  (m <=? fold_left max_step rest m) = true /\
  (forall x, In x rest -> (x <=? fold_left max_step rest m) = true).
Proof.
  induction rest as [|a rest IH]; intros m Hm Hall; cbn [fold_left In].
  - repeat split; auto using F64.leb_refl; intros x [].
  - inversion Hall as [|? ? Ha Hrest]; subst.
    assert (Hstep : max_step m a = if m <? a then a else m) by reflexivity.
    destruct (m <? a) eqn:E; rewrite Hstep.
    + destruct (IH a Ha Hrest) as (Hn & Hin & Hle & Hub).
      repeat split; [assumption | | |].
      * destruct Hin as [-> | Hin]; auto.
      * eapply F64.leb_trans; [apply F64.ltb_leb, E | exact Hle].
      * intros x [<- | Hx]; auto.
    + destruct (IH m Hm Hrest) as (Hn & Hin & Hle & Hub).
      repeat split; [assumption | | assumption |].
      * destruct Hin as [-> | Hin]; auto.
      * intros x [<- | Hx]; auto.
        eapply F64.leb_trans; [| exact Hle].
        rewrite F64.leb_ltb, E by assumption. reflexivity.
Qed.

Lemma fold_min_spec rest : forall m,
  F64.number m -> Forall F64.number rest ->
  F64.number (fold_left min_step rest m) /\
  (fold_left min_step rest m = m \/ In (fold_left min_step rest m) rest) /\
  (fold_left min_step rest m <=? m) = true /\
  (forall x, In x rest -> (fold_left min_step rest m <=? x) = true).
Proof.
  induction rest as [|a rest IH]; intros m Hm Hall; cbn [fold_left In].
  - repeat split; auto using F64.leb_refl; intros x [].
  - inversion Hall as [|? ? Ha Hrest]; subst.
    assert (Hstep : min_step m a = if a <? m then a else m) by reflexivity.
    destruct (a <? m) eqn:E; rewrite Hstep.
    + destruct (IH a Ha Hrest) as (Hn & Hin & Hle & Hlb).
      repeat split; [assumption | | |].
      * destruct Hin as [-> | Hin]; auto.
      * eapply F64.leb_trans; [exact Hle | apply F64.ltb_leb, E].
      * intros x [<- | Hx]; auto.
    + destruct (IH m Hm Hrest) as (Hn & Hin & Hle & Hlb).
      repeat split; [assumption | | assumption |].
      * destruct Hin as [-> | Hin]; auto.
      * intros x [<- | Hx]; auto.
        eapply F64.leb_trans; [exact Hle |].
        rewrite F64.leb_ltb, E by assumption. reflexivity.
Qed.

(** On a non-empty list of numbers the builtin [max] returns the
    greatest item and [min] the least. *)
Lemma py_max_is_max l :
  l <> [] -> Forall F64.number l -> is_max l (py_max l).
Proof.
  destruct l as [|x rest]; [congruence | intros _ Hall].
  inversion Hall as [|? ? Hx Hrest]; subst.
  destruct (fold_max_spec rest x Hx Hrest) as (_ & Hin & Hle & Hub).
  split.
  - simpl. fold max_step. destruct Hin as [-> | Hin]; auto.
  - intros y [<- | Hy]; [exact Hle | apply Hub, Hy].
Qed.

Lemma py_min_is_min l :
  l <> [] -> Forall F64.number l -> is_min l (py_min l).
Proof.
  destruct l as [|x rest]; [congruence | intros _ Hall].
  inversion Hall as [|? ? Hx Hrest]; subst.
  destruct (fold_min_spec rest x Hx Hrest) as (_ & Hin & Hle & Hlb).
  split.
  - simpl. fold min_step. destruct Hin as [-> | Hin]; auto.
  - intros y [<- | Hy]; [exact Hle | apply Hlb, Hy].
Qed.

End Extremes.

Section Metrics.
Local Open Scope float_scope.
Import RoomMapper.

Lemma measure_room_none pts :
  measure_room pts = None <-> length pts <= 100.
Proof.
  unfold measure_room. destruct (Nat.ltb_spec 100 (length pts)); split;
    intros; try discriminate; try lia; reflexivity.
Qed.

(** [n] points at the origin. *)
Definition origin_points (n : nat) : list (float * float) := repeat (0, 0) n.

(** C2, as stated, fails at the threshold itself: 100 points are not
    fewer than 100, and [measure_room] returns [None] on 100 points at
    [(0, 0)] instead of metrics. *)
Lemma measure_room_100_points_none :
  length (origin_points 100) = 100%nat /\
  measure_room (origin_points 100) = None /\
  ~ (forall pts, measure_room pts = None <-> (length pts < 100)%nat).
Proof.
  split; [reflexivity | split; [reflexivity |]].
  intros H. destruct (H (origin_points 100)) as [H1 _].
  specialize (H1 eq_refl). vm_compute in H1. lia.
Qed.

(** C2, amended.  [measure_room] returns [None] exactly when there are
    at most 100 points: on 99 and on 100 points it returns [None], and
    on 101 identical points at [(0, 0)] it returns metrics with area,
    width and height equal to [0]. *)
Theorem measure_room_threshold :
  (forall pts, measure_room pts = None <-> (length pts <= 100)%nat) /\
  measure_room (origin_points 99) = None /\
  measure_room (origin_points 100) = None /\
  exists m, measure_room (origin_points 101) = Some m /\
            area m = 0 /\ width m = 0 /\ height m = 0.
Proof.
  split; [exact measure_room_none |].
  split; [apply measure_room_none; vm_compute; lia |].
  split; [apply measure_room_none; vm_compute; lia |].
  eexists. split; [vm_compute; reflexivity |].
  repeat split.
Qed.

(** C3.  On more than 100 points whose coordinates are numbers,
    [measure_room] returns metrics whose [bounds] are the axis-aligned
    bounding box of the points, with [width = max_x - min_x],
    [height = max_y - min_y], [area = width * height / 1000000],
    [perimeter = 2 * (width + height)] and
    [center = ((max_x + min_x) / 2, (max_y + min_y) / 2)]. *)
Theorem measure_room_bounding_box (pts : list (float * float)) :
  Forall (fun p => F64.number (fst p) /\ F64.number (snd p)) pts ->
  (100 < length pts)%nat ->
  exists m min_x min_y max_x max_y,
    measure_room pts = Some m /\
    bounds m = (min_x, min_y, max_x, max_y) /\
    bounding_box pts (bounds m) /\
    width m = max_x - min_x /\
    height m = max_y - min_y /\
    area m = width m * height m / 1000000 /\
    perimeter m = 2 * (width m + height m) /\
    center m = ((max_x + min_x) / 2, (max_y + min_y) / 2) /\
    point_count m = length pts.
Proof.
  intros Hnum Hlen. unfold measure_room.
  destruct (Nat.ltb_spec 100 (length pts)) as [_ | Hle]; [| lia].
  do 5 eexists. split; [reflexivity |]. cbn [bounds width height area perimeter center point_count].
  split; [reflexivity |].
  split; [| repeat split].
  assert (Hxs : Forall F64.number (map fst pts)).
  { apply Forall_map. eapply Forall_impl; [| exact Hnum]. intros p [H _]. exact H. }
  assert (Hys : Forall F64.number (map snd pts)).
  { apply Forall_map. eapply Forall_impl; [| exact Hnum]. intros p [_ H]. exact H. }
  assert (Hx0 : map fst pts <> []) by (destruct pts; simpl in *; [lia | discriminate]).
  assert (Hy0 : map snd pts <> []) by (destruct pts; simpl in *; [lia | discriminate]).
  unfold bounding_box.
  repeat split; try apply py_min_is_min; try apply py_max_is_max; assumption.
Qed.

(** The hypotheses of [measure_room_bounding_box] hold of 101 points
    spread on a diagonal. *)
Definition diagonal_points : list (float * float) :=
  map (fun i => let c := F64.float_of_int (Z.of_nat i) in (c, 1000 - c)) (seq 0 101).

Lemma diagonal_points_numbers :
  Forall (fun p => F64.number (fst p) /\ F64.number (snd p)) diagonal_points.
Proof.
  assert (Hb : forallb (fun p => negb (PrimFloat.is_nan (fst p))
                                 && negb (PrimFloat.is_nan (snd p)))
                       diagonal_points = true) by (vm_compute; reflexivity).
  rewrite forallb_forall in Hb. apply Forall_forall. intros p Hp.
  specialize (Hb p Hp). apply andb_prop in Hb. destruct Hb as [H1 H2].
  unfold F64.number. split; apply negb_true_iff; assumption.
Defined.

Lemma measure_room_bounding_box_witness :
  (100 < length diagonal_points)%nat /\
  exists m min_x min_y max_x max_y,
    measure_room diagonal_points = Some m /\
    bounds m = (min_x, min_y, max_x, max_y) /\
    bounding_box diagonal_points (bounds m) /\
    width m = max_x - min_x /\
    height m = max_y - min_y /\
    area m = width m * height m / 1000000 /\
    perimeter m = 2 * (width m + height m) /\
    center m = ((max_x + min_x) / 2, (max_y + min_y) / 2) /\
    point_count m = length diagonal_points.
Proof.
  assert (Hlen : (100 < length diagonal_points)%nat) by (vm_compute; lia).
  split; [exact Hlen |].
  exact (measure_room_bounding_box diagonal_points diagonal_points_numbers Hlen).
Defined.

End Metrics.

(* ================================================================== *)
(** * The acceptance test of the mapping window *)
(* ================================================================== *)

Section Converter.
Local Open Scope float_scope.
Import Sensor PyVal MappingGUI.
Context {np : Numpy}.

Lemma zero_number : F64.number 0.
Proof. reflexivity. Qed.

(** C4.  [convert] skips a measurement exactly when its distance is at
    most [0], or its quality is at most [0], or its distance exceeds
    the distance filter; every other measurement yields its point. *)
Theorem convert_rejects_exactly (filter_distance : Z) (m : measurement) :
  well_formed m ->
  F64.number (F64.float_of_int filter_distance) ->
  (convert filter_distance m = None <->
     (distance m <=? 0) = true \/ (quality m <= 0)%Z \/
     F64.gtb (distance m) (F64.float_of_int filter_distance) = true) /\
  (convert filter_distance m <> None ->
     convert filter_distance m
     = Some (PList [PFloat (fst (cartesian m)); PFloat (snd (cartesian m));
                    PInt (quality m); PFloat (distance m)])).
Proof.
  intros Hd Hf. unfold convert, F64.gtb.
  rewrite (F64.leb_ltb (distance m) 0 Hd zero_number).
  rewrite (F64.leb_ltb (distance m) _ Hd Hf).
  destruct (0 <? distance m); destruct (F64.float_of_int filter_distance <? distance m);
    destruct (Z.gtb_spec (quality m) 0) as [Hq | Hq]; cbn [andb negb];
    (split; [split; [intros H; try discriminate; auto
                    | intros [H | [H | H]]; try discriminate; try lia; reflexivity]
            | intros H; try congruence]).
  all: try (destruct (cartesian m); discriminate).
  destruct (cartesian m); reflexivity.
Qed.

(** The example of the design document: quality 10, angle 0, distance
    1000 with the filter at 8000. *)
Definition sample_measurement : measurement := Sensor.mk 10 0 1000.

End Converter.

Lemma convert_rejects_exactly_witness :
  Sensor.well_formed sample_measurement /\
  F64.number (F64.float_of_int 8000) /\
  MappingGUI.convert (np := Sensor.poly_numpy) 8000 sample_measurement
  = Some (PyVal.PList [PyVal.PFloat 1000; PyVal.PFloat 0; PyVal.PInt 10; PyVal.PFloat 1000]).
Proof.
  assert (Hd : Sensor.well_formed sample_measurement) by reflexivity.
  assert (Hf : F64.number (F64.float_of_int 8000)) by reflexivity.
  split; [exact Hd | split; [exact Hf |]].
  destruct (convert_rejects_exactly (np := Sensor.poly_numpy) 8000 sample_measurement Hd Hf)
    as [_ Hsome].
  rewrite Hsome; [reflexivity | vm_compute; discriminate].
Defined.

(* ================================================================== *)
(** * The scheduler: [process_queue] *)
(* ================================================================== *)

Section Producer.
Import Sensor PyVal MappingGUI.
Context {np : Numpy}.

(** A message other than an empty batch. *)
Definition nonempty_message (m : message) : bool :=
  match m with Data [] => false | _ => true end.

(** The scan worker only appends to the queue, and never an empty
    batch: a scan without accepted points is dropped. *)
Lemma scan_worker_enqueues frames : forall g,
  exists added,
    scan_worker frames g = set_data_queue (data_queue g ++ added) g /\
    forallb nonempty_message added = true.
Proof.
  induction frames as [|f frames IH]; intros g.
  - exists []. rewrite app_nil_r. destruct g; split; reflexivity.
  - destruct f as [s | e]; cbn [scan_worker].
    + destruct (is_scanning g) eqn:Hs; cbn [negb].
      * destruct (scan_points (filter_distance g) s) as [|p pts] eqn:Hp.
        -- apply IH.
        -- destruct (IH (set_data_queue (data_queue g ++ [Data (p :: pts)]) g))
             as (added & E & Hall).
           exists (Data (p :: pts) :: added). rewrite E. split; [| exact Hall].
           cbn [data_queue set_data_queue]. rewrite <- app_assoc. reflexivity.
      * exists []. rewrite app_nil_r. destruct g; split; reflexivity.
    + destruct (is_scanning g).
      * exists [Fault e]. split; reflexivity.
      * exists []. rewrite app_nil_r. destruct g; split; reflexivity.
Qed.

End Producer.

Section Scheduler.
Import PyVal MappingGUI.
Local Open Scope Z_scope.

Definition is_data (m : message) : bool :=
  match m with Data _ => true | Fault _ => false end.

(** The points of the data messages of a queue, in order. *)
Definition data_points (items : list message) : list pyval :=
  flat_map (fun m => match m with Data points => points | Fault _ => [] end) items.

(** The quotient by [every] grows by one exactly at the multiples. *)
Lemma div_succ (every s : Z) :
  0 < every ->
  (s + 1) / every = s / every + (if (s + 1) mod every =? 0 then 1 else 0).
Proof.
  intros H.
  pose proof (Z.div_mod s every ltac:(lia)) as E1.
  pose proof (Z.div_mod (s + 1) every ltac:(lia)) as E2.
  pose proof (Z.mod_pos_bound s every H) as B1.
  pose proof (Z.mod_pos_bound (s + 1) every H) as B2.
  destruct (Z.eqb_spec ((s + 1) mod every) 0) as [E | E]; nia.
Qed.

(** A drain of data messages only: every message is merged and
    counted, and the redraw hook runs once for every multiple of
    [every] that [scan_count] reaches. *)
Lemma drain_data every items : forall g,
  0 < every ->
  forallb is_data items = true ->
  let g' := drain every items g in
  scan_count g' = scan_count g + Z.of_nat (length items) /\
  Z.of_nat (redraws g')
  = Z.of_nat (redraws g)
    + (scan_count g + Z.of_nat (length items)) / every - scan_count g / every /\
  is_scanning g' = is_scanning g /\
  data_queue g' = data_queue g /\
  dialogs g' = dialogs g /\
  all_points g' = Deque.extend (all_points g) (data_points items).
Proof.
  induction items as [|m items IH]; intros g Hev Hall.
  - cbn [drain length data_points flat_map Deque.extend fold_left Z.of_nat].
    rewrite Z.add_0_r. repeat split; try reflexivity; lia.
  - destruct m as [points | e]; [| discriminate].
    cbn [forallb is_data andb] in Hall.
    pose (g1 := set_all_points (Deque.extend (all_points g) points) g).
    pose (g2 := set_scan_count (scan_count g1 + 1) g1).
    pose (g3 := if scan_count g2 mod every =? 0 then update_visualization g2 else g2).
    change (drain every (Data points :: items) g) with (drain every items g3).
    destruct (IH g3 Hev Hall) as (Hc & Hr & Hs & Hq & Hd & Hp).
    assert (Hc3 : scan_count g3 = scan_count g + 1).
    { subst g3 g2 g1. destruct (_ =? _); reflexivity. }
    assert (Hr3 : Z.of_nat (redraws g3)
                  = Z.of_nat (redraws g)
                    + (if (scan_count g + 1) mod every =? 0 then 1 else 0)).
    { subst g3 g2 g1. cbn [scan_count set_scan_count set_all_points].
      destruct (_ =? _); cbn [redraws update_visualization set_scan_count set_all_points]; lia. }
    assert (Hs3 : is_scanning g3 = is_scanning g
                  /\ data_queue g3 = data_queue g /\ dialogs g3 = dialogs g
                  /\ all_points g3 = Deque.extend (all_points g) points).
    { subst g3 g2 g1. destruct (_ =? _); repeat split. }
    destruct Hs3 as (Hs3 & Hq3 & Hd3 & Hp3).
    cbv zeta. rewrite Hc, Hr, Hs, Hq, Hd, Hp, Hc3, Hr3, Hs3, Hq3, Hd3, Hp3.
    cbn [length data_points flat_map]. rewrite Deque.extend_app.
    rewrite (div_succ every (scan_count g) Hev).
    replace (scan_count g + 1 + Z.of_nat (length items))
      with (scan_count g + Z.of_nat (S (length items))) by lia.
    repeat split; try reflexivity; lia.
Qed.

End Scheduler.

Section SchedulerClaims.
Import PyVal MappingGUI.
Local Open Scope Z_scope.

(** [start_scan] on a connected window with an empty queue leaves the
    counter at zero, the store empty and the timer armed. *)
Lemma start_scan_fresh every g :
  connection_status g = true -> data_queue g = [] ->
  let g' := start_scan every g in
  scan_count g' = 0 /\ data_queue g' = [] /\ is_scanning g' = true /\
  timer g' = true /\ Deque.items (all_points g') = [].
Proof.
  intros Hc Hq. unfold start_scan, process_queue. rewrite Hc. cbn [negb].
  cbn [data_queue set_all_points set_scan_count set_is_scanning]. rewrite Hq.
  repeat split.
Qed.

(** Nine one-point batches that arrive over three runs of the timer. *)
Definition sample_point : pyval :=
  PList [PFloat 1000; PFloat 0; PInt 10; PFloat 1000].
Definition sample_arrivals : list (list message) :=
  [repeat (Data [sample_point]) 4; repeat (Data [sample_point]) 2;
   repeat (Data [sample_point]) 3].
Definition scanning : gui := set_is_scanning true init.

(** Every data message of a drain is merged, whatever stands before it
    in the queue: a fault does not end the loop. *)
Lemma drain_all_points every items : forall g,
  all_points (drain every items g)
  = Deque.extend (all_points g) (data_points items).
Proof.
  induction items as [|m items IH]; intros g; [reflexivity |].
  destruct m as [points | e].
  - pose (g1 := set_all_points (Deque.extend (all_points g) points) g).
    pose (g2 := set_scan_count (scan_count g1 + 1) g1).
    pose (g3 := if scan_count g2 mod every =? 0 then update_visualization g2 else g2).
    change (drain every (Data points :: items) g) with (drain every items g3).
    rewrite IH. cbn [data_points flat_map]. rewrite Deque.extend_app.
    f_equal. subst g3 g2 g1. destruct (_ =? _); reflexivity.
  - cbn [drain]. rewrite IH. reflexivity.
Qed.

(** The flag [is_scanning] survives a drain exactly when the queue
    holds no fault. *)
Lemma drain_is_scanning every items : forall g,
  is_scanning (drain every items g) = is_scanning g && forallb is_data items.
Proof.
  induction items as [|m items IH]; intros g.
  - cbn [drain forallb]. rewrite andb_true_r. reflexivity.
  - destruct m as [points | e].
    + pose (g1 := set_all_points (Deque.extend (all_points g) points) g).
      pose (g2 := set_scan_count (scan_count g1 + 1) g1).
      pose (g3 := if scan_count g2 mod every =? 0 then update_visualization g2 else g2).
      change (drain every (Data points :: items) g) with (drain every items g3).
      rewrite IH. cbn [forallb is_data andb]. f_equal.
      subst g3 g2 g1. destruct (_ =? _); reflexivity.
    + cbn [drain]. rewrite IH. cbn [forallb is_data andb]. rewrite andb_false_r.
      reflexivity.
Qed.

Definition is_fault (m : message) : bool := negb (is_data m).

(** One error dialog is shown for every fault of the queue. *)
Lemma drain_dialogs every items : forall g,
  dialogs (drain every items g)
  = dialogs g ++ map (fun _ => ShowError "Scan Error" None) (filter is_fault items).
Proof.
  induction items as [|m items IH]; intros g.
  - cbn [drain filter map]. rewrite app_nil_r. reflexivity.
  - destruct m as [points | e].
    + pose (g1 := set_all_points (Deque.extend (all_points g) points) g).
      pose (g2 := set_scan_count (scan_count g1 + 1) g1).
      pose (g3 := if scan_count g2 mod every =? 0 then update_visualization g2 else g2).
      change (drain every (Data points :: items) g) with (drain every items g3).
      rewrite IH. cbn [filter is_fault is_data negb]. f_equal.
      subst g3 g2 g1. destruct (_ =? _); reflexivity.
    + cbn [drain]. rewrite IH. cbn [filter is_fault is_data negb map].
      cbn [dialogs stop_scan update_visualization set_is_scanning show].
      rewrite <- app_assoc. reflexivity.
Qed.

(** The loop body does not touch the queue itself. *)
Lemma drain_data_queue every items : forall g,
  data_queue (drain every items g) = data_queue g.
Proof.
  induction items as [|m items IH]; intros g; [reflexivity |].
  destruct m as [points | e]; cbn [drain]; rewrite IH.
  - destruct (_ =? _); reflexivity.
  - reflexivity.
Qed.

(** Every batch is counted. *)
Lemma drain_scan_count every items : forall g,
  scan_count (drain every items g)
  = scan_count g + Z.of_nat (length (filter is_data items)).
Proof.
  induction items as [|m items IH]; intros g.
  - cbn [drain filter length Z.of_nat]. lia.
  - destruct m as [points | e]; cbn [drain filter is_data]; rewrite IH.
    + cbn [length]. rewrite Nat2Z.inj_succ.
      cbn [scan_count set_scan_count set_all_points].
      destruct (_ =? _); cbn [scan_count update_visualization set_scan_count]; lia.
    + reflexivity.
Qed.

(** A queue in which a batch stands behind a fault. *)
Definition fault_then_data : gui :=
  set_data_queue [Fault "timeout"; Data [sample_point]] scanning.

(** C8, as stated, fails: on the queue [[Fault; Data [p]]] the fault is
    reported and scanning is stopped, and then the batch behind the
    fault is merged all the same.  The store, empty before, holds [p]
    afterwards. *)
Lemma data_behind_fault_is_merged :
  let g' := process_queue redraw_every_full fault_then_data in
  Deque.items (all_points fault_then_data) = [] /\
  dialogs g' = [ShowError "Scan Error" None] /\
  is_scanning g' = false /\
  Deque.items (all_points g') = [sample_point] /\
  scan_count g' = 1.
Proof. vm_compute. repeat split. Qed.

End SchedulerClaims.

(* ================================================================== *)
(** * The scheduler when [update_visualization] raises *)
(* ================================================================== *)

Section Aborts.
Import PyVal MappingGUI.
Local Open Scope Z_scope.

Variable plot_raises : nat -> list pyval -> Z -> option exn.

(** The window once a batch is merged and counted. *)
Definition merge (points : list pyval) (g : gui) : gui :=
  set_scan_count (scan_count g + 1)
    (set_all_points (Deque.extend (all_points g) points) g).

Lemma drain_cons_data every points items g :
  drain every (Data points :: items) g
  = drain every items
      (if (scan_count g + 1) mod every =? 0
       then update_visualization (merge points g) else merge points g).
Proof. reflexivity. Qed.

Lemma raising_drain_cons_data every points items g :
  Raising.drain plot_raises every (Data points :: items) g
  = if (scan_count g + 1) mod every =? 0 then
      match Raising.update_visualization plot_raises (merge points g) with
      | Raising.Done g3 => Raising.drain plot_raises every items g3
      | Raising.Raised e g3 => Raising.Raised e (set_data_queue items g3)
      end
    else Raising.drain plot_raises every items (merge points g).
Proof. reflexivity. Qed.

(** Whether the call returns or raises, the fields are those of the
    call counted. *)
Lemma update_visualization_state g :
  Raising.state_of (Raising.update_visualization plot_raises g)
  = update_visualization g.
Proof.
  unfold Raising.update_visualization.
  destruct (Deque.is_empty _); [reflexivity |].
  destruct (plot_raises _ _ _); reflexivity.
Qed.

Lemma stop_scan_state g :
  Raising.state_of (Raising.stop_scan plot_raises g) = stop_scan g.
Proof. apply update_visualization_state. Qed.

(** The loop that returns has done what the loop without exceptions
    does; the loop that raises has done so on the messages it took, and
    has left the others on the queue. *)
Lemma drain_refines every items : forall g,
  match Raising.drain plot_raises every items g with
  | Raising.Done g' => g' = drain every items g
  | Raising.Raised e g' =>
      exists read unread,
        items = read ++ unread /\ read <> [] /\
        g' = set_data_queue unread (drain every read g)
  end.
Proof.
  induction items as [|m items IH]; intros g; [reflexivity |].
  destruct m as [points | d].
  - rewrite raising_drain_cons_data, drain_cons_data.
    destruct ((scan_count g + 1) mod every =? 0) eqn:E.
    + pose proof (update_visualization_state (merge points g)) as Hu.
      destruct (Raising.update_visualization plot_raises (merge points g)) as [g3 | e g3];
        cbn [Raising.state_of] in Hu; subst g3.
      * specialize (IH (update_visualization (merge points g))).
        destruct (Raising.drain plot_raises every items _) as [g' | e g']; [exact IH |].
        destruct IH as (read & unread & -> & Hne & ->).
        exists (Data points :: read), unread.
        split; [reflexivity | split; [discriminate |]].
        rewrite drain_cons_data, E. reflexivity.
      * exists [Data points], items.
        split; [reflexivity | split; [discriminate |]].
        rewrite drain_cons_data, E. reflexivity.
    + specialize (IH (merge points g)).
      destruct (Raising.drain plot_raises every items _) as [g' | e g']; [exact IH |].
      destruct IH as (read & unread & -> & Hne & ->).
      exists (Data points :: read), unread.
      split; [reflexivity | split; [discriminate |]].
      rewrite drain_cons_data, E. reflexivity.
  - cbn [Raising.drain drain].
    pose proof (stop_scan_state (show (ShowError "Scan Error" None) g)) as Hu.
    destruct (Raising.stop_scan plot_raises _) as [g1 | e g1];
      cbn [Raising.state_of] in Hu; subst g1.
    + specialize (IH (stop_scan (show (ShowError "Scan Error" None) g))).
      destruct (Raising.drain plot_raises every items _) as [g' | e g']; [exact IH |].
      destruct IH as (read & unread & -> & Hne & ->).
      exists (Fault d :: read), unread.
      split; [reflexivity | split; [discriminate | reflexivity]].
    + exists [Fault d], items.
      split; [reflexivity | split; [discriminate | reflexivity]].
Qed.

(** [process_queue] in the same way: [read] are the messages taken from
    the queue, [unread] those left on it. *)
Lemma process_queue_refines every g :
  let o := Raising.process_queue plot_raises every g in
  exists read unread,
    data_queue g = read ++ unread /\
    (Raising.returns o = true -> unread = []) /\
    (Raising.returns o = false -> read <> []) /\
    Raising.state_of o
    = set_timer (Raising.returns o
                 && is_scanning (drain every read (set_data_queue [] g)))
        (set_data_queue unread (drain every read (set_data_queue [] g))).
Proof.
  unfold Raising.process_queue.
  pose proof (drain_refines every (data_queue g) (set_data_queue [] g)) as H.
  destruct (Raising.drain plot_raises every (data_queue g) (set_data_queue [] g))
    as [g' | e g'].
  - exists (data_queue g), []. rewrite app_nil_r. subst g'.
    split; [reflexivity | split; [reflexivity | split; [discriminate |]]].
    cbn [Raising.returns Raising.state_of andb].
    pose proof (drain_data_queue every (data_queue g) (set_data_queue [] g)) as Hq.
    cbn [data_queue set_data_queue] in Hq.
    destruct (drain every (data_queue g) (set_data_queue [] g)).
    cbn in Hq |- *. subst. reflexivity.
  - destruct H as (read & unread & E & Hne & ->).
    exists read, unread.
    split; [exact E | split; [discriminate | split; [intros _; exact Hne |]]].
    reflexivity.
Qed.

(** A message whose points, if it is a batch, are all of a kind. *)
Definition batch_of (P : pyval -> Prop) (m : message) : Prop :=
  match m with Data points => Forall P points | Fault _ => True end.

Lemma data_points_Forall (P : pyval -> Prop) items :
  Forall (batch_of P) items -> Forall P (data_points items).
Proof.
  induction 1 as [|m items Hm _ IH]; [constructor |].
  destruct m as [points | d]; [| exact IH].
  cbn [data_points flat_map]. apply Forall_app. split; assumption.
Qed.

(** The kind is kept by the store through the loop. *)
Lemma drain_store_Forall (P : pyval -> Prop) every items g :
  Forall P (Deque.items (all_points g)) ->
  Forall (batch_of P) items ->
  Forall P (Deque.items (all_points (drain every items g))).
Proof.
  intros Hg Hitems. rewrite drain_all_points.
  apply Deque.extend_Forall; [exact Hg | apply data_points_Forall, Hitems].
Qed.

(** The plot does not raise on a store of points of the kind [P]. *)
Definition plots (P : pyval -> Prop) : Prop :=
  forall calls points distance,
    Forall P points -> plot_raises calls points distance = None.

(** When the store and the batches on the queue are of a kind that the
    plot takes, every call returns, and so does the loop. *)
Lemma drain_returns (P : pyval -> Prop) every items : forall g,
  plots P ->
  Forall P (Deque.items (all_points g)) ->
  Forall (batch_of P) items ->
  Raising.drain plot_raises every items g = Raising.Done (drain every items g).
Proof.
  intros g Hplot. revert g.
  assert (Hu : forall g, Forall P (Deque.items (all_points g)) ->
                         Raising.update_visualization plot_raises g
                         = Raising.Done (update_visualization g)).
  { intros g Hg. unfold Raising.update_visualization. rewrite Hplot by exact Hg.
    destruct (Deque.is_empty _); reflexivity. }
  induction items as [|m items IH]; intros g Hg Hitems; [reflexivity |].
  inversion Hitems as [|m' items' Hm Hrest]; subst.
  destruct m as [points | d].
  - assert (Hmerged : Forall P (Deque.items (all_points (merge points g))))
      by (apply Deque.extend_Forall; assumption).
    rewrite raising_drain_cons_data, drain_cons_data.
    destruct (_ =? _); [rewrite Hu by exact Hmerged |]; apply IH; assumption.
  - cbn [Raising.drain drain]. unfold Raising.stop_scan.
    rewrite Hu by exact Hg. apply IH; assumption.
Qed.

Lemma process_queue_returns (P : pyval -> Prop) every g :
  plots P ->
  Forall P (Deque.items (all_points g)) ->
  Forall (batch_of P) (data_queue g) ->
  Raising.process_queue plot_raises every g = Raising.Done (process_queue every g).
Proof.
  intros Hplot Hg Hq. unfold Raising.process_queue.
  rewrite (drain_returns P) by assumption. reflexivity.
Qed.

End Aborts.

(* ================================================================== *)
(** * Runs of the scheduler over several periods of the timer *)
(* ================================================================== *)

Section SchedulerRuns.
Import PyVal MappingGUI.
Local Open Scope Z_scope.

Variable plot_raises : nat -> list pyval -> Z -> option exn.

Lemma ticks_snoc every arrivals a st :
  Raising.ticks plot_raises every (arrivals ++ [a]) st
  = Raising.tick plot_raises every (Raising.ticks plot_raises every arrivals st) a.
Proof. unfold Raising.ticks. rewrite fold_left_app. reflexivity. Qed.

Lemma data_points_app a b : data_points (a ++ b) = data_points a ++ data_points b.
Proof. apply flat_map_app. Qed.

(** While scanning, over periods in which only batches arrive: the
    arrivals split into the batches merged and those left on the
    queue, and nothing is left as long as no call has raised. *)
Lemma ticks_merged every arrivals g :
  0 < every ->
  forallb (forallb is_data) arrivals = true ->
  data_queue g = [] -> is_scanning g = true -> timer g = true ->
  let st := Raising.ticks plot_raises every arrivals (g, []) in
  exists merged,
    concat arrivals = merged ++ data_queue (fst st) /\
    scan_count (fst st) = scan_count g + Z.of_nat (length merged) /\
    Z.of_nat (redraws (fst st))
    = Z.of_nat (redraws g)
      + (scan_count g + Z.of_nat (length merged)) / every - scan_count g / every /\
    all_points (fst st) = Deque.extend (all_points g) (data_points merged) /\
    is_scanning (fst st) = true /\
    dialogs (fst st) = dialogs g /\
    (timer (fst st) = true -> data_queue (fst st) = []) /\
    (snd st = [] -> timer (fst st) = true).
Proof.
  intros Hev Hall Hq Hs Ht.
  induction arrivals as [|a arrivals IH] using rev_ind.
  - exists []. cbn [Raising.ticks fold_left fst snd concat length Z.of_nat app
                    data_points flat_map Deque.extend].
    rewrite Z.add_0_r, Hq. repeat split; auto. lia.
  - rewrite forallb_app in Hall. apply andb_prop in Hall. destruct Hall as [Harr Ha].
    cbn [forallb] in Ha. rewrite andb_true_r in Ha.
    specialize (IH Harr). cbv zeta in IH |- *.
    rewrite ticks_snoc.
    destruct (Raising.ticks plot_raises every arrivals (g, [])) as [g' log].
    cbn [fst snd] in IH.
    destruct IH as (merged & Hc & Hsc & Hr & Hp & Hs' & Hd & Htq & Hlog).
    rewrite concat_app. cbn [concat]. rewrite app_nil_r.
    unfold Raising.tick. cbn [fst snd timer set_data_queue].
    destruct (timer g') eqn:Htg.
    + rewrite (Htq eq_refl) in Hc |- *. cbn [app]. rewrite app_nil_r in Hc.
      destruct (process_queue_refines plot_raises every (set_data_queue a g'))
        as (read & unread & E & Hdone & Hraise & Hst).
      cbn [data_queue set_data_queue] in E, Hst.
      assert (Hread : forallb is_data read = true).
      { rewrite E, forallb_app in Ha. apply andb_prop in Ha. apply Ha. }
      destruct (drain_data every read (set_data_queue [] (set_data_queue a g')) Hev Hread)
        as (Hc1 & Hr1 & Hs1 & _ & Hd1 & Hp1).
      cbn [scan_count redraws is_scanning dialogs all_points set_data_queue]
        in Hc1, Hr1, Hs1, Hd1, Hp1.
      exists (merged ++ read).
      rewrite length_app, Nat2Z.inj_add, data_points_app, Deque.extend_app.
      destruct (Raising.process_queue plot_raises every (set_data_queue a g'))
        as [g'' | e g'']; cbn [Raising.state_of Raising.returns andb] in Hst, Hdone, Hraise;
        subst g''; cbn [fst snd scan_count redraws is_scanning dialogs all_points
                        data_queue timer set_timer set_data_queue];
        rewrite Hc1, Hr1, Hs1, Hd1, Hp1, Hsc, Hd, Hp, Hc, E, <- ?app_assoc;
        (repeat split; try reflexivity; try assumption; try congruence; try lia).
      * rewrite Hr, Z.add_assoc. lia.
      * intros _. apply Hdone. reflexivity.
      * rewrite Hr, Z.add_assoc. lia.
      * intros H. apply app_eq_nil in H. destruct H as [_ H]. discriminate.
    + exists merged. cbn [fst snd scan_count redraws is_scanning dialogs all_points
                          data_queue timer set_data_queue].
      rewrite Hc, <- app_assoc.
      repeat split; try assumption; try congruence.
      intros H. specialize (Hlog H). congruence.
Qed.


(** With a store and batches that the plot takes, the main loop has
    nothing to report. *)
Lemma ticks_no_exception (P : pyval -> Prop) every arrivals : forall st,
  plots plot_raises P ->
  Forall P (Deque.items (all_points (fst st))) ->
  Forall (batch_of P) (data_queue (fst st)) ->
  Forall (Forall (batch_of P)) arrivals ->
  snd (Raising.ticks plot_raises every arrivals st) = snd st.
Proof.
  intros st Hplot. revert st. unfold Raising.ticks.
  induction arrivals as [|a arrivals IH]; intros st Hg Hq Hall; [reflexivity |].
  inversion Hall as [|a' arrivals' Ha Hrest]; subst.
  cbn [fold_left].
  assert (Hq1 : Forall (batch_of P) (data_queue (fst st) ++ a))
    by (apply Forall_app; split; assumption).
  unfold Raising.tick at 2. cbn [timer set_data_queue].
  destruct (timer (fst st)).
  - rewrite (process_queue_returns plot_raises P) by assumption.
    rewrite IH; [reflexivity | | | exact Hrest].
    + unfold process_queue. cbn [fst all_points set_timer data_queue set_data_queue].
      apply drain_store_Forall; assumption.
    + unfold process_queue. cbn [fst data_queue set_timer].
      rewrite drain_data_queue. constructor.
  - rewrite IH; [reflexivity | exact Hg | exact Hq1 | exact Hrest].
Qed.

(** C5.  The redraw hook is called on a merged batch exactly when the
    new [scan_count] is a multiple of the decimation factor, and once
    more by [stop_scan].  While the window scans, starting from
    [scan_count = 0] and an empty queue, whatever the split of the data
    batches over the periods of the timer, the hook has been called
    [merged / every] times, [merged] being the number of batches merged
    so far; with the factor 3 and 9 batches merged that is 3 times, and
    [stop_scan] adds the one final call.  All this holds whether or not
    a call of the hook raises; a call that raises ends the merging, and
    the batches not yet read stay on the queue.  When no call has
    raised, every batch that arrived is merged; and none raises when
    the store and the batches are of a kind that the plot takes. *)
Theorem redraw_decimation (every : Z) (arrivals : list (list message)) (g : gui) :
  0 < every ->
  forallb (forallb is_data) arrivals = true ->
  data_queue g = [] ->
  scan_count g = 0 ->
  is_scanning g = true ->
  timer g = true ->
  let st := Raising.ticks plot_raises every arrivals (g, []) in
  let g' := fst st in
  (forall g0 points,
      redraws (Raising.state_of (Raising.drain plot_raises every [Data points] g0))
      = if (scan_count g0 + 1) mod every =? 0 then S (redraws g0) else redraws g0) /\
  (forall g0,
      redraws (Raising.state_of (Raising.stop_scan plot_raises g0)) = S (redraws g0)) /\
  (forall P : pyval -> Prop,
      plots plot_raises P ->
      Forall P (Deque.items (all_points g)) ->
      Forall (Forall (batch_of P)) arrivals ->
      snd st = []) /\
  exists merged,
    concat arrivals = merged ++ data_queue g' /\
    (snd st = [] -> data_queue g' = []) /\
    all_points g' = Deque.extend (all_points g) (data_points merged) /\
    scan_count g' = Z.of_nat (length merged) /\
    Z.of_nat (redraws g') = Z.of_nat (redraws g) + Z.of_nat (length merged) / every /\
    (every = redraw_every_full -> length merged = 9%nat ->
     redraws g' = (redraws g + 3)%nat /\
     redraws (Raising.state_of (Raising.stop_scan plot_raises g')) = (redraws g + 4)%nat).
Proof.
  intros Hev Hall Hq Hsc Hs Ht st g'.
  assert (Hstop : forall g0,
             redraws (Raising.state_of (Raising.stop_scan plot_raises g0))
             = S (redraws g0)).
  { intros g0. rewrite stop_scan_state. reflexivity. }
  split; [| split; [exact Hstop | split]].
  - intros g0 points. rewrite raising_drain_cons_data.
    destruct (_ =? _); [| reflexivity].
    pose proof (update_visualization_state plot_raises (merge points g0)) as Hu.
    destruct (Raising.update_visualization plot_raises (merge points g0)) as [g3 | e g3];
      cbn [Raising.state_of] in Hu; subst g3; reflexivity.
  - intros P Hplot Hg HP. subst st.
    rewrite (ticks_no_exception P); try assumption; [reflexivity |].
    cbn [fst]. rewrite Hq. constructor.
  - destruct (ticks_merged every arrivals g Hev Hall Hq Hs Ht)
      as (merged & Hc & Hn & Hr & Hp & _ & _ & Htq & Hlog).
    fold st in Hc, Hn, Hr, Hp, Htq, Hlog. fold g' in Hc, Hn, Hr, Hp, Htq, Hlog.
    rewrite Hsc in Hn, Hr. cbn [Z.add] in Hn, Hr.
    rewrite Z.div_0_l, Z.sub_0_r in Hr by lia.
    exists merged.
    split; [exact Hc | split; [auto | split; [exact Hp | split; [exact Hn | split]]]];
      [exact Hr |].
    intros -> Hm. rewrite Hm in Hr.
    change (Z.of_nat 9 / redraw_every_full) with 3 in Hr.
    rewrite Hstop. lia.
Qed.

(** C8, amended.  When the queue that [process_queue] reads holds a
    fault, the method does not schedule itself again, whether it
    returns or a call of [update_visualization] raises.  The fault, once
    read, is reported in an error dialog and [is_scanning] is cleared.
    The loop does not stop at the fault: it takes the messages of the
    queue in order and merges every batch it takes, before or behind
    the fault, until the queue is empty or a call of
    [update_visualization] raises; then the messages not yet taken stay
    on the queue.  The whole queue is read when the store and the
    batches are of a kind that the plot takes. *)
Theorem fault_stops_scheduler_not_drain (every : Z) (g : gui) :
  existsb is_fault (data_queue g) = true ->
  let o := Raising.process_queue plot_raises every g in
  let g' := Raising.state_of o in
  timer g' = false /\
  (forall P : pyval -> Prop,
      plots plot_raises P ->
      Forall P (Deque.items (all_points g)) ->
      Forall (batch_of P) (data_queue g) ->
      Raising.returns o = true) /\
  exists read,
    data_queue g = read ++ data_queue g' /\
    (Raising.returns o = true -> data_queue g' = []) /\
    (Raising.returns o = false -> read <> []) /\
    all_points g' = Deque.extend (all_points g) (data_points read) /\
    scan_count g' = scan_count g + Z.of_nat (length (filter is_data read)) /\
    (existsb is_fault read = true ->
     In (ShowError "Scan Error" None) (dialogs g') /\ is_scanning g' = false) /\
    (existsb is_fault read = false ->
     dialogs g' = dialogs g /\ is_scanning g' = is_scanning g).
Proof.
  intros H o g'.
  destruct (process_queue_refines plot_raises every g)
    as (read & unread & E & Hdone & Hraise & Hst).
  fold o in Hdone, Hraise, Hst. fold g' in Hst.
  assert (Hfaults : forall l, existsb is_fault l = negb (forallb is_data l)).
  { induction l as [|m l IH]; [reflexivity |].
    cbn [existsb forallb]. rewrite IH. unfold is_fault.
    destruct (is_data m); reflexivity. }
  assert (Hq : data_queue g' = unread).
  { rewrite Hst. reflexivity. }
  split; [| split].
  - rewrite Hst. cbn [timer set_timer]. rewrite drain_is_scanning.
    destruct (Raising.returns o) eqn:Hret; [| reflexivity].
    rewrite (Hdone eq_refl), app_nil_r in E. rewrite <- E.
    rewrite Hfaults in H. apply negb_true_iff in H. rewrite H, andb_false_r.
    reflexivity.
  - intros P Hplot Hg HP. subst o.
    rewrite (process_queue_returns plot_raises P) by assumption. reflexivity.
  - exists read. rewrite Hq.
    split; [exact E | split; [exact Hdone | split; [exact Hraise |]]].
    rewrite Hst.
    cbn [all_points scan_count dialogs is_scanning set_timer set_data_queue].
    rewrite drain_all_points, drain_scan_count, drain_dialogs, drain_is_scanning.
    cbn [all_points scan_count dialogs is_scanning set_data_queue].
    split; [reflexivity | split; [reflexivity | split]].
    + intros Hf. split.
      * apply in_or_app. right.
        apply existsb_exists in Hf. destruct Hf as (m & Hin & Hm).
        apply in_map_iff. exists m. split; [reflexivity |].
        apply filter_In. split; assumption.
      * rewrite Hfaults in Hf. apply negb_true_iff in Hf. rewrite Hf.
        apply andb_false_r.
    + intros Hf. rewrite Hfaults in Hf. apply negb_false_iff in Hf.
      rewrite Hf, andb_true_r. split; [| reflexivity].
      assert (Hnone : filter is_fault read = []).
      { clear - Hf. induction read as [|m l IH]; [reflexivity |].
        cbn [forallb] in Hf. apply andb_prop in Hf. destruct Hf as [Hm Hl].
        cbn [filter]. unfold is_fault at 1. rewrite Hm. cbn [negb]. auto. }
      rewrite Hnone. cbn [map]. apply app_nil_r.
Qed.

End SchedulerRuns.

(** The window while it scans, with [process_queue] scheduled. *)
Definition scan_started : MappingGUI.gui := MappingGUI.set_timer true scanning.

(** The plot that needs rows takes the points that are lists. *)
Lemma needs_rows_plots : plots Raising.needs_rows (fun p => Raising.is_row p = true).
Proof.
  intros calls points distance H. unfold Raising.needs_rows.
  replace (forallb Raising.is_row points) with true; [reflexivity |].
  symmetry. apply forallb_forall, Forall_forall, H.
Qed.

(** The points that the scan worker makes of a scan are lists. *)
Lemma scan_points_rows {np : Sensor.Numpy} filter_distance s :
  Forall (fun p => Raising.is_row p = true)
    (MappingGUI.scan_points filter_distance s).
Proof.
  induction s as [|m s IH]; [constructor |].
  cbn [MappingGUI.scan_points].
  destruct (MappingGUI.convert filter_distance m) as [p |] eqn:E; [| exact IH].
  constructor; [| exact IH].
  unfold MappingGUI.convert in E.
  destruct (_ && _); [| discriminate].
  destruct (Sensor.cartesian m). injection E as <-. reflexivity.
Qed.

Lemma redraw_decimation_witness :
  let st := Raising.ticks Raising.needs_rows MappingGUI.redraw_every_full
              sample_arrivals (scan_started, []) in
  length (concat sample_arrivals) = 9%nat /\
  snd st = [] /\
  MappingGUI.data_queue (fst st) = [] /\
  MappingGUI.redraws (fst st) = 3%nat /\
  MappingGUI.redraws
    (Raising.state_of (Raising.stop_scan Raising.needs_rows (fst st))) = 4%nat.
Proof.
  intros st.
  assert (Hev : (0 < MappingGUI.redraw_every_full)%Z) by reflexivity.
  assert (Hall : forallb (forallb is_data) sample_arrivals = true) by reflexivity.
  assert (Hq : MappingGUI.data_queue scan_started = []) by reflexivity.
  assert (Hsc : MappingGUI.scan_count scan_started = 0%Z) by reflexivity.
  assert (Hs : MappingGUI.is_scanning scan_started = true) by reflexivity.
  assert (Ht : MappingGUI.timer scan_started = true) by reflexivity.
  destruct (redraw_decimation Raising.needs_rows MappingGUI.redraw_every_full
              sample_arrivals scan_started Hev Hall Hq Hsc Hs Ht)
    as (_ & _ & Hlog & merged & Hc & Hempty & _ & _ & _ & H).
  fold st in Hlog, Hc, Hempty, H.
  assert (Hnone : snd st = []).
  { apply (Hlog (fun p => Raising.is_row p = true));
      [exact needs_rows_plots | constructor | repeat constructor]. }
  assert (Hqueue : MappingGUI.data_queue (fst st) = []) by (apply Hempty, Hnone).
  rewrite Hqueue, app_nil_r in Hc. subst merged.
  destruct (H eq_refl eq_refl) as [H3 H4].
  split; [reflexivity | split; [exact Hnone | split; [exact Hqueue |]]].
  split; [exact H3 | exact H4].
Defined.

(** The same queue on a window whose store was loaded from a file with
    a point that is not a row. *)
Definition fault_on_foreign_store : MappingGUI.gui :=
  MappingGUI.set_all_points
    (Deque.extend (Deque.empty MappingGUI.capacity) [PyVal.PStr "a"]) fault_then_data.

(** There [stop_scan] raises in its call of [update_visualization]: the
    fault has been reported and [is_scanning] cleared, and the batch
    behind the fault is left on the queue. *)
Example fault_raises_on_foreign_store :
  let o := Raising.process_queue Raising.needs_rows MappingGUI.redraw_every_full
             fault_on_foreign_store in
  Raising.returns o = false /\
  MappingGUI.data_queue (Raising.state_of o) = [MappingGUI.Data [sample_point]] /\
  Deque.items (MappingGUI.all_points (Raising.state_of o)) = [PyVal.PStr "a"] /\
  MappingGUI.dialogs (Raising.state_of o) = [MappingGUI.ShowError "Scan Error" None] /\
  MappingGUI.is_scanning (Raising.state_of o) = false /\
  MappingGUI.timer (Raising.state_of o) = false.
Proof. vm_compute. repeat split. Qed.

(** On the queue of the counterexample no plot can raise: the store is
    empty when [stop_scan] calls [update_visualization], and the one
    batch merged afterwards is not the third.  So [process_queue]
    returns there, whatever the plot, and the batch is merged. *)
Example fault_then_data_returns (plot : nat -> list PyVal.pyval -> Z -> option MappingGUI.exn) :
  Raising.process_queue plot MappingGUI.redraw_every_full fault_then_data
  = Raising.Done (MappingGUI.process_queue MappingGUI.redraw_every_full fault_then_data).
Proof. reflexivity. Qed.

Lemma fault_stops_scheduler_not_drain_witness :
  existsb is_fault (MappingGUI.data_queue fault_then_data) = true /\
  (let o := Raising.process_queue Raising.needs_rows MappingGUI.redraw_every_full
              fault_then_data in
   Raising.returns o = true /\
   MappingGUI.timer (Raising.state_of o) = false /\
   MappingGUI.is_scanning (Raising.state_of o) = false /\
   MappingGUI.all_points (Raising.state_of o)
   = Deque.extend (MappingGUI.all_points fault_then_data)
       (data_points (MappingGUI.data_queue fault_then_data))).
Proof.
  assert (H : existsb is_fault (MappingGUI.data_queue fault_then_data) = true)
    by reflexivity.
  split; [exact H |]. intros o.
  destruct (fault_stops_scheduler_not_drain Raising.needs_rows
              MappingGUI.redraw_every_full fault_then_data H)
    as (Ht & _ & read & E & Hdone & _ & Hp & _ & Hf & _).
  fold o in Ht, E, Hdone, Hp, Hf.
  assert (Hret : Raising.returns o = true) by (vm_compute; reflexivity).
  rewrite (Hdone Hret), app_nil_r in E. subst read.
  split; [exact Hret | split; [exact Ht | split; [exact (proj2 (Hf H)) | exact Hp]]].
Defined.

(* ================================================================== *)
(** * The Qt acquisition thread: the consecutive-error counter *)
(* ================================================================== *)

Section ErrorCounter.
Import Sensor Worker.
Local Open Scope Z_scope.
Context {np : Numpy}.

Lemma scan_loop_nil w n :
  scan_loop [] w n
  = (w, n, negb (is_scanning w && (n <? max_consecutive_errors))).
Proof. cbn [scan_loop]. destruct (is_scanning w && _); reflexivity. Qed.

(** A frame that fails, of either kind, only moves the counter. *)
Lemma scan_loop_failing f rest w n :
  is_scanning w = true -> n < max_consecutive_errors -> failing f = true ->
  scan_loop (f :: rest) w n = scan_loop rest w (n + 1).
Proof.
  intros Hs Hn Hf. cbn [scan_loop]. rewrite Hs.
  destruct (Z.ltb_spec n max_consecutive_errors) as [_ | ?]; [| lia].
  cbn [andb]. destruct f as [s | | e]; cbn [failing] in Hf.
  - destruct (points_of s); [reflexivity | discriminate].
  - discriminate.
  - reflexivity.
Qed.

(** A frame with at least one accepted point is emitted and resets the
    counter. *)
Lemma scan_loop_success s rest w n :
  is_scanning w = true -> n < max_consecutive_errors -> points_of s <> [] ->
  scan_loop (Frame s :: rest) w n
  = scan_loop rest (emit (DataReady (points_of s)) w) 0.
Proof.
  intros Hs Hn Hp. cbn [scan_loop]. rewrite Hs.
  destruct (Z.ltb_spec n max_consecutive_errors) as [_ | ?]; [| lia].
  cbn [andb]. destruct (points_of s); [congruence | reflexivity].
Qed.

(** A run of failing frames from the counter [n]: the loop is left
    when, and only when, the counter reaches the threshold. *)
Lemma scan_loop_failures fails : forall w n,
  is_scanning w = true -> 0 <= n ->
  forallb failing fails = true ->
  n + Z.of_nat (length fails) <= max_consecutive_errors ->
  scan_loop fails w n
  = (w, n + Z.of_nat (length fails),
     n + Z.of_nat (length fails) =? max_consecutive_errors).
Proof.
  induction fails as [|f fails IH]; intros w n Hs Hn Hall Hlen.
  - rewrite scan_loop_nil, Hs. cbn [length Z.of_nat andb]. rewrite Z.add_0_r.
    f_equal. destruct (Z.ltb_spec n max_consecutive_errors);
      destruct (Z.eqb_spec n max_consecutive_errors); cbn [negb]; try reflexivity; lia.
  - cbn [forallb] in Hall. apply andb_prop in Hall. destruct Hall as [Hf Hrest].
    cbn [length] in Hlen |- *. rewrite Nat2Z.inj_succ in Hlen |- *.
    rewrite scan_loop_failing by (try assumption; lia).
    rewrite IH by (try assumption; lia).
    replace (n + 1 + Z.of_nat (length fails)) with (n + Z.succ (Z.of_nat (length fails))) by lia.
    reflexivity.
Qed.

(** A thread that waits for a frame is scanning, below the threshold. *)
Lemma scan_loop_waiting frames : forall w n w' n',
  scan_loop frames w n = (w', n', false) ->
  is_scanning w' = true /\ n' < max_consecutive_errors.
Proof.
  induction frames as [|f frames IH]; intros w n w' n' H.
  - rewrite scan_loop_nil in H. injection H as <- <- H.
    apply negb_false_iff, andb_prop in H. destruct H as [H1 H2].
    split; [exact H1 | apply Z.ltb_lt, H2].
  - cbn [scan_loop] in H. destruct (is_scanning w && _); [| discriminate].
    destruct f as [s | | e]; [destruct (points_of s) | discriminate |]; eauto.
Qed.

(** The frames that arrive later are handled from where the loop waits. *)
Lemma scan_loop_app pre : forall post w n w' n',
  scan_loop pre w n = (w', n', false) ->
  scan_loop (pre ++ post) w n = scan_loop post w' n'.
Proof.
  induction pre as [|f pre IH]; intros post w n w' n' H.
  - rewrite scan_loop_nil in H. injection H as <- <- H. reflexivity.
  - cbn [app scan_loop] in H |- *. destruct (is_scanning w && _); [| discriminate].
    destruct f as [s | | e]; [destruct (points_of s) | discriminate |]; eauto.
Qed.

(** The loop never emits [error_signal]. *)
Lemma scan_loop_no_fault frames : forall w n,
  fault_reported (fst (fst (scan_loop frames w n))) = fault_reported w.
Proof.
  induction frames as [|f frames IH]; intros w n.
  - rewrite scan_loop_nil. reflexivity.
  - cbn [scan_loop]. destruct (is_scanning w && _); [| reflexivity].
    destruct f as [s | | e]; [destruct (points_of s) as [|p pts] | reflexivity |];
      rewrite IH; try reflexivity.
    unfold fault_reported, emit. cbn [emitted]. rewrite existsb_app.
    cbn [existsb is_error]. rewrite !orb_false_r. reflexivity.
Qed.

End ErrorCounter.

Section ErrorThreshold.
Import Sensor Worker.
Local Open Scope Z_scope.

(** The thread once [connect_lidar] has succeeded and [is_scanning] is
    set. *)
Definition started : worker := Worker.mk true true [InfoSignal].

Lemma run_connects {np : Numpy} frames :
  run Connects frames Worker.init
  = match scan_loop frames started 0 with
    | (w, _, true) => Finished (disconnect_lidar w)
    | (w, n, false) => Waiting w n
    end.
Proof. reflexivity. Qed.

Lemma forallb_firstn {A} (p : A -> bool) k : forall l,
  forallb p l = true -> forallb p (firstn k l) = true.
Proof.
  induction k as [|k IH]; intros [|a l] H; try reflexivity.
  cbn [forallb firstn] in *. apply andb_prop in H. destruct H as [Ha Hl].
  rewrite Ha, IH by assumption. reflexivity.
Qed.

(** C6, as stated, fails: three reads that raise in a row end the
    thread with [is_scanning] cleared, but no [error_signal] is
    emitted, so the window is never told of a fault; and a frame that is
    read without error but yields no point does not reset the counter. *)
Lemma three_failures_report_no_fault :
  (exists w,
      run (np := poly_numpy) Connects [Raises "e1"; Raises "e2"; Raises "e3"] Worker.init
      = Finished w /\
      is_scanning w = false /\ fault_reported w = false) /\
  (exists w,
      run (np := poly_numpy) Connects
          [Raises "e1"; Raises "e2"; Frame [Sensor.mk 0 90 1000]; Raises "e3"]
          Worker.init
      = Finished w /\
      is_scanning w = false /\ fault_reported w = false).
Proof. split; eexists; (split; [vm_compute; reflexivity | split; reflexivity]). Qed.

(** C6, amended.  Counting as a failure every frame whose read raises
    or that yields no accepted point: when the thread waits with the
    counter at zero, [max_consecutive_errors] failures in a row make
    [run] return with [is_scanning] cleared and the driver released,
    without any [error_signal]; after fewer failures the thread still
    waits for the next frame; and a frame with at least one accepted
    point is emitted and resets the counter to zero. *)
Theorem consecutive_failures_end_scanning {np : Numpy}
    (pre fails : list frame) (w1 : worker) :
  scan_loop pre started 0 = (w1, 0, false) ->
  forallb failing fails = true ->
  Z.of_nat (length fails) = max_consecutive_errors ->
  run Connects (pre ++ fails) Worker.init = Finished (disconnect_lidar w1) /\
  is_scanning (disconnect_lidar w1) = false /\
  lidar (disconnect_lidar w1) = false /\
  fault_reported (disconnect_lidar w1) = false /\
  (forall k, (k < length fails)%nat ->
     run Connects (pre ++ firstn k fails) Worker.init = Waiting w1 (Z.of_nat k)) /\
  (forall s rest w n,
     is_scanning w = true -> n < max_consecutive_errors -> points_of s <> [] ->
     scan_loop (Frame s :: rest) w n
     = scan_loop rest (emit (DataReady (points_of s)) w) 0).
Proof.
  intros Hpre Hall Hlen.
  destruct (scan_loop_waiting _ _ _ _ _ Hpre) as [Hs _].
  split; [| split; [reflexivity | split; [reflexivity | split; [| split]]]].
  - rewrite run_connects, (scan_loop_app _ _ _ _ _ _ Hpre).
    rewrite scan_loop_failures by (try assumption; lia).
    cbn [Z.add]. rewrite Hlen. reflexivity.
  - pose proof (scan_loop_no_fault pre started 0) as H. rewrite Hpre in H.
    exact H.
  - intros k Hk. rewrite run_connects, (scan_loop_app _ _ _ _ _ _ Hpre).
    assert (Hk' : length (firstn k fails) = k) by (rewrite length_firstn; lia).
    rewrite scan_loop_failures;
      [| assumption | lia | apply forallb_firstn, Hall | rewrite Hk'; lia].
    rewrite Hk'. cbn [Z.add].
    destruct (Z.eqb_spec (Z.of_nat k) max_consecutive_errors); [lia | reflexivity].
  - intros s rest w n. apply scan_loop_success.
Qed.

End ErrorThreshold.

(** One good frame, then a read that raises, an empty frame and a
    second read that raises. *)
Definition good_frame : Worker.frame := Worker.Frame [sample_measurement].
Definition bad_frames : list Worker.frame :=
  [Worker.Raises "timeout"; Worker.Frame []; Worker.Raises "checksum"].
Definition after_good_frame : Worker.worker :=
  Worker.emit (Worker.DataReady [(1000, 0)%float]) started.

Lemma consecutive_failures_end_scanning_witness :
  Worker.scan_loop (np := Sensor.poly_numpy) [good_frame] started 0
  = (after_good_frame, 0%Z, false) /\
  Worker.run (np := Sensor.poly_numpy) Worker.Connects (good_frame :: bad_frames) Worker.init
  = Worker.Finished (Worker.disconnect_lidar after_good_frame) /\
  Worker.fault_reported (Worker.disconnect_lidar after_good_frame) = false.
Proof.
  assert (Hpre : Worker.scan_loop (np := Sensor.poly_numpy) [good_frame] started 0
                 = (after_good_frame, 0%Z, false)) by (vm_compute; reflexivity).
  assert (Hall : forallb (Worker.failing (np := Sensor.poly_numpy)) bad_frames = true)
    by reflexivity.
  assert (Hlen : Z.of_nat (length bad_frames) = Worker.max_consecutive_errors)
    by reflexivity.
  destruct (consecutive_failures_end_scanning (np := Sensor.poly_numpy)
              [good_frame] bad_frames after_good_frame Hpre Hall Hlen)
    as (Hrun & _ & _ & Hfault & _).
  split; [exact Hpre | split; [exact Hrun | exact Hfault]].
Defined.

Section FilteredFrames.
Import Sensor Worker.
Local Open Scope Z_scope.

Lemma all_filtered_failing {np : Numpy} frames :
  forallb all_filtered frames = true -> forallb failing frames = true.
Proof.
  induction frames as [|f frames IH]; [reflexivity |].
  cbn [forallb]. intros H. apply andb_prop in H. destruct H as [Hf Hrest].
  rewrite IH by assumption. rewrite andb_true_r.
  destruct f as [s | | e]; [exact Hf | discriminate | discriminate].
Qed.

(** C10.  A frame that is read without error but of which every
    measurement is filtered out adds one to [consecutive_errors], which
    is what a read that raises does: in both cases the loop goes on with
    the next frame, the same worker and the counter plus one.  So after
    [k] such frames in a row from the start the counter is [k]; while
    [k] is below [max_consecutive_errors] the thread still waits for the
    next frame, and after [max_consecutive_errors] of them [run] returns
    with [is_scanning] cleared, though no read raised and neither data
    nor [error_signal] was emitted. *)
Theorem all_filtered_frames_end_scanning {np : Numpy} (frames : list frame) :
  forallb all_filtered frames = true ->
  Z.of_nat (length frames) = max_consecutive_errors ->
  (forall s e rest w n,
     is_scanning w = true -> n < max_consecutive_errors -> points_of s = [] ->
     scan_loop (Frame s :: rest) w n = scan_loop rest w (n + 1) /\
     scan_loop (Raises e :: rest) w n = scan_loop rest w (n + 1)) /\
  (forall k, (k < length frames)%nat ->
     run Connects (firstn k frames) Worker.init = Waiting started (Z.of_nat k)) /\
  forallb read_failure frames = false /\
  run Connects frames Worker.init = Finished (disconnect_lidar started) /\
  is_scanning (disconnect_lidar started) = false /\
  emitted (disconnect_lidar started) = [InfoSignal].
Proof.
  intros Hall Hlen.
  pose proof (all_filtered_failing frames Hall) as Hfail.
  split; [| split; [| split; [| split; [| split; reflexivity]]]].
  - intros s e rest w n Hs Hn Hp. split.
    + apply scan_loop_failing; try assumption. cbn [failing]. rewrite Hp. reflexivity.
    + apply scan_loop_failing; try assumption. reflexivity.
  - intros k Hk. rewrite run_connects.
    assert (Hk' : length (firstn k frames) = k) by (rewrite length_firstn; lia).
    rewrite scan_loop_failures;
      [| reflexivity | lia | apply forallb_firstn, Hfail | rewrite Hk'; lia].
    rewrite Hk'. cbn [Z.add].
    destruct (Z.eqb_spec (Z.of_nat k) max_consecutive_errors); [lia | reflexivity].
  - destruct frames as [|f frames]; [discriminate |].
    cbn [forallb] in Hall |- *. apply andb_prop in Hall. destruct Hall as [Hf _].
    destruct f; try discriminate. reflexivity.
  - rewrite run_connects.
    rewrite scan_loop_failures; [| reflexivity | lia | exact Hfail | lia].
    cbn [Z.add]. rewrite Hlen. reflexivity.
Qed.

End FilteredFrames.

(** Three frames whose measurements are all skipped: no distance, or no
    quality. *)
Definition filtered_frames : list Worker.frame :=
  [Worker.Frame [Sensor.mk 15 10 0; Sensor.mk 0 20 1200];
   Worker.Frame [];
   Worker.Frame [Sensor.mk 0 0 800]].

Lemma all_filtered_frames_end_scanning_witness :
  forallb (Worker.all_filtered (np := Sensor.poly_numpy)) filtered_frames = true /\
  Worker.run (np := Sensor.poly_numpy) Worker.Connects (firstn 2 filtered_frames)
    Worker.init
  = Worker.Waiting started 2 /\
  Worker.run (np := Sensor.poly_numpy) Worker.Connects filtered_frames Worker.init
  = Worker.Finished (Worker.disconnect_lidar started).
Proof.
  assert (Hall : forallb (Worker.all_filtered (np := Sensor.poly_numpy)) filtered_frames = true)
    by reflexivity.
  assert (Hlen : Z.of_nat (length filtered_frames) = Worker.max_consecutive_errors)
    by reflexivity.
  destruct (all_filtered_frames_end_scanning (np := Sensor.poly_numpy)
              filtered_frames Hall Hlen) as (_ & Hwait & _ & Hrun & _).
  split; [exact Hall | split; [| exact Hrun]].
  apply (Hwait 2%nat). cbn [length filtered_frames]. lia.
Defined.

(* ================================================================== *)
(** * Export and import of the point store *)
(* ================================================================== *)

Section Interchange.
Import PyVal MappingGUI.
Variable py_float : string -> option float.
Variable plot_raises : list pyval -> Z -> option exn.

Local Abbreviation load_data := (MappingGUI.load_data py_float plot_raises).

Lemma endswith_nonempty name suffix :
  suffix <> EmptyString -> endswith name suffix = true -> String.eqb name "" = false.
Proof.
  intros Hs H. destruct name; [| reflexivity].
  unfold endswith in H. destruct suffix; [congruence | discriminate].
Qed.

Lemma extend_into_cleared (d : Deque.deque pyval) (l : list pyval) :
  length l <= Deque.maxlen d ->
  Deque.items (Deque.extend (Deque.clear d) l) = l.
Proof.
  intros H. rewrite Deque.extend_items by (unfold Deque.wf; simpl; lia).
  cbn [Deque.items Deque.clear Deque.maxlen app]. apply Py.last_n_all, H.
Qed.

(** C7, as stated, fails on the empty store: [export_data] shows a
    warning and writes no file, so there is nothing to import. *)
Lemma export_of_empty_store_writes_nothing :
  Deque.len (all_points init) = 0 /\
  export_data "scan.json" "2024-01-01T00:00:00" init
  = (show (ShowWarning "Warning") init, None) /\
  ~ (forall g name now,
        endswith name ".json" = true ->
        exists doc, snd (export_data name now g) = Some (WroteJson doc)).
Proof.
  split; [reflexivity | split; [reflexivity |]].
  intros H. destruct (H init "scan.json"%string ""%string eq_refl) as [doc Hdoc].
  discriminate Hdoc.
Qed.

(** C7, amended.  A non-empty store is written to a [.json] file as an
    object whose [points] are the stored points in order; reading that
    object back with [load_data], into a store whose capacity holds
    them, gives exactly the same points in the same order, whatever the
    time stamp written and whatever the plot does afterwards. *)
Theorem export_import_round_trip (name now : string) (g : gui) :
  Deque.is_empty (all_points g) = false ->
  endswith name ".json" = true ->
  exists doc,
    snd (export_data name now g) = Some (WroteJson doc) /\
    lookup "points" match doc with PDict d => d | _ => [] end
    = Some (PList (Deque.items (all_points g))) /\
    forall (f : file) (target : gui),
      filename f = name ->
      json_load f = Some doc ->
      Deque.len (all_points g) <= Deque.maxlen (all_points target) ->
      Deque.items (all_points (load_data f target)) = Deque.items (all_points g).
Proof.
  intros Hne Hjson.
  assert (Hname : String.eqb name "" = false)
    by (apply (endswith_nonempty name ".json"); [discriminate | exact Hjson]).
  unfold export_data. rewrite Hne, Hname, Hjson. cbn [snd].
  eexists. split; [reflexivity | split; [reflexivity |]].
  intros f target Hf Hload Hcap.
  unfold MappingGUI.load_data, read_points, read_json.
  rewrite Hf, Hname, Hjson, Hload. cbn [lookup String.eqb Ascii.eqb Bool.eqb bind iterate].
  set (pts := Deque.items (all_points g)) in *.
  assert (E : Deque.items (Deque.extend (Deque.clear (all_points target)) pts) = pts)
    by (apply extend_into_cleared; exact Hcap).
  cbn [all_points set_all_points set_scan_count update_visualization
       filter_distance Deque.is_empty].
  destruct (if Deque.is_empty _ then None else _); exact E.
Qed.

End Interchange.

(** A store of two points, and stand-ins for the parameters of
    [load_data]: no cell is a number, the plot never raises. *)
Definition second_point : PyVal.pyval :=
  PyVal.PList [PyVal.PFloat 0; PyVal.PFloat 500; PyVal.PInt 12; PyVal.PFloat 500].
Definition two_points : MappingGUI.gui :=
  MappingGUI.set_all_points
    (Deque.extend (MappingGUI.all_points MappingGUI.init) [sample_point; second_point])
    MappingGUI.init.
Definition no_float (text : string) : option float := None.
Definition plot_succeeds (points : list PyVal.pyval) (filter_distance : Z)
  : option MappingGUI.exn := None.

Lemma export_import_round_trip_witness :
  Deque.is_empty (MappingGUI.all_points two_points) = false /\
  PyVal.endswith "scan.json" ".json" = true /\
  exists doc,
    snd (MappingGUI.export_data "scan.json" "2024-01-01T00:00:00" two_points)
    = Some (MappingGUI.WroteJson doc) /\
    Deque.items
      (MappingGUI.all_points
         (MappingGUI.load_data no_float plot_succeeds
            (MappingGUI.mk_file "scan.json" (Some doc) []) MappingGUI.init))
    = [sample_point; second_point].
Proof.
  assert (Hne : Deque.is_empty (MappingGUI.all_points two_points) = false)
    by (vm_compute; reflexivity).
  assert (Hjson : PyVal.endswith "scan.json" ".json" = true) by reflexivity.
  split; [exact Hne | split; [exact Hjson |]].
  destruct (export_import_round_trip no_float plot_succeeds
              "scan.json" "2024-01-01T00:00:00" two_points Hne Hjson)
    as (doc & Hdoc & _ & Hback).
  exists doc. split; [exact Hdoc |].
  rewrite (Hback (MappingGUI.mk_file "scan.json" (Some doc) []) MappingGUI.init
             eq_refl eq_refl).
  - vm_compute. reflexivity.
  - apply Nat.leb_le. vm_compute. reflexivity.
Defined.

Section FailedImport.
Import PyVal MappingGUI.
Variable py_float : string -> option float.
Variable plot_raises : list pyval -> Z -> option exn.

Lemma cell_inr row i x :
  cell py_float row i = inr x ->
  exists text, nth_error row i = Some text /\ py_float text = Some x.
Proof.
  unfold cell. destruct (nth_error row i) as [text |]; [| discriminate].
  destruct (py_float text) as [y |] eqn:E; [| discriminate].
  intros H. injection H as <-. eauto.
Qed.

Lemma bad_row_raises row :
  bad_row py_float row -> exists e, read_row py_float row = inl e.
Proof.
  intros (i & Hi & Hbad). unfold read_row, bind.
  destruct (cell py_float row 0) as [e0 | x0] eqn:E0; [eauto |].
  destruct (cell py_float row 1) as [e1 | x1] eqn:E1; [eauto |].
  destruct (cell py_float row 2) as [e2 | x2] eqn:E2; [eauto |].
  destruct (cell py_float row 3) as [e3 | x3] eqn:E3; [eauto |].
  exfalso.
  apply cell_inr in E0, E1, E2, E3.
  destruct E0 as (t0 & N0 & F0), E1 as (t1 & N1 & F1),
           E2 as (t2 & N2 & F2), E3 as (t3 & N3 & F3).
  destruct i as [|[|[|[|i]]]]; [| | | | lia];
    match type of Hbad with
    | match nth_error ?r ?k with _ => _ end =>
        match goal with N : nth_error r k = Some _ |- _ => rewrite N in Hbad end
    end; congruence.
Qed.

Lemma bad_rows_raise rows :
  Exists (bad_row py_float) rows ->
  exists e, traverse (read_row py_float) rows = inl e.
Proof.
  induction rows as [|row rows IH]; intros H; inversion H as [? ? Hb | ? ? Hb]; subst.
  - destruct (bad_row_raises row Hb) as [e He].
    exists e. cbn [traverse]. rewrite He. reflexivity.
  - destruct (IH Hb) as [e He]. cbn [traverse].
    destruct (read_row py_float row) as [e' | p]; cbn [bind]; [eauto |].
    rewrite He. cbn [bind]. eauto.
Qed.

(** A malformed file makes the first statement of the [try] block
    raise. *)
Lemma malformed_raises f :
  malformed py_float f -> exists e, read_points py_float f = inl e.
Proof.
  unfold malformed, read_points, read_json, read_csv.
  destruct (endswith (filename f) ".json").
  - destruct (json_load f) as [[ | | | | | |d]|]; cbn [bind]; eauto.
    intros ->. cbn [bind]. eauto.
  - destruct (endswith (filename f) ".csv"); [| intros []].
    destruct (csv_rows f) as [|header rows]; cbn [bind]; [eauto |].
    intros H. destruct (bad_rows_raise rows H) as [e ->]. cbn [bind]. eauto.
Qed.

(** C9, amended.  When the chosen file is malformed, in that its text
    cannot be read as a list of points, [load_data] shows the error
    dialog and changes nothing else: the point store and the scan
    counter are as before. *)
Theorem malformed_file_leaves_store (f : file) (g : gui) :
  filename f <> ""%string ->
  malformed py_float f ->
  load_failed g (load_data py_float plot_raises f g) /\
  all_points (load_data py_float plot_raises f g) = all_points g /\
  scan_count (load_data py_float plot_raises f g) = scan_count g /\
  redraws (load_data py_float plot_raises f g) = redraws g.
Proof.
  intros Hname Hbad. unfold load_data.
  destruct (String.eqb_spec (filename f) "") as [E | _]; [congruence |].
  destruct (malformed_raises f Hbad) as [e ->].
  split; [exists (Some e); reflexivity | repeat split].
Qed.

End FailedImport.

(** A [.json] file whose [points] is a number, and a file with another
    extension. *)
Definition points_is_a_number : MappingGUI.file :=
  MappingGUI.mk_file "scan.json"
    (Some (PyVal.PDict [("points"%string, PyVal.PInt 5)])) [].
Definition text_file : MappingGUI.file :=
  MappingGUI.mk_file "scan.txt" None [["1.0"; "2.0"; "3"; "4.0"]%string].
Definition not_json : MappingGUI.file :=
  MappingGUI.mk_file "scan.json" None [].

(** C9, as stated, fails: the store is cleared before [points] is
    used.  When [points] is not iterable, or was never bound because
    the file name has neither extension, [load_data] shows the error
    dialog and leaves the store empty. *)
Lemma failed_import_clears_store :
  Deque.items (MappingGUI.all_points two_points) = [sample_point; second_point] /\
  (let g' := MappingGUI.load_data no_float plot_succeeds points_is_a_number two_points in
   MappingGUI.dialogs g'
   = MappingGUI.dialogs two_points
     ++ [MappingGUI.ShowError "Error" (Some MappingGUI.TypeError)] /\
   Deque.items (MappingGUI.all_points g') = []) /\
  (let g' := MappingGUI.load_data no_float plot_succeeds text_file two_points in
   MappingGUI.dialogs g'
   = MappingGUI.dialogs two_points
     ++ [MappingGUI.ShowError "Error" (Some MappingGUI.UnboundLocalError)] /\
   Deque.items (MappingGUI.all_points g') = []) /\
  ~ (forall f g,
        MappingGUI.load_failed g (MappingGUI.load_data no_float plot_succeeds f g) ->
        MappingGUI.all_points (MappingGUI.load_data no_float plot_succeeds f g)
        = MappingGUI.all_points g).
Proof.
  split; [vm_compute; reflexivity |].
  split; [split; vm_compute; reflexivity |].
  split; [split; vm_compute; reflexivity |].
  intros H. specialize (H points_is_a_number two_points).
  assert (Hf : MappingGUI.load_failed two_points
                 (MappingGUI.load_data no_float plot_succeeds points_is_a_number two_points))
    by (exists (Some MappingGUI.TypeError); vm_compute; reflexivity).
  specialize (H Hf). apply (f_equal Deque.items) in H. vm_compute in H. discriminate H.
Qed.

Lemma malformed_file_leaves_store_witness :
  MappingGUI.malformed no_float not_json /\
  MappingGUI.load_failed two_points
    (MappingGUI.load_data no_float plot_succeeds not_json two_points) /\
  MappingGUI.all_points (MappingGUI.load_data no_float plot_succeeds not_json two_points)
  = MappingGUI.all_points two_points.
Proof.
  assert (Hname : MappingGUI.filename not_json <> ""%string) by discriminate.
  assert (Hbad : MappingGUI.malformed no_float not_json) by exact I.
  destruct (malformed_file_leaves_store no_float plot_succeeds not_json two_points Hname Hbad)
    as (Hfail & Hpts & _).
  split; [exact Hbad | split; [exact Hfail | exact Hpts]].
Defined.

(* ================================================================== *)
(** * Further properties of the Qt acquisition thread *)
(* ================================================================== *)

Section WorkerTrace.
Import Sensor Worker.
Local Open Scope Z_scope.
Context {np : Numpy}.

(** The point lists that the frames of a list give rise to: one for
    every frame that was read and has an accepted point. *)
Definition batches (frames : list frame) : list (list (float * float)) :=
  flat_map (fun f =>
              match f with
              | Frame s => match points_of s with [] => [] | pts => [pts] end
              | _ => []
              end) frames.

Lemma batches_app a b : batches (a ++ b) = batches a ++ batches b.
Proof. apply flat_map_app. Qed.

Lemma batches_nonempty frames : ~ In [] (batches frames).
Proof.
  unfold batches. intros H. apply in_flat_map in H. destruct H as (f & _ & Hf).
  destruct f as [s | | e]; try contradiction.
  destruct (points_of s) as [|p pts]; [contradiction |].
  destruct Hf as [Hf | []]. discriminate.
Qed.

Lemma emitted_emit s w : emitted (emit s w) = emitted w ++ [s].
Proof. reflexivity. Qed.

(** What the loop has emitted after reading [k] frames. *)
Lemma scan_loop_emitted frames : forall w n,
  exists k,
    (k <= length frames)%nat /\
    emitted (fst (fst (scan_loop frames w n)))
    = emitted w ++ map DataReady (batches (firstn k frames)) /\
    (snd (scan_loop frames w n) = false -> k = length frames).
Proof.
  induction frames as [|f frames IH]; intros w n.
  - exists 0%nat. rewrite scan_loop_nil. cbn [fst snd firstn batches flat_map map length].
    rewrite app_nil_r. repeat split; auto.
  - cbn [scan_loop]. destruct (is_scanning w && (n <? max_consecutive_errors)).
    + destruct f as [s | | e].
      * destruct (points_of s) as [|p pts] eqn:Hp.
        -- destruct (IH w (n + 1)) as (k & Hk & He & Hw).
           exists (S k). cbn [length firstn batches flat_map]. rewrite Hp.
           cbn [app]. fold (batches (firstn k frames)).
           repeat split; [lia | exact He | intros H; f_equal; auto].
        -- destruct (IH (emit (DataReady (p :: pts)) w) 0) as (k & Hk & He & Hw).
           exists (S k). cbn [length firstn batches flat_map]. rewrite Hp.
           fold (batches (firstn k frames)).
           repeat split; [lia | | intros H; f_equal; auto].
           rewrite He, emitted_emit, <- app_assoc. reflexivity.
      * exists 0%nat. cbn [fst snd firstn batches flat_map map length].
        rewrite app_nil_r. repeat split; [lia | discriminate].
      * destruct (IH w (n + 1)) as (k & Hk & He & Hw).
        exists (S k). cbn [length firstn batches flat_map app].
        fold (batches (firstn k frames)).
        repeat split; [lia | exact He | intros H; f_equal; auto].
    + exists 0%nat. cbn [fst snd firstn batches flat_map map length].
      rewrite app_nil_r. repeat split; [lia | discriminate].
Qed.

Definition worker_of (o : outcome) : worker :=
  match o with Finished w => w | Waiting w _ => w end.

Definition is_waiting (o : outcome) : bool :=
  match o with Waiting _ _ => true | Finished _ => false end.

(** X1.  The signals of a thread that connected are [info_signal]
    followed by one [data_ready] for every frame with an accepted point
    among the frames read so far, in the order of the frames, and by
    nothing else; a thread that still waits has read every frame given.
    No empty list of points is ever emitted. *)
Theorem run_emits_batches_in_order (frames : list frame) :
  exists k,
    (k <= length frames)%nat /\
    emitted (worker_of (run Connects frames Worker.init))
    = InfoSignal :: map DataReady (batches (firstn k frames)) /\
    (is_waiting (run Connects frames Worker.init) = true -> k = length frames) /\
    ~ In (DataReady []) (emitted (worker_of (run Connects frames Worker.init))).
Proof.
  destruct (scan_loop_emitted frames started 0) as (k & Hk & He & Hw).
  exists k. rewrite run_connects.
  assert (E : emitted (worker_of match scan_loop frames started 0 with
                                 | (w, _, true) => Finished (disconnect_lidar w)
                                 | (w, n, false) => Waiting w n
                                 end)
              = InfoSignal :: map DataReady (batches (firstn k frames))).
  { destruct (scan_loop frames started 0) as [[w n] [|]]; exact He. }
  split; [exact Hk | split; [exact E | split]].
  - destruct (scan_loop frames started 0) as [[w n] [|]]; [discriminate | auto].
  - rewrite E. intros [H | H]; [discriminate |].
    apply in_map_iff in H. destruct H as (b & Hb & Hin). injection Hb as ->.
    exact (batches_nonempty _ Hin).
Qed.

(** X2.  The counter [consecutive_errors] stays between zero and the
    threshold, and a thread that waits for a frame is strictly below
    the threshold. *)
Theorem consecutive_errors_bounded (frames : list frame) (w : worker) (n : Z) :
  0 <= n <= max_consecutive_errors ->
  let '(_, n', exited) := scan_loop frames w n in
  0 <= n' <= max_consecutive_errors /\
  (exited = false -> n' < max_consecutive_errors).
Proof.
  revert w n. induction frames as [|f frames IH]; intros w n Hn.
  - rewrite scan_loop_nil.
    destruct (is_scanning w); cbn [andb negb];
      [destruct (Z.ltb_spec n max_consecutive_errors); cbn [negb] |];
      split; try assumption; try discriminate; auto.
  - cbn [scan_loop]. destruct (is_scanning w); cbn [andb];
      [destruct (Z.ltb_spec n max_consecutive_errors) |].
    + destruct f as [s | | e].
      * destruct (points_of s); apply IH; unfold max_consecutive_errors in *; lia.
      * split; [assumption | discriminate].
      * apply IH. lia.
    + split; [assumption | discriminate].
    + split; [assumption | discriminate].
Qed.

(** X3.  A thread that has returned reads no further frame: whatever
    the driver would deliver afterwards, the result is the same.  In
    particular the frames behind a [StopIteration] are never read. *)
Theorem finished_run_reads_no_more (c : connect_outcome)
    (frames later : list frame) (w w' : worker) :
  run c frames w = Finished w' ->
  run c (frames ++ later) w = Finished w'.
Proof.
  assert (Hloop : forall fs v n v' n',
             scan_loop fs v n = (v', n', true) ->
             scan_loop (fs ++ later) v n = (v', n', true)).
  { induction fs as [|f fs IH]; intros v n v' n' H.
    - rewrite scan_loop_nil in H. injection H as <- <- H.
      apply negb_true_iff in H. cbn [app].
      destruct later as [|f later']; [rewrite scan_loop_nil | cbn [scan_loop]];
        rewrite H; reflexivity.
    - cbn [app scan_loop] in H |- *.
      destruct (is_scanning v && (n <? max_consecutive_errors)); [| exact H].
      destruct f as [s | | e]; [destruct (points_of s) | exact H |]; apply IH, H. }
  unfold run. destruct (connect_lidar c w) as [w1 [|]]; [| auto].
  destruct (scan_loop frames _ 0) as [[w3 n3] [|]] eqn:E; [| discriminate].
  intros H. rewrite (Hloop _ _ _ _ _ E). exact H.
Qed.

End WorkerTrace.

Lemma consecutive_errors_bounded_witness :
  let '(_, n', exited) :=
    Worker.scan_loop (np := Sensor.poly_numpy) (good_frame :: bad_frames) started 2 in
  (0 <= n' <= Worker.max_consecutive_errors)%Z /\
  (exited = false -> (n' < Worker.max_consecutive_errors)%Z).
Proof.
  apply (consecutive_errors_bounded (np := Sensor.poly_numpy)
           (good_frame :: bad_frames) started 2).
  unfold Worker.max_consecutive_errors. lia.
Defined.

Lemma finished_run_reads_no_more_witness :
  Worker.run (np := Sensor.poly_numpy) Worker.Connects
    ([good_frame; Worker.StopIteration] ++ [good_frame]) Worker.init
  = Worker.Finished (Worker.disconnect_lidar after_good_frame).
Proof.
  apply (finished_run_reads_no_more (np := Sensor.poly_numpy)).
  vm_compute. reflexivity.
Defined.

(* ================================================================== *)
(** * Further properties of the acceptance tests *)
(* ================================================================== *)

Section Filters.
Import Sensor PyVal MappingGUI.
Local Open Scope float_scope.
Context {np : Numpy}.

(** The distance column of a row of the plot array: the fourth entry of
    a point as the scan worker builds it or as the [csv] branch of
    [load_data] reads it.  [None] stands for a row of another shape. *)
Definition distance_of (p : pyval) : option float :=
  match p with
  | PList [PFloat _; PFloat _; PInt _; PFloat d] => Some d
  | PList [PFloat _; PFloat _; PFloat _; PFloat d] => Some d
  | _ => None
  end.

(** The filter at the head of [update_visualization] on such rows:
<<
    points_array = points_array[points_array[:, 3] <= self.filter_distance]
>> *)
Fixpoint shown (filter_distance : Z) (points : list pyval) : option (list pyval) :=
  match points with
  | [] => Some []
  | p :: rest =>
      match distance_of p, shown filter_distance rest with
      | Some d, Some kept =>
          Some (if d <=? F64.float_of_int filter_distance then p :: kept else kept)
      | _, _ => None
      end
  end.

Lemma convert_some filter_distance m p :
  convert filter_distance m = Some p ->
  distance_of p = Some (distance m) /\
  (0 <? distance m) = true /\
  (distance m <=? F64.float_of_int filter_distance) = true /\
  (quality m > 0)%Z.
Proof.
  unfold convert.
  destruct (0 <? distance m); [| discriminate].
  destruct (distance m <=? F64.float_of_int filter_distance); [| discriminate].
  destruct (Z.gtb_spec (quality m) 0) as [Hq | Hq]; [| discriminate]. cbn [andb].
  destruct (cartesian m) as [x y]. intros H. injection H as <-.
  repeat split. lia.
Qed.

(** X4.  The display filter agrees with the acceptance test.  The
    points accepted from a scan under a distance filter, filtered again
    for display under a filter that is not larger, are exactly the points
    that the scan gives under the smaller filter; displayed under the
    filter they were accepted with, they are all kept. *)
Theorem refilter_is_rescan (stricter looser : Z) (s : scan) :
  (F64.float_of_int stricter <=? F64.float_of_int looser) = true ->
  shown stricter (scan_points looser s) = Some (scan_points stricter s) /\
  shown looser (scan_points looser s) = Some (scan_points looser s).
Proof.
  intros Hle. induction s as [|m s [IH1 IH2]]; [split; reflexivity |].
  cbn [scan_points].
  destruct (convert looser m) as [p |] eqn:El.
  - destruct (convert_some _ _ _ El) as (Hd & Hpos & Hl & Hq).
    cbn [shown]. rewrite Hd, IH1, IH2, Hl. split; [| reflexivity].
    unfold convert in El |- *. rewrite Hpos, Hl in El. rewrite Hpos.
    destruct (distance m <=? F64.float_of_int stricter);
      destruct (quality m >? 0)%Z; cbn [andb] in El |- *; try discriminate.
    + rewrite El. reflexivity.
    + reflexivity.
  - split; [| exact IH2]. rewrite IH1. f_equal.
    destruct (convert stricter m) as [p |] eqn:Es; [| reflexivity].
    destruct (convert_some _ _ _ Es) as (_ & Hpos & Hs & Hq).
    exfalso. unfold convert in El. rewrite Hpos in El.
    rewrite (F64.leb_trans _ _ _ Hs Hle) in El.
    destruct (Z.gtb_spec (quality m) 0) as [Hq' | Hq']; [| lia]. cbn [andb] in El.
    destruct (cartesian m). discriminate.
Qed.

(** X5.  The three acceptance tests are nested: of the measurements of
    a scan the mapping window keeps no more than the Qt worker, which
    keeps no more than the viewer, which keeps no more than there are. *)
Theorem acceptance_tests_nested (filter_distance : Z) (s : scan) :
  (length (scan_points filter_distance s) <= length (Worker.points_of s))%nat /\
  (length (Worker.points_of s) <= length (Viewer.new_points s))%nat /\
  (length (Viewer.new_points s) <= length s)%nat.
Proof.
  induction s as [|m s (IH1 & IH2 & IH3)]; [repeat split; reflexivity |].
  cbn [scan_points Worker.points_of Viewer.new_points length].
  unfold convert, F64.gtb.
  destruct (0 <? distance m); cbn [andb];
    destruct (distance m <=? F64.float_of_int filter_distance);
    destruct (quality m >? 0)%Z; cbn [andb];
    try destruct (cartesian m); cbn [length]; repeat split; lia.
Qed.

(** The batches that [scan_worker] has put on the queue hold accepted
    points only. *)
Definition accepted_point (filter_distance : Z) (p : pyval) : Prop :=
  exists d, distance_of p = Some d /\
            (0 <? d) = true /\ (d <=? F64.float_of_int filter_distance) = true.

Definition accepted_message (filter_distance : Z) (m : message) : Prop :=
  match m with
  | Data points => points <> [] /\ Forall (accepted_point filter_distance) points
  | Fault _ => True
  end.

Lemma scan_points_accepted filter_distance s :
  Forall (accepted_point filter_distance) (scan_points filter_distance s).
Proof.
  induction s as [|m s IH]; [constructor |]. cbn [scan_points].
  destruct (convert filter_distance m) as [p |] eqn:E; [| exact IH].
  constructor; [| exact IH].
  destruct (convert_some _ _ _ E) as (Hd & Hpos & Hle & _).
  exists (distance m). auto.
Qed.

(** X6.  What the scan worker of the mapping window puts on the queue.
    A thread that sees [is_scanning] cleared adds nothing.  Otherwise
    it only appends: every batch is non-empty and made of points that
    pass the distance filter, and a fault, if there is one, is the last
    message, after which the thread has ended. *)
Theorem scan_worker_queue (frames : list frame) (g : gui) :
  (is_scanning g = false -> scan_worker frames g = g) /\
  exists added,
    scan_worker frames g = set_data_queue (data_queue g ++ added) g /\
    Forall (accepted_message (filter_distance g)) added /\
    forallb is_data (removelast added) = true.
Proof.
  split.
  - intros Hs. destruct frames as [|[s | e] frames]; cbn [scan_worker];
      try rewrite Hs; reflexivity.
  - revert g. induction frames as [|f frames IH]; intros g.
    + exists []. rewrite app_nil_r. destruct g. repeat split. constructor.
    + destruct f as [s | e]; cbn [scan_worker].
      * destruct (is_scanning g); cbn [negb].
        -- pose proof (scan_points_accepted (filter_distance g) s) as Hacc.
           destruct (scan_points (filter_distance g) s) as [|p pts] eqn:Hp.
           ++ apply IH.
           ++ destruct (IH (set_data_queue (data_queue g ++ [Data (p :: pts)]) g))
                as (added & E & Hall & Hlast).
              exists (Data (p :: pts) :: added). rewrite E.
              cbn [data_queue set_data_queue filter_distance] in *.
              rewrite <- app_assoc. split; [reflexivity | split].
              ** constructor; [split; [discriminate | exact Hacc] | exact Hall].
              ** destruct added; [reflexivity |].
                 cbn [removelast forallb is_data andb] in *. exact Hlast.
        -- exists []. rewrite app_nil_r. destruct g. repeat split. constructor.
      * destruct (is_scanning g).
        -- exists [Fault e]. repeat split. constructor; [exact I | constructor].
        -- exists []. rewrite app_nil_r. destruct g. repeat split. constructor.
Qed.

End Filters.

Lemma refilter_is_rescan_witness :
  (F64.float_of_int 500 <=? F64.float_of_int 8000)%float = true /\
  shown 500 (MappingGUI.scan_points (np := Sensor.poly_numpy) 8000
               [sample_measurement; Sensor.mk 12 0 400])
  = Some (MappingGUI.scan_points (np := Sensor.poly_numpy) 500
            [sample_measurement; Sensor.mk 12 0 400]).
Proof.
  assert (H : (F64.float_of_int 500 <=? F64.float_of_int 8000)%float = true) by reflexivity.
  split; [exact H |].
  exact (proj1 (refilter_is_rescan (np := Sensor.poly_numpy) 500 8000
                  [sample_measurement; Sensor.mk 12 0 400] H)).
Defined.

(* ================================================================== *)
(** * Further properties of the scheduler *)
(* ================================================================== *)

Section Periods.
Import PyVal MappingGUI.
Local Open Scope Z_scope.

Variable plot_raises : nat -> list pyval -> Z -> option exn.

(** The loop on a queue in two parts: when it raises in the first, the
    second stays on the queue. *)
Lemma raising_drain_app every a : forall b g,
  Raising.drain plot_raises every (a ++ b) g
  = match Raising.drain plot_raises every a g with
    | Raising.Done g' => Raising.drain plot_raises every b g'
    | Raising.Raised e g' => Raising.Raised e (set_data_queue (data_queue g' ++ b) g')
    end.
Proof.
  induction a as [|m a IH]; intros b g; [reflexivity |].
  destruct m as [points | d]; cbn [app].
  - rewrite !raising_drain_cons_data.
    destruct (_ =? _); [| apply IH].
    destruct (Raising.update_visualization plot_raises _) as [g3 | e g3];
      [apply IH | reflexivity].
  - cbn [Raising.drain].
    destruct (Raising.stop_scan plot_raises _) as [g1 | e g1];
      [apply IH | reflexivity].
Qed.

(** Neither the loop nor the plot reads the timer. *)
Lemma raising_drain_set_timer every items : forall b g,
  Raising.drain plot_raises every items (set_timer b g)
  = Raising.map_state (set_timer b) (Raising.drain plot_raises every items g).
Proof.
  assert (Hu : forall b g,
             Raising.update_visualization plot_raises (set_timer b g)
             = Raising.map_state (set_timer b)
                 (Raising.update_visualization plot_raises g)).
  { intros b g. unfold Raising.update_visualization.
    cbn [all_points redraws filter_distance set_timer].
    destruct (Deque.is_empty _); [reflexivity |].
    destruct (plot_raises _ _ _); reflexivity. }
  induction items as [|m items IH]; intros b g; [reflexivity |].
  destruct m as [points | d].
  - rewrite !raising_drain_cons_data. cbn [scan_count set_timer].
    change (merge points (set_timer b g)) with (set_timer b (merge points g)).
    destruct (_ =? _); [| apply IH].
    rewrite Hu.
    destruct (Raising.update_visualization plot_raises (merge points g)) as [g3 | e g3];
      cbn [Raising.map_state]; [apply IH | reflexivity].
  - cbn [Raising.drain]. unfold Raising.stop_scan.
    change (set_is_scanning false (show (ShowError "Scan Error" None) (set_timer b g)))
      with (set_timer b (set_is_scanning false (show (ShowError "Scan Error" None) g))).
    rewrite Hu.
    destruct (Raising.update_visualization plot_raises _) as [g1 | e g1];
      cbn [Raising.map_state]; [apply IH | reflexivity].
Qed.

(** While [process_queue] is not scheduled the messages pile up. *)
Lemma ticks_unscheduled every arrivals : forall g log,
  timer g = false ->
  Raising.ticks plot_raises every arrivals (g, log)
  = (set_data_queue (data_queue g ++ concat arrivals) g, log).
Proof.
  unfold Raising.ticks.
  induction arrivals as [|a arrivals IH]; intros g log Ht; cbn [fold_left concat].
  - rewrite app_nil_r. destruct g; reflexivity.
  - unfold Raising.tick at 2. cbn [fst snd timer set_data_queue]. rewrite Ht.
    rewrite IH by exact Ht. cbn [data_queue set_data_queue].
    rewrite <- app_assoc. reflexivity.
Qed.

(** X7.  While the window scans, the periods of the timer in which
    only batches arrive can be taken together: the window, the queue
    and the exceptions reported are the same as if all the messages had
    arrived in one period, whatever arrives in the last one.  This
    holds also when a call of [update_visualization] raises, which ends
    the scheduling in both cases at the same message. *)
Theorem ticks_as_one_run (every : Z) (earlier : list (list message))
    (last : list message) (g : gui) (log : list exn) :
  timer g = true ->
  is_scanning g = true ->
  forallb is_data (data_queue g) = true ->
  forallb (forallb is_data) earlier = true ->
  Raising.ticks plot_raises every (earlier ++ [last]) (g, log)
  = Raising.ticks plot_raises every [concat earlier ++ last] (g, log).
Proof.
  revert g log. induction earlier as [|a earlier IH]; intros g log Ht Hs Hq Hall.
  - reflexivity.
  - cbn [forallb] in Hall. apply andb_prop in Hall. destruct Hall as [Ha Hrest].
    change (Raising.ticks plot_raises every ((a :: earlier) ++ [last]) (g, log))
      with (Raising.ticks plot_raises every (earlier ++ [last])
              (Raising.tick plot_raises every (g, log) a)).
    change (Raising.ticks plot_raises every [concat (a :: earlier) ++ last] (g, log))
      with (Raising.tick plot_raises every (g, log) (concat (a :: earlier) ++ last)).
    cbn [concat].
    unfold Raising.tick. cbn [fst snd timer set_data_queue]. rewrite Ht.
    unfold Raising.process_queue. cbn [data_queue set_data_queue].
    change (set_data_queue [] (set_data_queue (data_queue g ++ a) g))
      with (set_data_queue [] g).
    change (set_data_queue []
              (set_data_queue (data_queue g ++ (a ++ concat earlier) ++ last) g))
      with (set_data_queue [] g).
    replace (data_queue g ++ (a ++ concat earlier) ++ last)
      with ((data_queue g ++ a) ++ (concat earlier ++ last))
      by (rewrite <- !app_assoc; reflexivity).
    rewrite (raising_drain_app every (data_queue g ++ a) (concat earlier ++ last)).
    pose proof (drain_refines plot_raises every (data_queue g ++ a) (set_data_queue [] g))
      as Href.
    destruct (Raising.drain plot_raises every (data_queue g ++ a) (set_data_queue [] g))
      as [gd | e gr].
    + assert (Hsd : is_scanning gd = true).
      { rewrite Href, drain_is_scanning, forallb_app, Hq, Ha.
        cbn [is_scanning set_data_queue andb]. rewrite Hs. reflexivity. }
      assert (Hqd : data_queue gd = []).
      { rewrite Href, drain_data_queue. reflexivity. }
      rewrite Hsd.
      rewrite IH; [| reflexivity | exact Hsd | cbn [data_queue set_timer]; rewrite Hqd; reflexivity
                   | exact Hrest].
      change (Raising.ticks plot_raises every [concat earlier ++ last] (set_timer true gd, log))
        with (Raising.tick plot_raises every (set_timer true gd, log)
                (concat earlier ++ last)).
      unfold Raising.tick. cbn [fst snd timer set_timer set_data_queue].
      unfold Raising.process_queue. cbn [data_queue set_data_queue set_timer].
      rewrite Hqd. cbn [app].
      assert (E : set_data_queue [] (set_data_queue (concat earlier ++ last) (set_timer true gd))
                  = set_timer true gd).
      { destruct gd. cbn in Hqd |- *. subst. reflexivity. }
      rewrite E, raising_drain_set_timer.
      destruct (Raising.drain plot_raises every (concat earlier ++ last) gd);
        reflexivity.
    + rewrite ticks_unscheduled by reflexivity.
      rewrite concat_app. cbn [concat]. rewrite app_nil_r. reflexivity.
Qed.

(** A fault in an earlier period breaks this: it ends the scheduling,
    so what arrives later is read in one case and not in the other. *)
Example fault_ends_the_periods :
  let split := Raising.ticks Raising.never_raises redraw_every_full
                 [[Fault "timeout"]; [Data [sample_point]]] (scan_started, []) in
  let joined := Raising.ticks Raising.never_raises redraw_every_full
                  [[Fault "timeout"; Data [sample_point]]] (scan_started, []) in
  data_queue (fst split) = [Data [sample_point]] /\
  Deque.items (all_points (fst split)) = [] /\
  data_queue (fst joined) = [] /\
  Deque.items (all_points (fst joined)) = [sample_point].
Proof. vm_compute. repeat split. Qed.

End Periods.

(** Two batches and then a fault, over three periods and in one. *)
Lemma ticks_as_one_run_witness :
  Raising.ticks Raising.needs_rows MappingGUI.redraw_every_full
    ([[MappingGUI.Data [sample_point]]; [MappingGUI.Data [second_point]]]
       ++ [[MappingGUI.Fault "timeout"]]) (scan_started, [])
  = Raising.ticks Raising.needs_rows MappingGUI.redraw_every_full
      [[MappingGUI.Data [sample_point]; MappingGUI.Data [second_point];
        MappingGUI.Fault "timeout"]] (scan_started, []).
Proof.
  apply (ticks_as_one_run Raising.needs_rows MappingGUI.redraw_every_full
           [[MappingGUI.Data [sample_point]]; [MappingGUI.Data [second_point]]]
           [MappingGUI.Fault "timeout"] scan_started []); reflexivity.
Defined.

Section Drains.
Import PyVal MappingGUI.
Local Open Scope Z_scope.

Lemma drain_app every a : forall b g,
  drain every (a ++ b) g = drain every b (drain every a g).
Proof.
  induction a as [|m a IH]; intros b g; [reflexivity |].
  destruct m as [points | e]; cbn [app drain]; apply IH.
Qed.

(** The loop neither reads the queue field nor the timer. *)
Lemma drain_set_data_queue every items : forall q g,
  drain every items (set_data_queue q g) = set_data_queue q (drain every items g).
Proof.
  induction items as [|m items IH]; intros q g; [reflexivity |].
  destruct m as [points | e]; cbn [drain].
  - rewrite <- IH. f_equal.
    cbn [scan_count set_scan_count set_all_points set_data_queue all_points].
    destruct (_ =? _); reflexivity.
  - rewrite <- IH. reflexivity.
Qed.

Lemma drain_set_timer every items : forall b g,
  drain every items (set_timer b g) = set_timer b (drain every items g).
Proof.
  induction items as [|m items IH]; intros b g; [reflexivity |].
  destruct m as [points | e]; cbn [drain].
  - rewrite <- IH. f_equal.
    cbn [scan_count set_scan_count set_all_points set_timer all_points].
    destruct (_ =? _); reflexivity.
  - rewrite <- IH. reflexivity.
Qed.

Lemma set_data_queue_same g : set_data_queue (data_queue g) g = g.
Proof. destruct g; reflexivity. Qed.


End Drains.



(* ================================================================== *)
(** * The window as a whole: [FullLidarMappingGUI.py] *)
(* ================================================================== *)

Module Controls.

Import Sensor PyVal MappingGUI.

Definition set_connection_status (b : bool) (g : gui) : gui :=
  MappingGUI.mk b (is_scanning g) (all_points g) (scan_count g)
    (filter_distance g) (data_queue g) (timer g) (redraws g) (dialogs g).

(** [connect_to_lidar] with the port chosen in the combo box;
    [driver_ok] tells whether [RPLidar(port)], [get_info] and
    [get_health] all return. *)
Definition connect_to_lidar (port : string) (driver_ok : bool) (g : gui) : gui :=
  if String.eqb port "" then show (ShowError "Error" None) g
  else if driver_ok then show (ShowInfo "Success") (set_connection_status true g)
  else show (ShowError "Connection Error" None) g.

(** [disconnect_lidar]: the scan is stopped first; failures of the
    driver are swallowed. *)
Definition disconnect_lidar (g : gui) : gui :=
  set_connection_status false (stop_scan g).

(** [toggle_connection] *)
Definition toggle_connection (port : string) (driver_ok : bool) (g : gui) : gui :=
  if connection_status g then disconnect_lidar g
  else connect_to_lidar port driver_ok g.

(** [clear_data]: the store and the counter are reset and the plot is
    drawn afresh. *)
Definition clear_data (g : gui) : gui :=
  set_scan_count 0 (set_all_points (Deque.clear (all_points g)) g).

(** What can happen to the window: the buttons, the worker thread
    getting frames from the driver, and the timer. *)
Inductive action : Type :=
| ToggleConnection (port : string) (driver_ok : bool)
| StartScan
| StopScan
| WorkerRuns (f : frame)
| TimerFires
| ClearData
| Export (filename now : string)
| Load (f : file).

Section Run.
Context {np : Numpy}.
Variable py_float : string -> option float.
Variable plot_raises : list pyval -> Z -> option exn.

(** The timer runs [process_queue] only when it was armed. *)
Definition perform (g : gui) (a : action) : gui :=
  match a with
  | ToggleConnection port driver_ok => toggle_connection port driver_ok g
  | StartScan => start_scan redraw_every_full g
  | StopScan => stop_scan g
  | WorkerRuns f => scan_worker [f] g
  | TimerFires => if timer g then process_queue redraw_every_full g else g
  | ClearData => clear_data g
  | Export filename now => fst (export_data filename now g)
  | Load f => load_data py_float plot_raises f g
  end.

Definition session (actions : list action) : gui := fold_left perform actions init.

End Run.

(** What every state of the window satisfies. *)
Definition consistent (g : gui) : Prop :=
  Deque.maxlen (all_points g) = capacity /\
  Deque.len (all_points g) <= capacity /\
  (0 <= scan_count g)%Z /\
  (is_scanning g = true -> connection_status g = true).

End Controls.

Section WindowInvariant.
Import Sensor PyVal MappingGUI Controls.
Context {np : Numpy}.
Variable py_float : string -> option float.
Variable plot_raises : list pyval -> Z -> option exn.

Lemma consistent_store g d :
  Deque.maxlen d = Deque.maxlen (all_points g) ->
  Deque.len d <= Deque.maxlen d ->
  consistent g -> consistent (set_all_points d g).
Proof.
  intros Hm Hl (H1 & H2 & H3 & H4). unfold consistent.
  cbn [all_points set_all_points scan_count is_scanning connection_status].
  rewrite Hm, H1 in *. auto.
Qed.

Lemma consistent_show g d : consistent g -> consistent (show d g).
Proof. intros H. exact H. Qed.

Lemma drain_connection_status every items : forall g,
  connection_status (drain every items g) = connection_status g.
Proof.
  induction items as [|m items IH]; intros g; [reflexivity |].
  destruct m as [points | e]; cbn [drain]; rewrite IH.
  - destruct (_ =? _)%Z; reflexivity.
  - reflexivity.
Qed.

Lemma consistent_process_queue every g :
  consistent g -> consistent (process_queue every g).
Proof.
  intros (H1 & H2 & H3 & H4). unfold consistent, process_queue.
  cbn [all_points scan_count is_scanning connection_status set_timer].
  rewrite drain_all_points, drain_scan_count, drain_is_scanning, drain_connection_status.
  cbn [all_points scan_count is_scanning connection_status set_data_queue].
  rewrite Deque.extend_maxlen.
  assert (Hwf : Deque.wf (Deque.extend (all_points g) (data_points (data_queue g))))
    by (apply Deque.extend_wf; unfold Deque.wf; rewrite H1; exact H2).
  unfold Deque.wf in Hwf. rewrite Deque.extend_maxlen, H1 in Hwf.
  repeat split; [exact H1 | exact Hwf | lia |].
  intros H. apply andb_prop in H. apply H4, H.
Qed.

Lemma consistent_cleared g :
  consistent g -> consistent (set_all_points (Deque.clear (all_points g)) g).
Proof.
  intros H. apply consistent_store; [reflexivity | | exact H].
  unfold Deque.len. cbn. apply Nat.le_0_l.
Qed.

Lemma consistent_perform g a :
  consistent g -> consistent (perform py_float plot_raises g a).
Proof.
  intros H. destruct a as [port ok | | | f | | | name now | f]; cbn [perform].
  - unfold toggle_connection, disconnect_lidar, connect_to_lidar.
    destruct H as (H1 & H2 & H3 & H4).
    destruct (connection_status g) eqn:Hc;
      [| destruct (String.eqb port ""); [| destruct ok]];
      unfold consistent;
      cbn [all_points scan_count is_scanning connection_status stop_scan show
           update_visualization set_is_scanning set_connection_status];
      rewrite ?Hc; repeat split; auto; discriminate.
  - unfold start_scan. destruct (connection_status g) eqn:Hc; cbn [negb]; [| exact H].
    apply consistent_process_queue.
    apply (consistent_cleared (set_scan_count 0 (set_is_scanning true g))).
    destruct H as (H1 & H2 & H3 & H4). unfold consistent.
    cbn [all_points scan_count is_scanning connection_status set_scan_count set_is_scanning].
    repeat split; auto. lia.
  - destruct H as (H1 & H2 & H3 & H4). unfold consistent, stop_scan.
    cbn [all_points scan_count is_scanning connection_status
         update_visualization set_is_scanning].
    repeat split; auto. discriminate.
  - destruct (scan_worker_enqueues [f] g) as (added & -> & _). exact H.
  - destruct (timer g); [apply consistent_process_queue |]; exact H.
  - unfold clear_data.
    destruct (consistent_cleared g H) as (H1 & H2 & H3 & H4). unfold consistent.
    cbn [all_points scan_count is_scanning connection_status set_scan_count] in *.
    repeat split; auto. lia.
  - unfold export_data.
    destruct (Deque.is_empty (all_points g)); [exact H |].
    destruct (String.eqb name ""); [exact H |].
    destruct (endswith name ".json"); [exact H |].
    destruct (endswith name ".csv"); exact H.
  - unfold load_data.
    destruct (String.eqb (filename f) ""); [exact H |].
    destruct (read_points py_float f) as [e | [v |]]; [exact H | |].
    + destruct (iterate v) as [elems |]; [| exact (consistent_cleared g H)].
      set (d := Deque.extend (Deque.clear (all_points g)) elems).
      assert (Hc : consistent
                     (set_scan_count (Z.of_nat (length elems) / 100)
                        (set_all_points d (set_all_points (Deque.clear (all_points g)) g)))).
      { destruct H as (H1 & H2 & H3 & H4). unfold consistent.
        cbn [all_points scan_count is_scanning connection_status
             set_scan_count set_all_points].
        subst d. rewrite Deque.extend_maxlen. cbn [Deque.maxlen Deque.clear].
        assert (Hwf : Deque.wf (Deque.extend (Deque.clear (all_points g)) elems))
          by (apply Deque.extend_wf; unfold Deque.wf; cbn; apply Nat.le_0_l).
        unfold Deque.wf in Hwf. rewrite Deque.extend_maxlen in Hwf.
        cbn [Deque.maxlen Deque.clear] in Hwf. rewrite H1 in Hwf.
        repeat split; auto. apply Z.div_pos; lia. }
      destruct (if Deque.is_empty _ then None else _); exact Hc.
    + exact (consistent_cleared g H).
Qed.

(** X9.  Whatever is done with the window, in whatever order (connect
    and disconnect, start and stop, frames read by the worker, timer
    runs, clearing, export, import of any file), the store keeps the
    capacity it was created with and never holds more points than
    that, the scan counter is never negative, and the window is scanning
    only while it is connected. *)
Theorem window_stays_consistent (actions : list action) :
  consistent (session py_float plot_raises actions).
Proof.
  unfold session.
  assert (H0 : consistent init).
  { unfold consistent. repeat split; try reflexivity; try discriminate.
    apply Nat.le_0_l. }
  revert H0. generalize init.
  induction actions as [|a actions IH]; intros g H; [exact H |].
  cbn [fold_left]. apply IH, consistent_perform, H.
Qed.

End WindowInvariant.

(* ================================================================== *)
(** * Further properties of the import *)
(* ================================================================== *)

Section Imports.
Import PyVal MappingGUI.
Variable py_float : string -> option float.
Variable plot_raises : list pyval -> Z -> option exn.

(** The window after [load_data] has put the items [elems] into the
    store. *)
Lemma load_data_items f g v elems :
  String.eqb (filename f) "" = false ->
  read_points py_float f = inr (Some v) ->
  iterate v = Some elems ->
  Deque.wf (all_points g) ->
  Deque.items (all_points (load_data py_float plot_raises f g))
  = Py.last_n (Deque.maxlen (all_points g)) elems /\
  scan_count (load_data py_float plot_raises f g) = (Z.of_nat (length elems) / 100)%Z /\
  redraws (load_data py_float plot_raises f g) = S (redraws g).
Proof.
  intros Hn Hr Hi Hwf. unfold load_data. rewrite Hn, Hr, Hi.
  destruct (if Deque.is_empty _ then None else _);
    cbn [all_points scan_count redraws show update_visualization
         set_scan_count set_all_points];
    (split; [| split; reflexivity]);
    rewrite Deque.extend_items by (unfold Deque.wf; cbn; apply Nat.le_0_l);
    reflexivity.
Qed.

(** [chars] cuts the text into its characters: the items, joined, are
    the text, and each is one character. *)
Lemma split_chars_spec s :
  (fst (split_chars s) ++ text_of (snd (split_chars s)))%string = s /\
  continuation_bytes (fst (split_chars s)) = true /\
  forallb is_character (snd (split_chars s)) = true.
Proof.
  induction s as [|c s (IHt & IHc & IHa)]; [repeat split |].
  cbn [split_chars]. destruct (split_chars s) as [k cs]. cbn [fst snd] in *.
  destruct (is_continuation c) eqn:Hc; cbn [fst snd text_of String.append].
  - rewrite IHt. cbn [continuation_bytes]. rewrite Hc, IHc. repeat split. exact IHa.
  - rewrite IHt. cbn [forallb is_character]. rewrite Hc, IHc, IHa. repeat split.
Qed.

Lemma chars_text s : text_of (chars s) = s.
Proof.
  unfold chars. destruct (split_chars_spec s) as (Ht & _ & _).
  destruct (split_chars s) as [[|c k] cs]; exact Ht.
Qed.

Lemma chars_characters c s :
  is_continuation c = false -> forallb is_character (chars (String c s)) = true.
Proof.
  intros Hc. unfold chars. destruct (split_chars_spec (String c s)) as (_ & _ & Ha).
  cbn [split_chars] in *. destruct (split_chars s) as [k cs]. rewrite Hc in *.
  exact Ha.
Qed.

(** X10.  A [.json] file whose [points] entry can be iterated is
    loaded without any check of what the items are.  The items replace
    the contents of the store (nothing of the old contents is kept),
    cut to the most recent ones when there are more than the capacity;
    the scan counter becomes their number divided by 100, rounded
    down.  A string is iterated by characters and an object by keys. *)
Theorem load_json_replaces_store (f : file) (g : gui)
    (d : list (string * pyval)) (v : pyval) (elems : list pyval) :
  endswith (filename f) ".json" = true ->
  json_load f = Some (PDict d) ->
  lookup "points" d = Some v ->
  iterate v = Some elems ->
  Deque.wf (all_points g) ->
  Deque.items (all_points (load_data py_float plot_raises f g))
  = Py.last_n (Deque.maxlen (all_points g)) elems /\
  scan_count (load_data py_float plot_raises f g) = (Z.of_nat (length elems) / 100)%Z /\
  redraws (load_data py_float plot_raises f g) = S (redraws g) /\
  (forall l, v = PList l -> elems = l) /\
  (forall s, v = PStr s ->
     elems = chars s /\ text_of elems = s /\
     forall c rest, s = String c rest -> is_continuation c = false ->
       forallb is_character elems = true) /\
  (forall items, v = PDict items -> elems = map (fun kv => PStr (fst kv)) items).
Proof.
  intros Hj Hl Hp Hi Hwf.
  destruct (load_data_items f g v elems) as (H1 & H2 & H3); try assumption.
  - apply (endswith_nonempty _ ".json"); [discriminate | exact Hj].
  - unfold read_points, read_json. rewrite Hj, Hl, Hp. reflexivity.
  - split; [exact H1 | split; [exact H2 | split; [exact H3 |]]].
    split; [| split].
    + intros l ->. injection Hi as <-. reflexivity.
    + intros s ->. injection Hi as <-.
      split; [reflexivity | split; [apply chars_text |]].
      intros c rest -> Hc. apply chars_characters, Hc.
    + intros items ->. injection Hi as <-. reflexivity.
Qed.










End Imports.


(** The text [aé]: two characters, of one and of two bytes. *)
Definition e_acute : string := String "195" (String "169" EmptyString).
Definition two_characters : string := String "a" e_acute.

Definition points_is_text : MappingGUI.file :=
  MappingGUI.mk_file "scan.json"
    (Some (PyVal.PDict [("points"%string, PyVal.PStr two_characters)])) [].

Lemma load_json_replaces_store_witness :
  Deque.items (MappingGUI.all_points two_points) = [sample_point; second_point] /\
  Deque.items
    (MappingGUI.all_points
       (MappingGUI.load_data no_float plot_succeeds points_is_text two_points))
  = Py.last_n MappingGUI.capacity [PyVal.PStr "a"; PyVal.PStr e_acute].
Proof.
  split; [vm_compute; reflexivity |].
  refine (proj1 (load_json_replaces_store no_float plot_succeeds
                   points_is_text two_points
                   [("points"%string, PyVal.PStr two_characters)]
                   (PyVal.PStr two_characters)
                   [PyVal.PStr "a"; PyVal.PStr e_acute]
                   eq_refl eq_refl eq_refl eq_refl _)).
  unfold Deque.wf. apply Nat.leb_le. vm_compute. reflexivity.
Defined.



(* ================================================================== *)
(** * Further properties of the room metrics *)
(* ================================================================== *)

Section RoomBox.
Import RoomMapper.
Local Open Scope float_scope.

(** X13.  The room mapper measures the list that its scan worker cuts
    back to 3000 points: whatever was scanned, either there are at most
    100 points and no metrics, or the metrics count more than 100 and
    at most 3000 points. *)
Theorem room_metrics_point_count {np : Sensor.Numpy} (scans : list Sensor.scan) :
  let v := Viewer.scan_worker Viewer.mapper_keep scans Viewer.init in
  match measure_room (Viewer.all_points v) with
  | None => (length (Viewer.all_points v) <= 100)%nat
  | Some m =>
      point_count m = length (Viewer.all_points v) /\
      (100 < point_count m <= Viewer.mapper_keep)%nat
  end.
Proof.
  intros v. destruct (room_mapper_store scans) as [_ Hb]. fold v in Hb.
  destruct (measure_room (Viewer.all_points v)) as [m |] eqn:E.
  - unfold measure_room in E.
    destruct (Nat.ltb_spec 100 (length (Viewer.all_points v))); [| discriminate].
    injection E as <-. cbn [point_count]. split; [reflexivity | split; assumption].
  - apply measure_room_none, E.
Qed.

Lemma numbers_app (a b : list (float * float)) :
  Forall (fun p => F64.number (fst p) /\ F64.number (snd p)) (a ++ b) ->
  Forall F64.number (map fst a) /\ Forall F64.number (map snd a) /\
  Forall F64.number (map fst (a ++ b)) /\ Forall F64.number (map snd (a ++ b)).
Proof.
  intros H.
  assert (Ha : Forall (fun p => F64.number (fst p) /\ F64.number (snd p)) a)
    by (apply Forall_app in H; apply H).
  repeat split; apply Forall_map;
    (eapply Forall_impl; [| first [exact Ha | exact H]]); intros p [H1 H2]; assumption.
Qed.

(** X14.  More points never shrink the box.  When further points are
    appended to more than 100 points, all with coordinates that are
    numbers, each lower bound of the new bounding box is at most the
    old one and each upper bound at least the old one. *)
Theorem bounding_box_grows (pts more : list (float * float)) :
  Forall (fun p => F64.number (fst p) /\ F64.number (snd p)) (pts ++ more) ->
  (100 < length pts)%nat ->
  exists m m' min_x min_y max_x max_y min_x' min_y' max_x' max_y',
    measure_room pts = Some m /\
    measure_room (pts ++ more) = Some m' /\
    bounds m = (min_x, min_y, max_x, max_y) /\
    bounds m' = (min_x', min_y', max_x', max_y') /\
    (min_x' <=? min_x) = true /\ (min_y' <=? min_y) = true /\
    (max_x <=? max_x') = true /\ (max_y <=? max_y') = true.
Proof.
  intros Hnum Hlen.
  destruct (numbers_app pts more Hnum) as (Hx & Hy & Hx' & Hy').
  assert (Hlen' : (100 < length (pts ++ more))%nat) by (rewrite length_app; lia).
  unfold measure_room.
  destruct (Nat.ltb_spec 100 (length pts)) as [_ | ?]; [| lia].
  destruct (Nat.ltb_spec 100 (length (pts ++ more))) as [_ | ?]; [| lia].
  do 10 eexists. split; [reflexivity |]. split; [reflexivity |].
  cbn [bounds]. split; [reflexivity |]. split; [reflexivity |].
  assert (N1 : map fst pts <> []) by (destruct pts; simpl in *; [lia | discriminate]).
  assert (N2 : map snd pts <> []) by (destruct pts; simpl in *; [lia | discriminate]).
  assert (N3 : map fst (pts ++ more) <> [])
    by (destruct pts; simpl in *; [lia | discriminate]).
  assert (N4 : map snd (pts ++ more) <> [])
    by (destruct pts; simpl in *; [lia | discriminate]).
  destruct (py_min_is_min _ N1 Hx) as [I1 _].
  destruct (py_min_is_min _ N2 Hy) as [I2 _].
  destruct (py_max_is_max _ N1 Hx) as [I3 _].
  destruct (py_max_is_max _ N2 Hy) as [I4 _].
  destruct (py_min_is_min _ N3 Hx') as [_ L1].
  destruct (py_min_is_min _ N4 Hy') as [_ L2].
  destruct (py_max_is_max _ N3 Hx') as [_ L3].
  destruct (py_max_is_max _ N4 Hy') as [_ L4].
  repeat split; [apply L1 | apply L2 | apply L3 | apply L4];
    rewrite map_app; apply in_or_app; left; assumption.
Qed.

End RoomBox.

Lemma bounding_box_grows_witness :
  exists m m' min_x min_y max_x max_y min_x' min_y' max_x' max_y',
    RoomMapper.measure_room diagonal_points = Some m /\
    RoomMapper.measure_room (diagonal_points ++ [(5000, -20)%float]) = Some m' /\
    RoomMapper.bounds m = (min_x, min_y, max_x, max_y) /\
    RoomMapper.bounds m' = (min_x', min_y', max_x', max_y') /\
    (min_x' <=? min_x)%float = true /\ (min_y' <=? min_y)%float = true /\
    (max_x <=? max_x')%float = true /\ (max_y <=? max_y')%float = true.
Proof.
  apply (bounding_box_grows diagonal_points [(5000, -20)%float]).
  - apply Forall_app. split; [exact diagonal_points_numbers |].
    constructor; [split; reflexivity | constructor].
  - apply Nat.ltb_lt. vm_compute. reflexivity.
Defined.

(* ================================================================== *)
(** * [LidarViewer.py], classes [RealTimePlot] and [FixedLidarGUI] *)
(* ================================================================== *)

Module QtWindow.

Import Worker.

(** A dialog of [QMessageBox], by kind and text. *)
Inductive box : Type :=
| Critical (text : string)
| Warning (text : string).

(** The fields of the window that the signals of the worker and the
    buttons write: its own list of points, the list of the plot
    ([RealTimePlot.points]), the counter, the connection flag and the
    dialogs shown. *)
Record window : Type := mk {
  all_points : list (float * float);
  plot_points : list (float * float);
  scan_count : Z;
  connection_state : bool;
  boxes : list box
}.

Definition init : window := mk [] [] 0 false [].

(** [RealTimePlot.max_points] *)
Definition max_points : nat := 5000.

(** The list of the plot after [RealTimePlot.update_plot]:
<<
    if new_points:
        self.points.extend(new_points)
        if len(self.points) > self.max_points:
            self.points = self.points[-self.max_points:]
>> *)
Definition update_plot (new_points points : list (float * float))
  : list (float * float) :=
  match new_points with
  | [] => points
  | _ =>
      let l := points ++ new_points in
      if (max_points <? length l)%nat then Py.slice_from_neg max_points l else l
  end.

(** [on_data_received] *)
Definition on_data_received (points : list (float * float)) (w : window) : window :=
  mk (all_points w ++ points) (update_plot points (plot_points w))
     (scan_count w + 1) (connection_state w) (boxes w).

(** [on_lidar_info] *)
Definition on_lidar_info (w : window) : window :=
  mk (all_points w) (plot_points w) (scan_count w) true (boxes w).

(** [disconnect_lidar] of the window *)
Definition disconnect_lidar (w : window) : window :=
  mk (all_points w) (plot_points w) (scan_count w) false (boxes w).

(** [on_error] *)
Definition on_error (text : string) (w : window) : window :=
  disconnect_lidar
    (mk (all_points w) (plot_points w) (scan_count w) (connection_state w)
        (boxes w ++ [Critical text])).

(** [start_scan] *)
Definition start_scan (w : window) : window :=
  if negb (connection_state w)
  then mk (all_points w) (plot_points w) (scan_count w) (connection_state w)
          (boxes w ++ [Warning "Not connected to RPLidar"])
  else mk [] [] 0 (connection_state w) (boxes w).

(** [clear_map] with the answer to its question. *)
Definition clear_map (yes : bool) (w : window) : window :=
  if yes then mk [] [] (scan_count w) (connection_state w) (boxes w) else w.

(** The slot that a signal of the worker is connected to. *)
Definition deliver (w : window) (s : signal) : window :=
  match s with
  | DataReady points => on_data_received points w
  | ErrorSignal text => on_error text w
  | InfoSignal => on_lidar_info w
  end.

(** What happens to the window. *)
Inductive event : Type :=
| Signal (s : signal)
| StartScan
| ClearMap (yes : bool)
| Disconnect.

Definition handle (w : window) (e : event) : window :=
  match e with
  | Signal s => deliver w s
  | StartScan => start_scan w
  | ClearMap yes => clear_map yes w
  | Disconnect => disconnect_lidar w
  end.

End QtWindow.

Section QtWindowFacts.
Import Sensor Worker QtWindow.
Local Open Scope Z_scope.

Lemma max_points_pos : (0 < max_points)%nat.
Proof. unfold max_points. lia. Qed.

Lemma update_plot_last_n new_points points :
  (length points <= max_points)%nat ->
  update_plot new_points points = Py.last_n max_points (points ++ new_points).
Proof.
  intros H. unfold update_plot. destruct new_points as [|p rest].
  - rewrite app_nil_r. symmetry. apply Py.last_n_all, H.
  - destruct (Nat.ltb_spec max_points (length (points ++ p :: rest))).
    + apply slice_from_neg_last_n, max_points_pos.
    + symmetry. apply Py.last_n_all. assumption.
Qed.

(** The window after the events [events]. *)
Definition window_after (events : list event) : window :=
  fold_left handle events QtWindow.init.

(** The events that are the arrival of batches of points. *)
Definition data_signals (batches : list (list (float * float))) : list event :=
  map (fun points => Signal (DataReady points)) batches.

Lemma handle_arrivals bs : forall w,
  all_points (fold_left handle (data_signals bs) w) = all_points w ++ concat bs.
Proof.
  induction bs as [|b bs IH]; intros w; cbn [data_signals map fold_left concat].
  - symmetry. apply app_nil_r.
  - fold (data_signals bs). rewrite IH. cbn [handle deliver on_data_received all_points].
    apply eq_sym, app_assoc.
Qed.

Lemma plot_invariant events : forall w,
  plot_points w = Py.last_n max_points (all_points w) ->
  plot_points (fold_left handle events w)
  = Py.last_n max_points (all_points (fold_left handle events w)).
Proof.
  induction events as [|e events IH]; intros w Hw; [exact Hw |].
  cbn [fold_left]. apply IH.
  destruct e as [[points | text |] | | [|] |]; cbn [handle deliver]; try exact Hw.
  - cbn [on_data_received plot_points all_points].
    rewrite update_plot_last_n by (rewrite Hw, Py.last_n_length; lia).
    rewrite Hw. apply Py.last_n_app.
  - unfold start_scan. destruct (connection_state w); cbn [negb]; [reflexivity | exact Hw].
  - reflexivity.
Qed.

(** X15.  The plot shows the most recent 5000 of the points that the
    window holds.  Whatever signals arrive and whatever buttons are
    pressed, the list of the plot is the last 5000 points of the
    window's own list.  That list is never cut: the batches that arrive
    are appended to it whole, and the plot then shows the last 5000 of
    the old and the new points together; only [start_scan] on a
    connected window and a confirmed [clear_map] empty the list, and no
    other event changes it. *)
Theorem plot_shows_last_points (events : list event) :
  let w := window_after events in
  plot_points w = Py.last_n max_points (all_points w) /\
  (length (plot_points w) <= max_points)%nat /\
  (forall batches,
      let w' := window_after (events ++ data_signals batches) in
      all_points w' = all_points w ++ concat batches /\
      plot_points w' = Py.last_n max_points (all_points w ++ concat batches) /\
      length (plot_points w')
      = Nat.min max_points (length (all_points w) + length (concat batches))) /\
  (forall e,
      all_points (handle w e)
      = match e with
        | Signal (DataReady points) => all_points w ++ points
        | StartScan => if connection_state w then [] else all_points w
        | ClearMap true => []
        | _ => all_points w
        end).
Proof.
  intros w.
  assert (E : plot_points w = Py.last_n max_points (all_points w))
    by (apply plot_invariant; reflexivity).
  split; [exact E | split; [rewrite E, Py.last_n_length; lia | split]].
  - intros batches w'.
    assert (Ea : all_points w' = all_points w ++ concat batches).
    { subst w' w. unfold window_after. rewrite fold_left_app. apply handle_arrivals. }
    assert (Ep : plot_points w' = Py.last_n max_points (all_points w')).
    { subst w'. apply plot_invariant. reflexivity. }
    split; [exact Ea | split].
    + rewrite Ep, Ea. reflexivity.
    + rewrite Ep, Ea, Py.last_n_length, length_app. reflexivity.
  - intros e. destruct e as [[points | text |] | | [|] |]; try reflexivity.
    cbn [handle]. unfold start_scan. destruct (connection_state w); reflexivity.
Qed.

Lemma deliver_data bs : forall w,
  let w' := fold_left deliver (map DataReady bs) w in
  all_points w' = all_points w ++ concat bs /\
  scan_count w' = scan_count w + Z.of_nat (length bs) /\
  connection_state w' = connection_state w /\
  boxes w' = boxes w.
Proof.
  induction bs as [|b bs IH]; intros w.
  - cbn [map fold_left concat length Z.of_nat]. rewrite app_nil_r.
    repeat split. lia.
  - cbn [map fold_left]. destruct (IH (deliver w (DataReady b))) as (Ha & Hs & Hc & Hb).
    cbv zeta. rewrite Ha, Hs, Hc, Hb.
    cbn [deliver on_data_received all_points scan_count connection_state boxes
         concat length].
    rewrite <- app_assoc, Nat2Z.inj_succ. repeat split. lia.
Qed.

(** A frame that was read and has an accepted point. *)
Definition gives_points {np : Numpy} (f : frame) : bool :=
  match f with
  | Frame s => match points_of s with [] => false | _ => true end
  | _ => false
  end.

(** On such frames the loop never ends by itself. *)
Lemma scan_loop_gives_points {np : Numpy} frames : forall w n,
  is_scanning w = true -> n < max_consecutive_errors ->
  forallb gives_points frames = true ->
  snd (scan_loop frames w n) = false.
Proof.
  induction frames as [|f frames IH]; intros w n Hs Hn Hall.
  - rewrite scan_loop_nil, Hs. cbn [snd andb].
    destruct (Z.ltb_spec n max_consecutive_errors); [reflexivity | lia].
  - cbn [forallb] in Hall. apply andb_prop in Hall. destruct Hall as [Hf Hrest].
    destruct f as [s | | e]; try discriminate.
    cbn [gives_points] in Hf.
    rewrite scan_loop_success; try assumption.
    + apply IH; [exact Hs | reflexivity | exact Hrest].
    + intros Hp. rewrite Hp in Hf. discriminate.
Qed.

Lemma batches_gives_points {np : Numpy} frames :
  forallb gives_points frames = true -> length (batches frames) = length frames.
Proof.
  induction frames as [|f frames IH]; [reflexivity |].
  cbn [forallb]. intros H. apply andb_prop in H. destruct H as [Hf Hrest].
  destruct f as [s | | e]; try discriminate.
  cbn [gives_points] in Hf.
  change (batches (Frame s :: frames))
    with (match points_of s with [] => [] | pts => [pts] end ++ batches frames).
  destruct (points_of s); [discriminate |].
  cbn [app length]. rewrite IH by exact Hrest. reflexivity.
Qed.

(** X16.  The worker and the window together.  When the thread has
    connected, the window that received its signals is marked
    connected and has shown no dialog, whatever became of the thread
    afterwards, be it that it ended on failures; its list holds the
    points of the frames read, in order, and its counter the number of
    those that had an accepted point.  The frames read are the first
    [k] of the frames delivered, all of them when the thread still
    waits for the next one, as it does when every frame had an accepted
    point: then the list holds the points of all the frames and the
    counter is their number. *)
Theorem window_after_worker {np : Numpy} (frames : list frame) :
  let o := run Connects frames Worker.init in
  let w := fold_left deliver (emitted (worker_of o)) QtWindow.init in
  connection_state w = true /\
  boxes w = [] /\
  (exists k,
      (k <= length frames)%nat /\
      (is_waiting o = true -> k = length frames) /\
      all_points w = concat (batches (firstn k frames)) /\
      plot_points w = Py.last_n max_points (concat (batches (firstn k frames))) /\
      scan_count w = Z.of_nat (length (batches (firstn k frames)))) /\
  (forallb gives_points frames = true ->
   is_waiting o = true /\
   all_points w = concat (batches frames) /\
   scan_count w = Z.of_nat (length frames)).
Proof.
  intros o w.
  destruct (scan_loop_emitted frames started 0) as (k & Hk & He & Hw).
  assert (E : emitted (worker_of o) = InfoSignal :: map DataReady (batches (firstn k frames))).
  { subst o. rewrite run_connects.
    destruct (scan_loop frames started 0) as [[v n] [|]]; exact He. }
  assert (Hwait : is_waiting o = negb (snd (scan_loop frames started 0))).
  { subst o. rewrite run_connects.
    destruct (scan_loop frames started 0) as [[v n] [|]]; reflexivity. }
  assert (Hfold : forall signals v,
             fold_left deliver signals v
             = fold_left handle (map Signal signals) v).
  { induction signals as [|s signals IH]; intros v; [reflexivity |].
    cbn [map fold_left]. rewrite IH. reflexivity. }
  assert (Hplot : plot_points w = Py.last_n max_points (all_points w)).
  { subst w. rewrite Hfold. apply plot_invariant. reflexivity. }
  destruct (deliver_data (batches (firstn k frames)) (on_lidar_info QtWindow.init))
    as (Ha & Hs & Hc & Hb).
  cbv zeta in Ha, Hs, Hc, Hb.
  assert (Ew : w = fold_left deliver (map DataReady (batches (firstn k frames)))
                     (on_lidar_info QtWindow.init)).
  { subst w. rewrite E. reflexivity. }
  assert (Hk' : is_waiting o = true -> k = length frames).
  { intros H. apply Hw. rewrite Hwait in H. apply negb_true_iff, H. }
  rewrite <- Ew in Ha, Hs, Hc, Hb.
  cbn [all_points scan_count connection_state boxes on_lidar_info QtWindow.init app Z.add]
    in Ha, Hs, Hc, Hb.
  split; [exact Hc | split; [exact Hb | split]].
  - exists k. split; [exact Hk | split; [exact Hk' |]].
    split; [exact Ha | split; [rewrite Hplot, Ha; reflexivity | exact Hs]].
  - intros Hall.
    assert (Hw' : is_waiting o = true).
    { rewrite Hwait. apply negb_true_iff.
      apply scan_loop_gives_points; [reflexivity | reflexivity | exact Hall]. }
    specialize (Hk' Hw'). subst k. rewrite firstn_all in Ha, Hs.
    split; [exact Hw' | split; [exact Ha |]].
    rewrite Hs, batches_gives_points by exact Hall. reflexivity.
Qed.

End QtWindowFacts.

(** Two frames with one accepted point each. *)
Lemma window_after_worker_witness :
  forallb (gives_points (np := Sensor.poly_numpy)) [good_frame; good_frame] = true /\
  (let o := Worker.run (np := Sensor.poly_numpy) Worker.Connects
              [good_frame; good_frame] Worker.init in
   let w := fold_left QtWindow.deliver (Worker.emitted (worker_of o)) QtWindow.init in
   is_waiting o = true /\
   QtWindow.all_points w = [(1000, 0); (1000, 0)]%float /\
   QtWindow.scan_count w = 2%Z).
Proof.
  assert (Hall : forallb (gives_points (np := Sensor.poly_numpy)) [good_frame; good_frame]
                 = true) by reflexivity.
  split; [exact Hall |]. intros o w.
  destruct (window_after_worker (np := Sensor.poly_numpy) [good_frame; good_frame])
    as (_ & _ & _ & H).
  destruct (H Hall) as (Hw & Ha & Hs).
  split; [exact Hw | split; [| exact Hs]].
  subst w o. rewrite Ha. vm_compute. reflexivity.
Defined.

(* ================================================================== *)
(** * [test_com_ports] of [LidarViewer.py] and [RoomMapperLidar.py] *)
(* ================================================================== *)

Module Ports.

Definition ports : list string := ["COM3"; "COM4"; "COM5"; "COM6"; "COM7"]%string.

(** The loop of [test_com_ports] over a list of ports.  [responds port]
    tells whether [RPLidar(port, timeout=2)], [get_info] and
    [disconnect] all return on that port; when one of them raises, the
    bare [except] goes on with the next port.
<<
    for port in ports:
        try:
            lidar = RPLidar(port, timeout=2)
            info = lidar.get_info()
            ...
            lidar.disconnect()
            return port
        except:
            ...
            continue
    return None
>> *)
Fixpoint probe (responds : string -> bool) (l : list string) : option string :=
  match l with
  | [] => None
  | port :: rest => if responds port then Some port else probe responds rest
  end.

Definition test_com_ports (responds : string -> bool) : option string :=
  probe responds ports.

End Ports.

Section PortFacts.
Import Ports.
Variable responds : string -> bool.

Lemma probe_some l : forall p,
  probe responds l = Some p <->
  exists before after,
    l = before ++ p :: after /\ responds p = true /\
    forallb (fun q => negb (responds q)) before = true.
Proof.
  induction l as [|port rest IH]; intros p; cbn [probe].
  - split; [discriminate | intros ([|? ?] & after & H & _); discriminate].
  - destruct (responds port) eqn:E.
    + split.
      * intros H. injection H as <-. exists [], rest. auto.
      * intros ([|q before] & after & H & Hp & Hb).
        -- injection H as -> _. reflexivity.
        -- injection H as <- _. cbn [forallb] in Hb. rewrite E in Hb. discriminate.
    + rewrite IH. split.
      * intros (before & after & -> & Hp & Hb).
        exists (port :: before), after. cbn [forallb app]. rewrite E, Hb. auto.
      * intros ([|q before] & after & H & Hp & Hb).
        -- injection H as <- _. congruence.
        -- injection H as _ ->. cbn [forallb] in Hb. apply andb_prop in Hb.
           exists before, after. intuition.
Qed.

Lemma probe_none l :
  probe responds l = None <-> forallb (fun q => negb (responds q)) l = true.
Proof.
  induction l as [|port rest IH]; cbn [probe forallb]; [intuition |].
  destruct (responds port); cbn [negb andb]; [| exact IH].
  split; discriminate.
Qed.

(** X17.  [test_com_ports] returns the first of COM3 to COM7 on which
    the device answers: a port is returned exactly when it answers and
    no port listed before it does, and [None] exactly when none of the
    five answers. *)
Theorem test_com_ports_first_responding :
  (forall p,
      test_com_ports responds = Some p <->
      exists before after,
        ports = before ++ p :: after /\ responds p = true /\
        forallb (fun q => negb (responds q)) before = true) /\
  (test_com_ports responds = None <->
   forallb (fun q => negb (responds q)) ports = true).
Proof. split; [intros p; apply probe_some | apply probe_none]. Qed.

End PortFacts.

(* ================================================================== *)
(** * The store after a run of the scheduler *)
(* ================================================================== *)

Section MergedStore.
Import PyVal MappingGUI.

Variable plot_raises : nat -> list pyval -> Z -> option exn.

(** X18.  The contents of the store after [process_queue], whether it
    returns or a call of [update_visualization] raises: the points of
    the batches read from the queue are appended in order and the oldest
    points are dropped beyond the capacity; the messages not read are
    still on the queue, and there are none when the method returns, as
    it does when the store and the batches are of a kind that the plot
    takes.
    When old and new points fit together nothing is dropped; when the
    new points alone reach the capacity nothing of the old contents is
    left. *)
Theorem process_queue_store (every : Z) (g : gui) :
  Deque.wf (all_points g) ->
  let o := Raising.process_queue plot_raises every g in
  exists read,
    data_queue g = read ++ data_queue (Raising.state_of o) /\
    (Raising.returns o = true -> read = data_queue g) /\
    (Raising.returns o = false -> read <> []) /\
    (forall P : pyval -> Prop,
        plots plot_raises P ->
        Forall P (Deque.items (all_points g)) ->
        Forall (batch_of P) (data_queue g) ->
        read = data_queue g) /\
    let old := Deque.items (all_points g) in
    let new := data_points read in
    let cap := Deque.maxlen (all_points g) in
    let store := Deque.items (all_points (Raising.state_of o)) in
    store = Py.last_n cap (old ++ new) /\
    length store = Nat.min cap (length old + length new) /\
    (length old + length new <= cap -> store = old ++ new) /\
    (cap <= length new -> store = Py.last_n cap new).
Proof.
  intros Hwf o.
  destruct (process_queue_refines plot_raises every g)
    as (read & unread & Eq & Hdone & Hraise & Hst).
  fold o in Hdone, Hraise, Hst.
  assert (Hall : Raising.returns o = true -> read = data_queue g).
  { intros H. rewrite Eq, (Hdone H). symmetry. apply app_nil_r. }
  exists read.
  split; [rewrite Hst; exact Eq | split; [exact Hall | split; [exact Hraise | split]]].
  { intros P Hplot Hg Hq. apply Hall. subst o.
    rewrite (process_queue_returns plot_raises P) by assumption. reflexivity. }
  intros old new cap store.
  assert (E : store = Py.last_n cap (old ++ new)).
  { subst store. rewrite Hst. cbn [all_points set_timer set_data_queue].
    rewrite drain_all_points. cbn [all_points set_data_queue].
    apply Deque.extend_items, Hwf. }
  split; [exact E |]. rewrite E. split; [| split].
  - rewrite Py.last_n_length, length_app. reflexivity.
  - intros H. apply Py.last_n_all. rewrite length_app. exact H.
  - intros H. unfold Py.last_n. rewrite length_app, skipn_app.
    replace (length old + length new - cap - length old) with (length new - cap) by lia.
    rewrite (skipn_all2 old) by lia. reflexivity.
Qed.

End MergedStore.

Lemma process_queue_store_witness :
  Deque.wf (MappingGUI.all_points fault_on_foreign_store) /\
  (let o := Raising.process_queue Raising.needs_rows MappingGUI.redraw_every_full
              fault_on_foreign_store in
   exists read,
     MappingGUI.data_queue fault_on_foreign_store
     = read ++ [MappingGUI.Data [sample_point]] /\
     Deque.items (MappingGUI.all_points (Raising.state_of o))
     = Py.last_n MappingGUI.capacity ([PyVal.PStr "a"] ++ data_points read)).
Proof.
  assert (Hwf : Deque.wf (MappingGUI.all_points fault_on_foreign_store))
    by (unfold Deque.wf; apply Nat.leb_le; vm_compute; reflexivity).
  split; [exact Hwf |]. intros o.
  destruct (process_queue_store Raising.needs_rows MappingGUI.redraw_every_full
              fault_on_foreign_store Hwf) as (read & Eq & _ & _ & _ & Hstore & _).
  exists read. split; [exact Eq | exact Hstore].
Defined.

(* ================================================================== *)
(** * [LidarMappingGUI.py], class [LidarMappingGUI] *)
(* ================================================================== *)

Module BasicGUI.

Import Sensor PyVal MappingGUI.
Local Open Scope float_scope.

(** [__init__]: the same fields as the full window, with a smaller
    store; this window has no distance filter. *)
Definition capacity : nat := 100000.
Definition init : gui := MappingGUI.mk false false (Deque.empty capacity) 0 0 [] false 0 [].

Section Acquisition.
Context {np : Numpy}.

(** The inner loop of [scan_worker]:
<<
    for quality, angle, distance in scan:
        if distance > 0 and quality > 0:
            ...
            points.append([x, y, quality])
>> *)
Fixpoint scan_points (s : scan) : list pyval :=
  match s with
  | [] => []
  | m :: rest =>
      if F64.gtb (distance m) 0 && (quality m >? 0)%Z
      then
        let '(x, y) := cartesian m in
        PList [PFloat x; PFloat y; PInt (quality m)] :: scan_points rest
      else scan_points rest
  end.

End Acquisition.

(** [save_data] with the file name returned by the dialog and the
    value of [time.time()].  The object is written with [json.dump]
    whatever the extension of the name. *)
Definition save_data (filename : string) (now : float) (g : gui) : gui * option pyval :=
  if Deque.is_empty (all_points g) then (show (ShowWarning "Warning") g, None)
  else if String.eqb filename "" then (g, None)
  else
    let data_to_save :=
      PDict [("points"%string, PList (Deque.items (all_points g)));
             ("scan_count"%string, PInt (scan_count g));
             ("timestamp"%string, PFloat now);
             ("total_points"%string, PInt (Z.of_nat (Deque.len (all_points g))))] in
    (show (ShowInfo "Success") g, Some data_to_save).

End BasicGUI.

Section BasicFiles.
Import Sensor PyVal MappingGUI.
Variable py_float : string -> option float.
Variable plot_raises : list pyval -> Z -> option exn.

(** X19.  A file saved by the basic window can be loaded by the full
    one.  [save_data] of a non-empty store writes an object whose
    [points] are the stored points; when the file has a name that ends
    in [.json], [load_data] of the full window puts exactly these
    points, in order, into a store that can hold them.  The basic
    window writes the object under any name, but under a name with
    another extension the full window does not read it. *)
Theorem basic_save_full_load (name : string) (now : float) (g : gui) :
  Deque.is_empty (all_points g) = false ->
  name <> ""%string ->
  exists doc,
    BasicGUI.save_data name now g = (show (ShowInfo "Success") g, Some doc) /\
    forall (f : file) (target : gui),
      filename f = name ->
      json_load f = Some doc ->
      Deque.len (all_points g) <= Deque.maxlen (all_points target) ->
      (endswith name ".json" = true ->
       Deque.items (all_points (load_data py_float plot_raises f target))
       = Deque.items (all_points g)) /\
      (endswith name ".json" = false -> endswith name ".csv" = false ->
       Deque.items (all_points (load_data py_float plot_raises f target)) = [] /\
       load_failed target (load_data py_float plot_raises f target)).
Proof.
  intros Hne Hname.
  assert (Hn : String.eqb name "" = false) by (apply String.eqb_neq, Hname).
  unfold BasicGUI.save_data. rewrite Hne, Hn.
  eexists. split; [reflexivity |].
  intros f target Hf Hload Hcap. split.
  - intros Hj. unfold load_data, read_points, read_json.
    rewrite Hf, Hn, Hj, Hload.
    cbn [lookup String.eqb Ascii.eqb Bool.eqb bind iterate].
    assert (E : Deque.items (Deque.extend (Deque.clear (all_points target))
                               (Deque.items (all_points g)))
                = Deque.items (all_points g))
      by (apply extend_into_cleared; exact Hcap).
    cbn [all_points set_all_points set_scan_count update_visualization
         filter_distance Deque.is_empty].
    destruct (if Deque.is_empty _ then None else _); exact E.
  - intros Hj Hc. unfold load_data, read_points. rewrite Hf, Hn, Hj, Hc.
    split; [reflexivity | exists (Some UnboundLocalError); reflexivity].
Qed.

End BasicFiles.

Lemma basic_save_full_load_witness :
  Deque.is_empty (MappingGUI.all_points two_points) = false /\
  exists doc,
    BasicGUI.save_data "scan.json" 1700000000 two_points
    = (MappingGUI.show (MappingGUI.ShowInfo "Success") two_points, Some doc) /\
    Deque.items
      (MappingGUI.all_points
         (MappingGUI.load_data no_float plot_succeeds
            (MappingGUI.mk_file "scan.json" (Some doc) []) MappingGUI.init))
    = Deque.items (MappingGUI.all_points two_points).
Proof.
  assert (Hne : Deque.is_empty (MappingGUI.all_points two_points) = false)
    by (vm_compute; reflexivity).
  assert (Hname : "scan.json"%string <> ""%string) by discriminate.
  split; [exact Hne |].
  destruct (basic_save_full_load no_float plot_succeeds
              "scan.json" 1700000000%float two_points Hne Hname)
    as (doc & Hdoc & Hback).
  exists doc. split; [exact Hdoc |].
  refine (proj1 (Hback (MappingGUI.mk_file "scan.json" (Some doc) []) MappingGUI.init
                   eq_refl eq_refl _) eq_refl).
  apply Nat.leb_le. vm_compute. reflexivity.
Defined.

Section BasicPoints.
Import Sensor PyVal.
Context {np : Numpy}.

(** The test of both inner loops: [distance > 0 and quality > 0]. *)
Definition accepted (m : measurement) : bool :=
  F64.gtb (distance m) 0 && (quality m >? 0)%Z.

(** The point that the basic window makes of a measurement. *)
Definition basic_point (m : measurement) : pyval :=
  PList [PFloat (fst (cartesian m)); PFloat (snd (cartesian m)); PInt (quality m)].

(** The coordinates and the quality of a point of the basic window. *)
Definition coordinates (p : pyval) : option (float * float) :=
  match p with
  | PList [PFloat x; PFloat y; PInt _] => Some (x, y)
  | _ => None
  end.

Definition quality_of (p : pyval) : option Z :=
  match p with
  | PList [PFloat _; PFloat _; PInt q] => Some q
  | _ => None
  end.

(** X20.  The basic window and the Qt worker accept the same
    measurements of a scan and compute the same coordinates for them:
    the points of the basic window are those of the worker, in the
    same order, each with the quality of its measurement as third
    entry. *)
Theorem basic_points_are_worker_points (s : scan) :
  Worker.points_of s = map cartesian (filter accepted s) /\
  BasicGUI.scan_points s = map basic_point (filter accepted s) /\
  map coordinates (BasicGUI.scan_points s) = map Some (Worker.points_of s) /\
  map quality_of (BasicGUI.scan_points s)
  = map (fun m => Some (quality m)) (filter accepted s) /\
  length (BasicGUI.scan_points s) = length (Worker.points_of s).
Proof.
  assert (Ew : forall l, Worker.points_of l = map cartesian (filter accepted l)).
  { induction l as [|m l IH]; [reflexivity |].
    cbn [Worker.points_of filter]. unfold accepted at 1.
    destruct (F64.gtb (distance m) 0 && (quality m >? 0)%Z); [| exact IH].
    cbn [map]. rewrite IH. reflexivity. }
  assert (Eb : forall l, BasicGUI.scan_points l = map basic_point (filter accepted l)).
  { induction l as [|m l IH]; [reflexivity |].
    cbn [BasicGUI.scan_points filter]. unfold accepted at 1.
    destruct (F64.gtb (distance m) 0 && (quality m >? 0)%Z); [| exact IH].
    rewrite IH. cbn [map].
    change (basic_point m)
      with (PList [PFloat (fst (cartesian m)); PFloat (snd (cartesian m));
                   PInt (quality m)]).
    destruct (cartesian m) as [x y]. reflexivity. }
  split; [apply Ew | split; [apply Eb |]].
  rewrite Eb, Ew, !map_map, !length_map.
  repeat split; apply map_ext; intros m; unfold basic_point; reflexivity.
Qed.

End BasicPoints.
